(** * DashboardProject backend: aggregation, reconciliation and debounce

    A shallow embedding of the Python backend

      - [services/fred_service.py]    (year-over-year calculator),
      - [services/data_aggregator.py] (reconciliation, upsert, orchestrator),
      - [api/routes.py]               (trend helper, manual-update debounce),

    together with the properties its specification states about them.

    Python values are embedded as follows.  A [float] is an IEEE-754 binary64
    number (Rocq's primitive floats, the same format and rounding as CPython's);
    a JSON object served by a provider is a [gmap string string]; exceptions are
    an explicit error monad [Py.result]; the ORM tables are lists of rows in
    table order; a [datetime] is a count of microseconds. *)

From Stdlib Require Import ZArith Lia List Sorted Strings.String Strings.Ascii.
From Stdlib Require Import Floats.PrimFloat Floats.SpecFloat Floats.FloatOps.
From Stdlib Require OrderedTypeEx.
From stdpp Require Import base option list gmap strings.

Local Open Scope string_scope.
Local Open Scope list_scope.
Local Open Scope Z_scope.

(* ===================================================================== *)
(** ** Python builtins used by the backend *)
(* ===================================================================== *)

Module Py.

(** The exception classes that the modelled code can meet
    ([IntegrityError] is the ORM's, raised on a unique-constraint
    violation). *)
Inductive exn : Set :=
| ValueError
| KeyError
| IndexError
| ZeroDivisionError
| OverflowError
| IntegrityError.

#[global] Instance exn_eq_dec : EqDecision exn.
Proof. solve_decision. Defined.

(** A computation either returns or raises. *)
Inductive result (A : Type) : Type :=
| Ok (a : A)
| Raise (e : exn).
Arguments Ok {A} a.
Arguments Raise {A} e.

#[global] Instance result_ret : MRet result := fun _ a => Ok a.
#[global] Instance result_bind : MBind result := fun _ _ f m =>
  match m with
  | Ok a => f a
  | Raise e => Raise e
  end.

#[global] Instance result_eq_dec {A} `{EqDecision A} : EqDecision (result A).
Proof. solve_decision. Defined.

Definition is_ok {A} (r : result A) : bool :=
  match r with Ok _ => true | Raise _ => false end.

(** [d[k]] on a dict: [KeyError] when the key is absent. *)
Definition getitem {V} (d : gmap string V) (k : string) : result V :=
  match d !! k with
  | Some v => Ok v
  | None => Raise KeyError
  end.

(** [l[-n:]]: the last [n] elements, the whole list when it is shorter. *)
Definition lastn {A} (n : nat) (l : list A) : list A :=
  drop (length l - n)%nat l.

(** *** Floats *)

Definition float_is_zero (x : float) : bool := PrimFloat.eqb x 0%float.

(** [a / b] on floats: a zero divisor (of either sign) raises. *)
Definition truediv (a b : float) : result float :=
  if float_is_zero b then Raise ZeroDivisionError else Ok (a / b)%float.

Definition sf_of_Z (z : Z) : spec_float :=
  match z with
  | Z0 => S754_zero false
  | Zpos p => S754_finite false p 0
  | Zneg p => S754_finite true p 0
  end.

(** [a / b] on ints (true division, [0 < b]): the float nearest to the
    exact quotient. *)
Definition int_truediv (a b : Z) : float :=
  SF2Prim (SFdiv prec emax (sf_of_Z a) (sf_of_Z b)).

(** Nearest integer to [n / 2^k], ties to even. *)
Definition shr_half_even (n : Z) (k : Z) : Z :=
  let d := 2 ^ k in
  let q := n / d in
  let r := n mod d in
  match (2 * r ?= d) with
  | Lt => q
  | Gt => q + 1
  | Eq => if Z.even q then q else q + 1
  end.

(** [round(x, 2)]: the exact binary value is rounded to the nearest
    multiple of 1/100, ties to even, and the resulting decimal is converted
    back to the nearest float; infinities, NaN and zeros are returned as
    they are, and the sign of [x] is kept. *)
Definition round2 (x : float) : float :=
  match Prim2SF x with
  | S754_finite s m e =>
      let hundredths :=
        if 0 <=? e then Z.pos m * 100 * 2 ^ e
        else shr_half_even (Z.pos m * 100) (- e) in
      match hundredths with
      | Zpos q => SF2Prim (SFdiv prec emax (S754_finite s q 0) (sf_of_Z 100))
      | _ => if s then (-0)%float else 0%float
      end
  | _ => x
  end.

(** [int(x)] on a finite float: truncation towards zero (it is only
    applied to finite floats). *)
Definition int_of_float (x : float) : Z :=
  match Prim2SF x with
  | S754_finite s m e =>
      let a := if 0 <=? e then Z.pos m * 2 ^ e else Z.pos m / 2 ^ (- e) in
      if s then - a else a
  | _ => 0
  end.

(** *** Dates and datetimes *)

Record date : Set := Date { year : Z; month : Z; day : Z }.

#[global] Instance date_eq_dec : EqDecision date.
Proof. solve_decision. Defined.

Definition is_leap (y : Z) : bool :=
  (y mod 4 =? 0) && (negb (y mod 100 =? 0) || (y mod 400 =? 0)).

Definition days_in_month (y m : Z) : Z :=
  if m =? 2 then (if is_leap y then 29 else 28)
  else if (m =? 4) || (m =? 6) || (m =? 9) || (m =? 11) then 30
  else 31.

(** [datetime(y, m, d).date()]: arguments that do not fit a C [int] raise
    [OverflowError], a date outside the calendar raises [ValueError]. *)
Definition c_int_ok (z : Z) : bool := (- 2 ^ 31 <=? z) && (z <? 2 ^ 31).

Definition mk_date (y m d : Z) : result date :=
  if negb (c_int_ok y && c_int_ok m && c_int_ok d) then Raise OverflowError
  else if negb ((1 <=? y) && (y <=? 9999)) then Raise ValueError
  else if negb ((1 <=? m) && (m <=? 12)) then Raise ValueError
  else if negb ((1 <=? d) && (d <=? days_in_month y m)) then Raise ValueError
  else Ok (Date y m d).

(** A naive [datetime], in microseconds since the first instant of year 1;
    two of them differ by less than [2 ^ 59], so that [total_seconds] is
    finite. *)
Definition datetime : Set := Z.

(** [(a - b).total_seconds()]. *)
Definition total_seconds (a b : datetime) : float :=
  int_truediv (a - b) 1000000.
Arguments total_seconds (a b)%_Z_scope.

End Py.

Import Py.

(* ===================================================================== *)
(** ** String parsers of the runtime *)
(* ===================================================================== *)

(** The two string parsers the backend calls, [float(s)] and
    [datetime.strptime(s, '%Y-%m-%d').date()], are taken as an interface:
    [None] stands for the [ValueError] they raise on a string they reject.
    Every general statement below holds for any implementation. *)
Class StrParsers : Type := {
  float_of_str : string -> option float;
  strptime_ymd : string -> option date
}.

Definition py_float `{StrParsers} (s : string) : result float :=
  match float_of_str s with
  | Some x => Ok x
  | None => Raise ValueError
  end.

Definition strptime `{StrParsers} (s : string) : result date :=
  match strptime_ymd s with
  | Some d => Ok d
  | None => Raise ValueError
  end.

(** An instance for the examples: plain decimal literals
    ([-12], [3.25], [.5]) and zero-padded [YYYY-MM-DD] dates, the forms the
    providers serve, on which it returns what CPython returns; the
    placeholder ["."] that FRED serves for a missing value is rejected. *)
Module Ascii_parsers.

Definition digit_of (c : ascii) : option Z :=
  let n := Z.of_N (N_of_ascii c) in
  if (48 <=? n) && (n <=? 57) then Some (n - 48) else None.

Fixpoint digits (s : string) (acc : Z) : option Z :=
  match s with
  | EmptyString => Some acc
  | String c s' =>
      match digit_of c with
      | Some d => digits s' (10 * acc + d)
      | None => None
      end
  end.

(** Splits at the first dot, which is dropped. *)
Fixpoint split_dot (s : string) : string * string :=
  match s with
  | EmptyString => (EmptyString, EmptyString)
  | String c s' =>
      if Ascii.eqb c "."%char then (EmptyString, s')
      else let '(a, b) := split_dot s' in (String c a, b)
  end.

Definition decimal_literal (s : string) : option float :=
  let '(neg, body) :=
    match s with
    | String c r =>
        if Ascii.eqb c "-"%char then (true, r)
        else if Ascii.eqb c "+"%char then (false, r)
        else (false, s)
    | EmptyString => (false, s)
    end in
  let '(ip, fp) := split_dot body in
  if (String.length ip + String.length fp =? 0)%nat then None
  else
    match digits (ip +:+ fp) 0 with
    | Some n =>
        let x := int_truediv n (10 ^ Z.of_nat (String.length fp)) in
        Some (if neg then (- x)%float else x)
    | None => None
    end.

Definition iso_date (s : string) : option date :=
  match s with
  | String y1 (String y2 (String y3 (String y4 (String s1
      (String m1 (String m2 (String s2 (String d1 (String d2
        EmptyString))))))))) =>
      if Ascii.eqb s1 "-"%char && Ascii.eqb s2 "-"%char then
        match digits (String y1 (String y2 (String y3 (String y4 EmptyString)))) 0,
              digits (String m1 (String m2 EmptyString)) 0,
              digits (String d1 (String d2 EmptyString)) 0 with
        | Some y, Some m, Some d =>
            match mk_date y m d with
            | Ok dt => Some dt
            | Raise _ => None
            end
        | _, _, _ => None
        end
      else None
  | _ => None
  end.

Definition parsers : StrParsers :=
  {| float_of_str := decimal_literal; strptime_ymd := iso_date |}.

End Ascii_parsers.

(* ===================================================================== *)
(** ** services/fred_service.py *)
(* ===================================================================== *)

Module FredService.

(** An element of the list built by [calculate_cpi_yoy_change]:
    [{'date': ..., 'value': ...}]. *)
Record yoy_point : Type := YoY { yoy_date : string; yoy_value : float }.

(** The exceptions of [except (ValueError, KeyError)]. *)
Definition handled (e : exn) : bool :=
  match e with
  | ValueError | KeyError => true
  | _ => false
  end.

(** [l[i]] for a non-negative index. *)
Definition index {A} (l : list A) (i : nat) : result A :=
  match l !! i with
  | Some a => Ok a
  | None => Raise IndexError
  end.

Section With_parsers.
Context `{StrParsers}.

(** The body of the [try] block, for one pair of observations. *)
Definition yoy_try (current year_ago : gmap string string) : result yoy_point :=
  cs ← getitem current "value";
  current_value ← py_float cs;
  ys ← getitem year_ago "value";
  year_ago_value ← py_float ys;
  q ← truediv (current_value - year_ago_value)%float year_ago_value;
  let yoy_change := (q * 100)%float in
  d ← getitem current "date";
  mret (YoY d (round2 yoy_change)).

(** [for i in range(12, len(observations))], the list [out] being
    [result]. *)
Fixpoint yoy_loop (observations : list (gmap string string))
    (range : list nat) (out : list yoy_point) : result (list yoy_point) :=
  match range with
  | [] => Ok out
  | i :: range' =>
      current ← index observations i;
      year_ago ← index observations (i - 12);
      match yoy_try current year_ago with
      | Ok p => yoy_loop observations range' (out ++ [p])
      | Raise e =>
          if handled e then yoy_loop observations range' out
          else Raise e
      end
  end.

Definition calculate_cpi_yoy_change
    (observations : list (gmap string string)) : result (list yoy_point) :=
  if (length observations <? 12)%nat then Ok []
  else yoy_loop observations (seq 12 (length observations - 12)) [].

End With_parsers.

End FredService.

Import FredService.

(* ===================================================================== *)
(** ** database/models.py *)
(* ===================================================================== *)

Module Models.

(** The four indicator columns of [EconomicIndicator], which are also the
    only keys the reconciliation puts in a per-date dict:
    ['global_gdp_growth'], ['us_gdp_growth'], ['federal_funds_rate'],
    ['inflation_rate']. *)
Inductive field : Set :=
| GlobalGdpGrowth
| UsGdpGrowth
| FederalFundsRate
| InflationRate.

#[global] Instance field_eq_dec : EqDecision field.
Proof. solve_decision. Defined.

#[global] Instance field_countable : Countable field.
Proof.
  refine (inj_countable'
    (fun f => match f with
              | GlobalGdpGrowth => 0%nat | UsGdpGrowth => 1%nat
              | FederalFundsRate => 2%nat | InflationRate => 3%nat
              end)
    (fun n => match n with
              | 0%nat => GlobalGdpGrowth | 1%nat => UsGdpGrowth
              | 2%nat => FederalFundsRate | _ => InflationRate
              end) _).
  intros []; reflexivity.
Defined.

(** A row of [economic_indicators]; a [Column(Float)] is nullable. *)
Record EconomicIndicator : Type := {
  ind_date : date;
  global_gdp_growth : option float;
  us_gdp_growth : option float;
  federal_funds_rate : option float;
  inflation_rate : option float;
  ind_created_at : datetime;
  ind_updated_at : datetime
}.

(** [getattr(row, name)] for a column name. *)
Definition column (f : field) (r : EconomicIndicator) : option float :=
  match f with
  | GlobalGdpGrowth => global_gdp_growth r
  | UsGdpGrowth => us_gdp_growth r
  | FederalFundsRate => federal_funds_rate r
  | InflationRate => inflation_rate r
  end.

(** [setattr(row, name, value)] for a column name. *)
Definition setattr (r : EconomicIndicator) (f : field) (v : float)
    : EconomicIndicator :=
  match f with
  | GlobalGdpGrowth =>
      {| ind_date := ind_date r; global_gdp_growth := Some v;
         us_gdp_growth := us_gdp_growth r;
         federal_funds_rate := federal_funds_rate r;
         inflation_rate := inflation_rate r;
         ind_created_at := ind_created_at r;
         ind_updated_at := ind_updated_at r |}
  | UsGdpGrowth =>
      {| ind_date := ind_date r; global_gdp_growth := global_gdp_growth r;
         us_gdp_growth := Some v;
         federal_funds_rate := federal_funds_rate r;
         inflation_rate := inflation_rate r;
         ind_created_at := ind_created_at r;
         ind_updated_at := ind_updated_at r |}
  | FederalFundsRate =>
      {| ind_date := ind_date r; global_gdp_growth := global_gdp_growth r;
         us_gdp_growth := us_gdp_growth r;
         federal_funds_rate := Some v;
         inflation_rate := inflation_rate r;
         ind_created_at := ind_created_at r;
         ind_updated_at := ind_updated_at r |}
  | InflationRate =>
      {| ind_date := ind_date r; global_gdp_growth := global_gdp_growth r;
         us_gdp_growth := us_gdp_growth r;
         federal_funds_rate := federal_funds_rate r;
         inflation_rate := Some v;
         ind_created_at := ind_created_at r;
         ind_updated_at := ind_updated_at r |}
  end.

Definition set_updated_at (now : datetime) (r : EconomicIndicator)
    : EconomicIndicator :=
  {| ind_date := ind_date r; global_gdp_growth := global_gdp_growth r;
     us_gdp_growth := us_gdp_growth r;
     federal_funds_rate := federal_funds_rate r;
     inflation_rate := inflation_rate r;
     ind_created_at := ind_created_at r;
     ind_updated_at := now |}.

(** A row of [stock_data]. *)
Record StockData : Type := {
  stock_date : date;
  open_price : float;
  close_price : float;
  high_price : float;
  low_price : float;
  volume : Z;
  market_cap : float;
  stock_created_at : datetime;
  stock_updated_at : datetime
}.

Inductive status : Set := Success | Partial | Failed.

#[global] Instance status_eq_dec : EqDecision status.
Proof. solve_decision. Defined.

Inductive update_type : Set := Automatic | Manual.

End Models.

Import Models.

(* ===================================================================== *)
(** ** services/data_aggregator.py *)
(* ===================================================================== *)

Module DataAggregator.

(** An element of [world_bank_service.get_global_gdp_growth()]:
    [{'year': int, 'value': float, 'country': ...}]. *)
Record gdp_item : Type := { gdp_year : Z; gdp_value : float }.

(** An element of [stock_service.get_historical_data()]. *)
Record ohlcv : Type := {
  bar_date : string;
  bar_open : float;
  bar_high : float;
  bar_low : float;
  bar_close : float;
  bar_volume : Z
}.

(** *** The per-date accumulator [data_by_date]

    A dict from dates to dicts from column names to floats, kept in
    insertion order. *)

Fixpoint lookup_date (d : date) (data_by_date : list (date * gmap field float))
    : option (gmap field float) :=
  match data_by_date with
  | [] => None
  | (d', values) :: rest =>
      if decide (d' = d) then Some values else lookup_date d rest
  end.

(** [if date not in data_by_date: data_by_date[date] = {}]
    [data_by_date[date][f] = value]. *)
Fixpoint set_field (d : date) (f : field) (v : float)
    (data_by_date : list (date * gmap field float))
    : list (date * gmap field float) :=
  match data_by_date with
  | [] => [(d, <[f := v]> ∅)]
  | (d', values) :: rest =>
      if decide (d' = d) then (d', <[f := v]> values) :: rest
      else (d', values) :: set_field d f v rest
  end.

(** One of the four [for ... try ... except (ValueError, KeyError):
    continue] loops; [parse] is the part of the body that computes [date]
    and [value]. *)
Fixpoint collect {A} (parse : A -> result (date * float)) (f : field)
    (items : list A) (data_by_date : list (date * gmap field float))
    : result (list (date * gmap field float)) :=
  match items with
  | [] => Ok data_by_date
  | item :: rest =>
      match parse item with
      | Ok (d, v) => collect parse f rest (set_field d f v data_by_date)
      | Raise e =>
          if handled e then collect parse f rest data_by_date
          else Raise e
      end
  end.

(** [sorted(global_gdp, key=lambda x: x['year'], reverse=True)]: a stable
    sort, elements of equal year keep their order. *)
Fixpoint insert_desc (x : gdp_item) (l : list gdp_item) : list gdp_item :=
  match l with
  | [] => [x]
  | y :: l' =>
      if gdp_year x <? gdp_year y then y :: insert_desc x l' else x :: l
  end.

Definition sorted_by_year_desc (l : list gdp_item) : list gdp_item :=
  foldr insert_desc [] l.

Definition latest_gdp_value (global_gdp : list gdp_item) : option float :=
  match global_gdp with
  | [] => None
  | _ =>
      match sorted_by_year_desc global_gdp with
      | top :: _ => Some (gdp_value top)
      | [] => None
      end
  end.

(** [for date in data_by_date: if 'global_gdp_growth' not in ...]. *)
Definition forward_fill (latest : option float)
    (data_by_date : list (date * gmap field float))
    : list (date * gmap field float) :=
  match latest with
  | None => data_by_date
  | Some v =>
      (fun '(d, values) =>
         match values !! GlobalGdpGrowth with
         | None => (d, <[GlobalGdpGrowth := v]> values)
         | Some _ => (d, values)
         end) <$> data_by_date
  end.

(** [date = datetime(item['year'], 12, 31).date()],
    [value = float(item['value'])]. *)
Definition parse_annual (item : gdp_item) : result (date * float) :=
  d ← mk_date (gdp_year item) 12 31;
  mret (d, gdp_value item).

Section With_parsers.
Context `{StrParsers}.

(** [date = datetime.strptime(obs['date'], '%Y-%m-%d').date()],
    [value = float(obs['value'])]. *)
Definition parse_observation (obs : gmap string string)
    : result (date * float) :=
  ds ← getitem obs "date";
  d ← strptime ds;
  vs ← getitem obs "value";
  v ← py_float vs;
  mret (d, v).

(** The same on an element of [inflation_data], whose value is a float
    already. *)
Definition parse_yoy (obs : yoy_point) : result (date * float) :=
  d ← strptime (yoy_date obs);
  mret (d, yoy_value obs).

(** Lines 49 to 113 of [update_economic_indicators]: the accumulator
    that is then written to the store. *)
Definition build_data_by_date
    (fed_rates : list (gmap string string)) (inflation_data : list yoy_point)
    (gdp_data : list (gmap string string)) (global_gdp : list gdp_item)
    : result (list (date * gmap field float)) :=
  acc ← collect parse_observation FederalFundsRate (lastn 12 fed_rates) [];
  acc ← collect parse_yoy InflationRate (lastn 12 inflation_data) acc;
  acc ← collect parse_observation UsGdpGrowth (lastn 8 gdp_data) acc;
  let latest := latest_gdp_value global_gdp in
  acc ← collect parse_annual GlobalGdpGrowth (lastn 5 global_gdp) acc;
  mret (forward_fill latest acc).

End With_parsers.

(** *** The store

    A table is the list of its rows.  The session is created with
    [autoflush=False]: a query sees the rows of the table, with the attribute
    changes made so far, and not the rows passed to [db.add], which are
    inserted by [db.commit()]. *)

Section Table.
Context {R : Type} (key : R -> date).

(** [db.query(T).filter(T.date == d).first()]. *)
Fixpoint query_first (d : date) (table : list R) : option R :=
  match table with
  | [] => None
  | r :: t => if decide (key r = d) then Some r else query_first d t
  end.

(** Attribute changes on the row that [query_first] returned. *)
Fixpoint modify_first (d : date) (f : R -> R) (table : list R) : list R :=
  match table with
  | [] => []
  | r :: t =>
      if decide (key r = d) then f r :: t else r :: modify_first d f t
  end.

(** [db.commit()]: the pending rows are inserted in the order of their
    [db.add]; [date] is a unique column. *)
Fixpoint flush (pending table : list R) : result (list R) :=
  match pending with
  | [] => Ok table
  | r :: p =>
      match query_first (key r) table with
      | Some _ => Raise IntegrityError
      | None => flush p (table ++ [r])
      end
  end.
End Table.

(** [for key, value in values.items(): setattr(existing, key, value)],
    then [existing.updated_at = datetime.utcnow()]. *)
Definition merge_values (now : datetime) (values : gmap field float)
    (existing : EconomicIndicator) : EconomicIndicator :=
  set_updated_at now
    (map_fold (fun key value row => setattr row key value) existing values).

(** [EconomicIndicator(date=date, **values)]. *)
Definition new_indicator (now : datetime) (d : date)
    (values : gmap field float) : EconomicIndicator :=
  {| ind_date := d;
     global_gdp_growth := values !! GlobalGdpGrowth;
     us_gdp_growth := values !! UsGdpGrowth;
     federal_funds_rate := values !! FederalFundsRate;
     inflation_rate := values !! InflationRate;
     ind_created_at := now;
     ind_updated_at := now |}.

(** [for date, values in data_by_date.items(): ...]; the state of the
    loop is the table, the rows added to the session and
    [updates_count]. *)
Fixpoint upsert_loop (now : datetime)
    (items : list (date * gmap field float))
    (table pending : list EconomicIndicator) (updates_count : nat)
    : list EconomicIndicator * list EconomicIndicator * nat :=
  match items with
  | [] => (table, pending, updates_count)
  | (d, values) :: rest =>
      match query_first ind_date d table with
      | Some _ =>
          upsert_loop now rest
            (modify_first ind_date d (merge_values now values) table)
            pending (S updates_count)
      | None =>
          upsert_loop now rest table
            (pending ++ [new_indicator now d values]) (S updates_count)
      end
  end.

(** Lines 115 to 136: the upsert of the accumulator and the commit. *)
Definition upsert_indicators (now : datetime)
    (data_by_date : list (date * gmap field float))
    (table : list EconomicIndicator)
    : result (list EconomicIndicator * nat) :=
  let '(table', pending, updates_count) :=
    upsert_loop now data_by_date table [] 0%nat in
  table'' ← flush ind_date pending table';
  mret (table'', updates_count).

(** *** The two steps *)

(** [str(e)], or a message given in the source. *)
Inductive message : Type :=
| Literal (s : string)
| StrOf (e : exn).

(** [{'status': 'success', 'count': n}] and
    [{'status': 'error', 'message': m}]. *)
Inductive step_result : Type :=
| StepSuccess (count : nat)
| StepError (m : message).

Record database : Type := {
  economic_indicators : list EconomicIndicator;
  stock_data : list StockData
}.

(** What the fetch adapters returned. *)
Record feeds : Type := {
  fed_rates : list (gmap string string);
  gdp_data : list (gmap string string);
  cpi_data : list (gmap string string);
  global_gdp : list gdp_item;
  stock_bars : list ohlcv
}.

(** [shares_outstanding = 24.6]. *)
Definition shares_outstanding : float := 0x1.899999999999ap+4%float.

Definition overwrite_stock (now : datetime) (item : ohlcv) (cap : float)
    (existing : StockData) : StockData :=
  {| stock_date := stock_date existing;
     open_price := bar_open item;
     close_price := bar_close item;
     high_price := bar_high item;
     low_price := bar_low item;
     volume := bar_volume item;
     market_cap := cap;
     stock_created_at := stock_created_at existing;
     stock_updated_at := now |}.

Definition new_stock (now : datetime) (d : date) (item : ohlcv) (cap : float)
    : StockData :=
  {| stock_date := d;
     open_price := bar_open item;
     close_price := bar_close item;
     high_price := bar_high item;
     low_price := bar_low item;
     volume := bar_volume item;
     market_cap := cap;
     stock_created_at := now;
     stock_updated_at := now |}.

Section With_parsers.
Context `{StrParsers}.

Definition update_economic_indicators (now : datetime) (src : feeds)
    (db : database) : database * step_result :=
  let run :=
    inflation_data ← calculate_cpi_yoy_change (cpi_data src);
    data_by_date ←
      build_data_by_date (fed_rates src) inflation_data (gdp_data src)
        (global_gdp src);
    upsert_indicators now data_by_date (economic_indicators db) in
  match run with
  | Ok (table, updates_count) =>
      ({| economic_indicators := table; stock_data := stock_data db |},
       StepSuccess updates_count)
  | Raise e => (db, StepError (StrOf e))
  end.

(** [for item in stock_data: try: ... except (ValueError, KeyError)]. *)
Fixpoint stock_loop (now : datetime) (items : list ohlcv)
    (table pending : list StockData) (updates_count : nat)
    : result (list StockData * list StockData * nat) :=
  match items with
  | [] => Ok (table, pending, updates_count)
  | item :: rest =>
      match strptime (bar_date item) with
      | Ok d =>
          let cap := round2 (bar_close item * shares_outstanding)%float in
          match query_first stock_date d table with
          | Some _ =>
              stock_loop now rest
                (modify_first stock_date d (overwrite_stock now item cap)
                   table)
                pending (S updates_count)
          | None =>
              stock_loop now rest table
                (pending ++ [new_stock now d item cap]) (S updates_count)
          end
      | Raise e =>
          if handled e then stock_loop now rest table pending updates_count
          else Raise e
      end
  end.

Definition update_stock_data (now : datetime) (src : feeds)
    (db : database) : database * step_result :=
  match stock_bars src with
  | [] =>
      (db, StepError (Literal "No stock data available from Alpha Vantage"))
  | _ =>
      let run :=
        '(table, pending, updates_count) ←
          stock_loop now (stock_bars src) (stock_data db) [] 0%nat;
        table' ← flush stock_date pending table;
        mret (table', updates_count) in
      match run with
      | Ok (table, updates_count) =>
          ({| economic_indicators := economic_indicators db;
              stock_data := table |},
           StepSuccess updates_count)
      | Raise e => (db, StepError (StrOf e))
      end
  end.

End With_parsers.

(** *** The orchestrator *)

(** An element of [results['errors']]: [f"{source}: {str(e)}"]. *)
Record error_entry : Type := { err_source : string; err_exn : exn }.

(** The dict [results]. *)
Record results : Type := {
  r_economic_indicators : option step_result;
  r_stock_data : option step_result;
  r_errors : list error_entry
}.

Record UpdateLog : Type := {
  log_timestamp : datetime;
  log_update_type : update_type;
  log_status : status;
  log_sources_updated : results;
  log_errors : option (list error_entry)
}.

Record update_summary : Type := {
  sum_status : status;
  sum_results : results
}.

(** [r and r.get('status') == 'success'] for a value of [results]. *)
Definition reported_success (r : option step_result) : bool :=
  match r with
  | Some (StepSuccess _) => true
  | _ => false
  end.

(** Lines 241 to 245. *)
Definition overall_status (res : results) : status :=
  match r_errors res with
  | _ :: _ =>
      if existsb reported_success
           [r_economic_indicators res; r_stock_data res]
      then Partial else Failed
  | [] => Success
  end.

(** A step as the orchestrator calls it: it changes the store and returns
    its result dict, or raises. *)
Definition step : Type := database -> database * result step_result.

Definition update_all_data (indicators_step stock_step : step)
    (now : datetime) (ty : update_type)
    (db : database) (logs : list UpdateLog)
    : database * list UpdateLog * update_summary :=
  let res0 :=
    {| r_economic_indicators := None; r_stock_data := None; r_errors := [] |} in
  let '(db1, o1) := indicators_step db in
  let res1 :=
    match o1 with
    | Ok r =>
        {| r_economic_indicators := Some r;
           r_stock_data := r_stock_data res0;
           r_errors := r_errors res0 |}
    | Raise e =>
        {| r_economic_indicators := r_economic_indicators res0;
           r_stock_data := r_stock_data res0;
           r_errors := r_errors res0 ++ [{| err_source := "Economic indicators";
                                            err_exn := e |}] |}
    end in
  let '(db2, o2) := stock_step db1 in
  let res2 :=
    match o2 with
    | Ok r =>
        {| r_economic_indicators := r_economic_indicators res1;
           r_stock_data := Some r;
           r_errors := r_errors res1 |}
    | Raise e =>
        {| r_economic_indicators := r_economic_indicators res1;
           r_stock_data := r_stock_data res1;
           r_errors := r_errors res1 ++ [{| err_source := "Stock data";
                                            err_exn := e |}] |}
    end in
  let st := overall_status res2 in
  let update_log :=
    {| log_timestamp := now;
       log_update_type := ty;
       log_status := st;
       log_sources_updated := res2;
       log_errors := match r_errors res2 with
                     | [] => None
                     | errs => Some errs
                     end |} in
  (db2, logs ++ [update_log], {| sum_status := st; sum_results := res2 |}).

(** The orchestrator on the two methods of this class, neither of which
    lets an exception through. *)
Definition run_update `{StrParsers} (now : datetime) (src : feeds)
    (ty : update_type) (db : database) (logs : list UpdateLog)
    : database * list UpdateLog * update_summary :=
  update_all_data
    (fun db => let '(db', r) := update_economic_indicators now src db in
               (db', Ok r))
    (fun db => let '(db', r) := update_stock_data now src db in (db', Ok r))
    now ty db logs.

End DataAggregator.

Import DataAggregator.

(* ===================================================================== *)
(** ** api/routes.py *)
(* ===================================================================== *)

Module Routes.

Inductive direction : Set := Up | Down | Neutral.

#[global] Instance direction_eq_dec : EqDecision direction.
Proof. solve_decision. Defined.

(** [{'trend': ..., 'trend_direction': ...}]. *)
Record trend_info : Type := {
  trend : option float;
  trend_direction : direction
}.

(** ['up' if x > 0 else 'down' if x < 0 else 'neutral']. *)
Definition direction_of (x : float) : direction :=
  if (0 <? x)%float then Up
  else if (x <? 0)%float then Down
  else Neutral.

Definition calculate_trend (current previous : option float) : trend_info :=
  match current, previous with
  | Some c, Some p =>
      if float_is_zero p then {| trend := None; trend_direction := Neutral |}
      else
        let trend_pct := (((c - p) / p) * 100)%float in
        let direction := direction_of trend_pct in
        {| trend := Some (round2 trend_pct); trend_direction := direction |}
  | _, _ => {| trend := None; trend_direction := Neutral |}
  end.

(** The trend calculator as the specification words it: the percentage is
    rounded first, and the direction is read off the rounded value. *)
Definition trend_as_specified (current previous : option float) : trend_info :=
  match current, previous with
  | Some c, Some p =>
      if float_is_zero p then {| trend := None; trend_direction := Neutral |}
      else
        let pct := round2 (((c - p) / p) * 100)%float in
        {| trend := Some pct; trend_direction := direction_of pct |}
  | _, _ => {| trend := None; trend_direction := Neutral |}
  end.

(** *** Manual update and its cooldown *)

Definition UPDATE_COOLDOWN_SECONDS : float := 30%float.

(** What the handler of [POST /update] answers. *)
Inductive response : Type :=
| TooSoon (wait : Z)
    (* HTTPException 429, "Please wait {wait} seconds before updating again" *)
| Completed (summary : update_summary)
    (* UpdateResponse *)
| InternalError (e : exn).
    (* HTTPException 500 *)

Definition is_too_soon (r : response) : bool :=
  match r with TooSoon _ => true | _ => false end.

(** The cooldown check of lines 251 to 257, at clock reading [now]:
    [Some wait] when the request is turned down. *)
Definition cooldown_check (last_manual_update : option datetime)
    (force : bool) (now : datetime) : option Z :=
  match last_manual_update with
  | Some last =>
      if negb force then
        let elapsed := total_seconds now last in
        if (elapsed <? UPDATE_COOLDOWN_SECONDS)%float
        then Some (int_of_float (UPDATE_COOLDOWN_SECONDS - elapsed)%float)
        else None
      else None
  | None => None
  end.

(** [trigger_manual_update]: the global [last_manual_update] is threaded
    as state; [t_check] and [t_set] are the readings of
    [datetime.utcnow()] at the check and at the assignment, and [update]
    is the call of [data_aggregator.update_all_data(db, 'manual')], made
    after the assignment, which returns a summary or raises. *)
Definition trigger_manual_update (last_manual_update : option datetime)
    (force : bool) (t_check t_set : datetime)
    (update : result update_summary)
    : option datetime * response :=
  match cooldown_check last_manual_update force t_check with
  | Some wait => (last_manual_update, TooSoon wait)
  | None =>
      let last_manual_update := Some t_set in
      match update with
      | Ok summary => (last_manual_update, Completed summary)
      | Raise e => (last_manual_update, InternalError e)
      end
  end.

End Routes.

Import Routes.

(* ===================================================================== *)
(** ** services/world_bank_service.py *)
(* ===================================================================== *)

Module WorldBankService.

(** An object of the array that [_make_request] returns, as far as the
    transformation reads it: [item['date']] ([None] when the key is absent)
    and [item.get('value')] ([None] for [null] and for an absent key). *)
Record wb_item : Type := {
  wb_date : option string;
  wb_value : option float
}.

(** [sorted(result, key=lambda x: x['year'])]: a stable sort, elements of
    equal year keep their order. *)
Fixpoint insert_asc (x : gdp_item) (l : list gdp_item) : list gdp_item :=
  match l with
  | [] => [x]
  | y :: l' =>
      if gdp_year y <? gdp_year x then y :: insert_asc x l' else x :: l
  end.

Definition sorted_by_year (l : list gdp_item) : list gdp_item :=
  foldr insert_asc [] l.

Section With_int.

(** [int(s)] on a string is taken as an interface, [None] standing for its
    [ValueError]. *)
Variable int_of_str : string -> option Z.

Definition py_int (s : string) : result Z :=
  match int_of_str s with
  | Some z => Ok z
  | None => Raise ValueError
  end.

(** The body of [for item in data]: an item without value is passed over,
    another one is appended with [int(item['date'])] as year and
    [round(item['value'], 2)] as value (the ['country'] entry, which no
    caller reads, is left out). *)
Definition transform (item : wb_item) : result (option gdp_item) :=
  match wb_value item with
  | None => Ok None
  | Some v =>
      s ← match wb_date item with
          | Some s => Ok s
          | None => Raise KeyError
          end;
      y ← py_int s;
      Ok (Some {| gdp_year := y; gdp_value := round2 v |})
  end.

Fixpoint transform_all (data : list wb_item) : result (list gdp_item) :=
  match data with
  | [] => Ok []
  | item :: rest =>
      point ← transform item;
      result ← transform_all rest;
      Ok (match point with
          | Some p => p :: result
          | None => result
          end)
  end.

(** [data] is what [_make_request] returned: [None] after a failed
    request, else the decoded array. *)
Definition get_global_gdp_growth (data : option (list wb_item))
    : result (list gdp_item) :=
  match data with
  | None | Some [] => Ok []
  | Some items =>
      result ← transform_all items;
      Ok (sorted_by_year result)
  end.

End With_int.

End WorldBankService.

Import WorldBankService.

(* ===================================================================== *)
(** ** services/alphavantage_service.py *)
(* ===================================================================== *)

Module AlphaVantageService.

(** The [outputsize] parameter of the request. *)
Inductive outputsize : Set := Compact | Full.

(** The value of ["Time Series (Daily)"] in the response: a dict from date
    strings to dicts of strings, in the order of its items. *)
Definition time_series : Type := list (string * gmap string string).

(** [result.sort(key=lambda x: x['date'])]: a stable sort on the date
    strings. *)
Fixpoint insert_by_date (x : ohlcv) (l : list ohlcv) : list ohlcv :=
  match l with
  | [] => [x]
  | y :: l' =>
      if String.ltb (bar_date y) (bar_date x) then y :: insert_by_date x l'
      else x :: l
  end.

Definition sorted_by_date (l : list ohlcv) : list ohlcv :=
  foldr insert_by_date [] l.

(** [period_days.get(period, 365)]. *)
Definition period_days (period : string) : Z :=
  match period with
  | "1d" => 1
  | "5d" => 5
  | "1mo" => 30
  | "3mo" => 90
  | "6mo" => 180
  | "1y" => 365
  | "2y" => 730
  | "5y" => 1825
  | "10y" => 3650
  | "ALL" => 7300
  | _ => 365
  end.

Section With_parsers.
Context `{StrParsers}.
Variable int_of_str : string -> option Z.

(** The dict built for one item of the time series. *)
Definition bar_of (date_str : string) (values : gmap string string)
    : result ohlcv :=
  o ← getitem values "1. open" ≫= py_float;
  h ← getitem values "2. high" ≫= py_float;
  l ← getitem values "3. low" ≫= py_float;
  c ← getitem values "4. close" ≫= py_float;
  v ← getitem values "5. volume" ≫= py_int int_of_str;
  Ok {| bar_date := date_str;
        bar_open := round2 o;
        bar_high := round2 h;
        bar_low := round2 l;
        bar_close := round2 c;
        bar_volume := v |}.

Fixpoint bars_of (series : time_series) : result (list ohlcv) :=
  match series with
  | [] => Ok []
  | (date_str, values) :: rest =>
      b ← bar_of date_str values;
      result ← bars_of rest;
      Ok (b :: result)
  end.

(** [response] is what [_make_request] did: it raised, or it returned a
    dict, of which [data.get("Time Series (Daily)")] is kept.  Whatever is
    raised inside the [try] ends in [return []]. *)
Definition get_daily_data (response : result (option time_series))
    : list ohlcv :=
  match response with
  | Ok (Some series) =>
      match bars_of series with
      | Ok result => sorted_by_date result
      | Raise _ => []
      end
  | Ok None => []
  | Raise _ => []
  end.

(** [request size] is the response to the request of that output size. *)
Definition get_historical_data
    (request : outputsize -> result (option time_series)) (period : string)
    : list ohlcv :=
  let days_needed := period_days period in
  let size := if 100 <? days_needed then Full else Compact in
  let all_data := get_daily_data (request size) in
  match all_data with
  | [] => []
  | _ =>
      if days_needed <? Z.of_nat (length all_data)
      then lastn (Z.to_nat days_needed) all_data
      else all_data
  end.

End With_parsers.

End AlphaVantageService.

Import AlphaVantageService.

(* ===================================================================== *)
(** ** services/stock_service.py *)
(* ===================================================================== *)

Module StockService.

(** What the random generator gives in one iteration of the demo loop: the
    three results of [random()] behind the calls of [random.uniform] and
    the result of [random.randint(20_000_000, 80_000_000)]. *)
Record draws : Type := {
  u_change : float;
  u_high : float;
  u_low : float;
  n_volume : Z
}.

(** [random.uniform(a, b)] is [a + (b - a) * random()]. *)
Definition uniform (a b u : float) : float := (a + (b - a) * u)%float.

(** [max(a, b)] and [min(a, b)] on two floats: the second one only when it
    is strictly greater, resp. smaller. *)
Definition py_max (a b : float) : float := if PrimFloat.ltb a b then b else a.
Definition py_min (a b : float) : float := if PrimFloat.ltb b a then b else a.

(** [date.weekday()] of the date of the given proleptic ordinal: Monday is
    0, Sunday is 6. *)
Definition weekday (ordinal : Z) : Z := (ordinal + 6) mod 7.

(** [period_days_map.get(period, 365)]. *)
Definition period_days_map (period : string) : Z :=
  match period with
  | "1d" => 1
  | "5d" => 5
  | "1mo" => 30
  | "3mo" => 90
  | "6mo" => 180
  | "1y" => 365
  | "2y" => 730
  | "5y" => 1825
  | "10y" => 3650
  | "ytd" => 365
  | "max" => 1825
  | _ => 365
  end.

Section Demo.

(** [date.strftime('%Y-%m-%d')] of the date of an ordinal is taken as an
    interface; [today] is the ordinal of [datetime.now().date()] and [rng]
    the successive draws. *)
Variable strftime_ymd : Z -> string.
Variable today : Z.
Variable rng : nat -> draws.

(** [for i in range(days, 0, -1)], from the iteration of index [i] on;
    [k] counts the draws made.  [current_date - timedelta(days=i)] raises
    [OverflowError] below the first day of year 1. *)
Fixpoint demo_loop (i : nat) (current_price : float) (k : nat)
    : result (list ohlcv) :=
  match i with
  | O => Ok []
  | S i' =>
      let date := today - Z.of_nat i in
      if date <? 1 then Raise OverflowError
      else if 5 <=? weekday date then demo_loop i' current_price k
      else
        let r := rng k in
        let daily_change :=
          uniform (- 0x1.eb851eb851eb8p-6) 0x1.eb851eb851eb8p-6 (u_change r) in
        let trend := 0x1.a36e2eb1c432dp-11%float in
        let open_price := current_price in
        let close_price :=
          (current_price * (1 + daily_change + trend))%float in
        let intraday_range :=
          (abs (close_price - open_price) * 0x1.8p+0)%float in
        let high_price :=
          (py_max open_price close_price
           + uniform 0 intraday_range (u_high r))%float in
        let low_price :=
          (py_min open_price close_price
           - uniform 0 intraday_range (u_low r))%float in
        data ← demo_loop i' close_price (S k);
        Ok ({| bar_date := strftime_ymd date;
               bar_open := round2 open_price;
               bar_high := round2 high_price;
               bar_low := round2 low_price;
               bar_close := round2 close_price;
               bar_volume := n_volume r |} :: data)
  end.

Definition generate_realistic_price_data (days : Z) (base_price : float)
    : result (list ohlcv) :=
  demo_loop (Z.to_nat days) base_price 0%nat.

Context `{StrParsers}.
Variable int_of_str : string -> option Z.

(** [alpha_vantage] is [None] without an API key, else the responses of the
    service to the requests of the adapter, which raises nothing. *)
Definition get_historical_data
    (alpha_vantage : option (outputsize -> result (option time_series)))
    (period : string) : result (list ohlcv) :=
  let demo_data :=
    generate_realistic_price_data (period_days_map period)
      0x1.7ap+7%float in
  match alpha_vantage with
  | Some request =>
      match AlphaVantageService.get_historical_data int_of_str request period
      with
      | [] => demo_data
      | data => Ok data
      end
  | None => demo_data
  end.

End Demo.

End StockService.

Import StockService.

(* ===================================================================== *)
(** ** api/routes.py: the indicator KPIs of the dashboard summary *)
(* ===================================================================== *)

Module DashboardSummary.







End DashboardSummary.

Import DashboardSummary.

(* ===================================================================== *)
(** ** Sample data *)
(* ===================================================================== *)

Module Samples.

(** A FRED observation [{'date': d, 'value': v}]. *)
Definition obs (d v : string) : gmap string string :=
  <["date" := d]> (<["value" := v]> ∅).

Definition months_2023 : list string :=
  ["2023-01-01"; "2023-02-01"; "2023-03-01"; "2023-04-01"; "2023-05-01";
   "2023-06-01"; "2023-07-01"; "2023-08-01"; "2023-09-01"; "2023-10-01";
   "2023-11-01"; "2023-12-01"].

(** Twelve monthly observations of value [v], then one of value [w]. *)
Definition flat_then (v w : string) : list (gmap string string) :=
  ((fun d => obs d v) <$> months_2023) ++ [obs "2024-01-01" w].

(** The same series, parsed: the dated values that [flat_then] spells. *)
Definition flat_points (x w : float) : list (string * float) :=
  ((fun d => (d, x)) <$> months_2023) ++ [("2024-01-01", w)].

Definition empty_db : database :=
  {| economic_indicators := []; stock_data := [] |}.

Definition no_feeds : feeds :=
  {| fed_rates := []; gdp_data := []; cpi_data := []; global_gdp := [];
     stock_bars := [] |}.

Definition bar_2024_01_02 : ohlcv :=
  {| bar_date := "2024-01-02"; bar_open := 119; bar_high := 121;
     bar_low := 118; bar_close := 120; bar_volume := 1000 |}.

(** Annual points [{2022: 2.5, 2023: 3.0}] and a few observations of the
    other series, one of them dated as the annual point of 2022. *)
Definition sample_feeds : feeds :=
  {| fed_rates := [obs "2022-06-01" "1.21"; obs "2022-12-31" "4.1";
                   obs "2023-07-01" "5.12"];
     gdp_data := [obs "2023-07-01" "4.9"];
     cpi_data := flat_then "100" "110";
     global_gdp := [ {| gdp_year := 2022; gdp_value := 2.5 |};
                     {| gdp_year := 2023; gdp_value := 3 |} ];
     stock_bars := [bar_2024_01_02] |}.

(** A store with one row, and an accumulator that names its date and a
    new one. *)
Definition july_2023 : date := Date 2023 7 1.
Definition year_end_2023 : date := Date 2023 12 31.

Definition sample_table : list EconomicIndicator :=
  [{| ind_date := july_2023;
      global_gdp_growth := None;
      us_gdp_growth := None;
      federal_funds_rate := Some 5%float;
      inflation_rate := Some 2%float;
      ind_created_at := 1;
      ind_updated_at := 1 |}].

Definition sample_items : list (date * gmap field float) :=
  [(july_2023, <[FederalFundsRate := 5.5%float]> (<[UsGdpGrowth := 4.75%float]> ∅));
   (year_end_2023, <[GlobalGdpGrowth := 3%float]> ∅)].

(** The sample feeds with a CPI series whose first twelve values are 0. *)
Definition zero_baseline_feeds : feeds :=
  {| fed_rates := fed_rates sample_feeds;
     gdp_data := gdp_data sample_feeds;
     cpi_data := flat_then "0" "110";
     global_gdp := global_gdp sample_feeds;
     stock_bars := stock_bars sample_feeds |}.

(** The summary of a manual run on the sample feeds. *)
Definition sample_summary : update_summary :=
  snd (@run_update Ascii_parsers.parsers 0 sample_feeds Manual empty_db []).

End Samples.


(* ===================================================================== *)
(** ** Vocabulary of the statements *)
(* ===================================================================== *)






(** The observation dict [o] carries the date [pt.1] and a value string
    that parses to [pt.2]. *)
Definition represents `{StrParsers} (o : gmap string string)
    (pt : string * float) : Prop :=
  o !! "date" = Some pt.1
  /\ exists s, o !! "value" = Some s /\ float_of_str s = Some pt.2.

(** The year-over-year point of index [i] in a series of dated values:
    the date of the [i]-th, and the change in percent from the value 12
    places earlier, rounded to 2 decimals. *)
Definition yoy_of (pts : list (string * float)) (i : nat) : option yoy_point :=
  match pts !! i, pts !! (i - 12)%nat with
  | Some (d, x), Some (_, x0) =>
      Some (YoY d (round2 (((x - x0) / x0) * 100)%float))
  | _, _ => None
  end.

(** The stored field values of an indicator row: its date and its four
    columns, the timestamps left out. *)
Definition stored (r : EconomicIndicator)
    : date * (option float * option float * option float * option float) :=
  (ind_date r,
   (global_gdp_growth r, us_gdp_growth r, federal_funds_rate r,
    inflation_rate r)).

(** The row already holds every value of the dict. *)
Definition covers (values : gmap field float) (r : EconomicIndicator) : Prop :=
  forall f v, values !! f = Some v -> column f r = Some v.

(** The rows that the upsert of [items] inserts in [table]: one for each
    date that has no row yet. *)
Definition fresh_rows (now : datetime) (items : list (date * gmap field float))
    (table : list EconomicIndicator) : list EconomicIndicator :=
  omap (fun '(d, values) =>
          match query_first ind_date d table with
          | None => Some (new_indicator now d values)
          | Some _ => None
          end) items.

(** The table after the in-place merges of the upsert of [items]. *)
Definition merged_table (now : datetime) (items : list (date * gmap field float))
    (table : list EconomicIndicator) : list EconomicIndicator :=
  foldl (fun t '(d, values) =>
           modify_first ind_date d (merge_values now values) t) table items.

(** The annual point of [items] that is dated [d], which is 31 December
    of its year: the last such one, which the loop writes last. *)
Fixpoint annual_point (d : date) (items : list gdp_item) : option gdp_item :=
  match items with
  | [] => None
  | item :: rest =>
      match annual_point d rest with
      | Some later => Some later
      | None =>
          if decide (mk_date (gdp_year item) 12 31 = Ok d) then Some item
          else None
      end
  end.

(** What the forward fill does to the dict of one date. *)
Definition fill_gdp (v : float) (values : gmap field float) : gmap field float :=
  match values !! GlobalGdpGrowth with
  | None => <[GlobalGdpGrowth := v]> values
  | Some _ => values
  end.

(** No dict of the accumulator has a global-GDP value. *)
Definition no_global_gdp (acc : list (date * gmap field float)) : Prop :=
  forall d values,
    lookup_date d acc = Some values -> values !! GlobalGdpGrowth = None.

(** The point the calculator emits for index [i], if it emits one. *)
Definition emitted `{StrParsers} (observations : list (gmap string string))
    (i : nat) : option yoy_point :=
  match observations !! i, observations !! (i - 12)%nat with
  | Some current, Some year_ago =>
      match yoy_try current year_ago with
      | Ok p => Some p
      | Raise _ => None
      end
  | _, _ => None
  end.

(** The pair of index [i] has values that parse and a zero baseline. *)
Definition divides_by_zero `{StrParsers}
    (observations : list (gmap string string)) (i : nat) : Prop :=
  exists current year_ago,
    observations !! i = Some current
    /\ observations !! (i - 12)%nat = Some year_ago
    /\ yoy_try current year_ago = Raise ZeroDivisionError.

(** The value that the last item of [items] dated [d] carries, among the
    items that [parse] accepts. *)
Fixpoint last_parsed {A} (parse : A -> result (date * float)) (d : date)
    (items : list A) : option float :=
  match items with
  | [] => None
  | item :: rest =>
      match last_parsed parse d rest with
      | Some v => Some v
      | None =>
          match parse item with
          | Ok (d', v) => if decide (d' = d) then Some v else None
          | Raise _ => None
          end
      end
  end.

(** Further sample data. *)
Module More_samples.

(** Fourteen observations, the thirteenth with FRED's placeholder. *)
Definition gap_series : list (gmap string string) :=
  ((fun d => Samples.obs d "100") <$> Samples.months_2023)
  ++ [Samples.obs "2024-01-01" "."; Samples.obs "2024-02-01" "110"].

(** Three observations of one series, two of them of the same day, and one
    whose date does not parse. *)
Definition repeated_day : list (gmap string string) :=
  [Samples.obs "2023-07-01" "5.0"; Samples.obs "soon" "5.1";
   Samples.obs "2023-08-01" "5.25"; Samples.obs "2023-07-01" "5.5"].

End More_samples.

(** Upserts by date in general: [merge v] changes the row that exists,
    [make d v] is the row inserted when none does. *)
Section Upsert_vocabulary.
Context {R V : Type} (key : R -> date).
Context (merge : V -> R -> R) (make : date -> V -> R).

(** The table after the in-place changes. *)
Definition merged_rows (items : list (date * V)) (table : list R) : list R :=
  foldl (fun t '(d, v) => modify_first key d (merge v) t) table items.

(** The rows added to the session, in the order of their [db.add]. *)
Definition inserted_rows (items : list (date * V)) (table : list R) : list R :=
  omap (fun '(d, v) =>
          match query_first key d table with
          | None => Some (make d v)
          | Some _ => None
          end) items.

(** The item of a given date, when dates are distinct. *)
Fixpoint item_of (d : date) (items : list (date * V)) : option V :=
  match items with
  | [] => None
  | (d', v) :: rest => if decide (d' = d) then Some v else item_of d rest
  end.

End Upsert_vocabulary.

(** The bars whose date parses, with that date. *)
Definition parsed_bars `{StrParsers} (bars : list ohlcv) : list (date * ohlcv) :=
  omap (fun item =>
          match strptime_ymd (bar_date item) with
          | Some d => Some (d, item)
          | None => None
          end) bars.

(** [round(item['close'] * shares_outstanding, 2)]. *)
Definition cap_of (item : ohlcv) : float :=
  round2 (bar_close item * shares_outstanding)%float.

(** The market capitalisation of the row is the one of its own close. *)
Definition cap_consistent (r : StockData) : Prop :=
  market_cap r = round2 (close_price r * shares_outstanding)%float.

(** The row holds the prices, the volume and the market capitalisation of
    the bar. *)
Definition holds_bar (item : ohlcv) (r : StockData) : Prop :=
  open_price r = bar_open item /\ close_price r = bar_close item
  /\ high_price r = bar_high item /\ low_price r = bar_low item
  /\ volume r = bar_volume item /\ market_cap r = cap_of item.

(** The stored field values of a stock row, the timestamps left out. *)
Definition stored_stock (r : StockData)
    : date * (float * float * float * float) * (Z * float) :=
  (stock_date r, (open_price r, close_price r, high_price r, low_price r),
   (volume r, market_cap r)).

(** The two branches of the stock upsert, as functions of the bar. *)
Definition stock_merge (now : datetime) (item : ohlcv) (existing : StockData)
    : StockData :=
  overwrite_stock now item (cap_of item) existing.

Definition stock_make (now : datetime) (d : date) (item : ohlcv) : StockData :=
  new_stock now d item (cap_of item).

(** Sample bars. *)
Module Stock_samples.

Definition bar (d : string) (close : float) : ohlcv :=
  {| bar_date := d; bar_open := 119; bar_high := 123; bar_low := 118;
     bar_close := close; bar_volume := 1000 |}.

Definition only_bars (bars : list ohlcv) : feeds :=
  {| fed_rates := []; gdp_data := []; cpi_data := []; global_gdp := [];
     stock_bars := bars |}.

(** Three bars, the second with a date that does not parse. *)
Definition mixed_bars : list ohlcv :=
  [bar "2024-01-02" 120; bar "n/a" 121; bar "2024-01-03" 122].

(** Two bars of the same day. *)
Definition same_day_bars : list ohlcv :=
  [bar "2024-01-02" 120; bar "2024-01-02" 121].

End Stock_samples.

(** A manual-update request as the handler sees it: its force flag, the
    two clock readings it makes, and what the update it starts would do. *)
Record request : Type := {
  req_force : bool;
  req_check : datetime;
  req_set : datetime;
  req_update : result update_summary
}.

Definition serve_one (last_manual_update : option datetime) (r : request)
    : option datetime * response :=
  trigger_manual_update last_manual_update (req_force r) (req_check r)
    (req_set r) (req_update r).

(** Requests served one after the other. *)
Fixpoint serve (last_manual_update : option datetime) (reqs : list request)
    : option datetime * list response :=
  match reqs with
  | [] => (last_manual_update, [])
  | r :: rest =>
      let '(last1, answer) := serve_one last_manual_update r in
      let '(last2, answers) := serve last1 rest in
      (last2, answer :: answers)
  end.

(** The years grow strictly along the list. *)
Definition years_ascending (l : list gdp_item) : Prop :=
  forall i j a b,
    (i < j)%nat -> l !! i = Some a -> l !! j = Some b ->
    gdp_year a < gdp_year b.

(** The point that the World Bank adapter makes of an item, if any. *)
Definition point_of (int_of_str : string -> option Z) (item : wb_item)
    : option gdp_item :=
  v ← wb_value item;
  s ← wb_date item;
  y ← int_of_str s;
  Some {| gdp_year := y; gdp_value := round2 v |}.

(** The item has a value but no date that [int] accepts. *)
Definition unreadable (int_of_str : string -> option Z) (item : wb_item)
    : Prop :=
  is_Some (wb_value item) /\ (wb_date item ≫= int_of_str) = None.


Module World_bank_samples.

Definition item (d : string) (v : option float) : wb_item :=
  {| wb_date := Some d; wb_value := v |}.

(** Decimal digits only, at least one. *)
Definition plain_int (s : string) : option Z :=
  match s with
  | EmptyString => None
  | _ => Ascii_parsers.digits s 0
  end.

(** Most recent year first, one value missing: 2.7251 for 2023 and 3.0904
    for 2022. *)
Definition response : list wb_item :=
  [ item "2024" None; item "2023" (Some 0x1.5cd013a92a305p+1%float);
    item "2022" (Some 0x1.8b923a29c779ap+1%float) ].

End World_bank_samples.

(** The date of [a] is not after the date of [b], as strings. *)
Definition date_le (a b : ohlcv) : Prop :=
  String.ltb (bar_date b) (bar_date a) = false.

(** The bar is the conversion of the entry: its date string, its four
    prices parsed and rounded to two decimals, its volume parsed. *)
Definition converts `{StrParsers} (int_of_str : string -> option Z)
    (entry : string * gmap string string) (b : ohlcv) : Prop :=
  bar_date b = entry.1
  /\ Some (bar_open b) = (round2 <$> (entry.2 !! "1. open" ≫= float_of_str))
  /\ Some (bar_high b) = (round2 <$> (entry.2 !! "2. high" ≫= float_of_str))
  /\ Some (bar_low b) = (round2 <$> (entry.2 !! "3. low" ≫= float_of_str))
  /\ Some (bar_close b) = (round2 <$> (entry.2 !! "4. close" ≫= float_of_str))
  /\ Some (bar_volume b) = (entry.2 !! "5. volume" ≫= int_of_str).

Module Alpha_vantage_samples.

Definition entry (d o h l c v : string) : string * gmap string string :=
  (d, {[ "1. open" := o; "2. high" := h; "3. low" := l; "4. close" := c;
         "5. volume" := v ]}).

(** Most recent day first, as the service answers. *)
Definition series : time_series :=
  [ entry "2024-01-04" "121.5" "123.456" "120" "122.004" "41000000";
    entry "2024-01-03" "120" "122" "119.5" "121.5" "39000000";
    entry "2024-01-02" "118.25" "120.5" "118" "120" "40000000" ].

(** The same with one volume that is no integer. *)
Definition broken_series : time_series :=
  [ entry "2024-01-04" "121.5" "123.456" "120" "122.004" "41000000";
    entry "2024-01-03" "120" "122" "119.5" "121.5" "n/a";
    entry "2024-01-02" "118.25" "120.5" "118" "120" "40000000" ].

End Alpha_vantage_samples.

(** The ordinals of the [n] days before [today], oldest first. *)
Definition days_before (today : Z) (n : nat) : list Z :=
  (fun j => today - Z.of_nat n + Z.of_nat j) <$> seq 0 n.

Definition is_weekday (ordinal : Z) : bool := weekday ordinal <? 5.

(** The feeds with another list of bars. *)
Definition with_bars (src : feeds) (bars : list ohlcv) : feeds :=
  {| fed_rates := fed_rates src;
     gdp_data := gdp_data src;
     cpi_data := cpi_data src;
     global_gdp := global_gdp src;
     stock_bars := bars |}.

Module Demo_samples.

(** The ordinal of Monday 2025-01-06. *)
Definition monday : Z := 739257.

(** The dates of the five days before it; the other days are not used. *)
Definition strftime_sample (ordinal : Z) : string :=
  match ordinal - 739252 with
  | 0 => "2025-01-01"
  | 1 => "2025-01-02"
  | 2 => "2025-01-03"
  | 3 => "2025-01-04"
  | 4 => "2025-01-05"
  | _ => ""
  end.

Definition flat : draws :=
  {| u_change := 0x1p-1; u_high := 0;
     u_low := 0; n_volume := 20000000 |}.

End Demo_samples.

Module Kpi_samples.

Definition row (d : date) (fed inflation : option float) : EconomicIndicator :=
  {| ind_date := d;
     global_gdp_growth := Some 3%float;
     us_gdp_growth := None;
     federal_funds_rate := fed;
     inflation_rate := inflation;
     ind_created_at := 0;
     ind_updated_at := 0 |}.

(** The year-end row has no rate: the rate of March is compared with the
    rate of February written after it. *)
Definition table : list EconomicIndicator :=
  [ row (Date 2024 3 1) (Some 5%float) None;
    row (Date 2024 12 31) None None;
    row (Date 2024 2 1) (Some 4%float) (Some 3%float) ].

End Kpi_samples.

(* ===================================================================== *)
(** * Properties *)
(* ===================================================================== *)

(** ** Status aggregation of the orchestrator *)

Section Orchestrator_status.

Variables (indicators_step stock_step : step).
Variables (now : datetime) (ty : update_type).
Variables (db : database) (logs : list UpdateLog).





End Orchestrator_status.


(** The two methods of the aggregator trap every exception themselves and
    return a result of status ['error'] instead: run on them, the
    orchestrator records no error and its status is ['success'], also when a
    step returned ['error']. *)
Remark run_update_never_records_an_error :
  forall (P : StrParsers) now src ty db logs,
    let sum := snd (run_update now src ty db logs) in
    r_errors (sum_results sum) = [] /\ sum_status sum = Success.
Proof.
  intros P now src ty db logs. unfold run_update, update_all_data. simpl.
  destruct (update_economic_indicators now src db) as [db1 r1].
  destruct (update_stock_data now src db1) as [db2 r2].
  simpl. split; reflexivity.
Qed.

(** ** The trend calculator *)

Lemma calculate_trend_absent current previous :
  current = None \/ previous = None ->
  calculate_trend current previous
  = {| trend := None; trend_direction := Neutral |}.
Proof.
  intros [-> | ->]; [reflexivity |]. destruct current; reflexivity.
Qed.

Lemma calculate_trend_zero_baseline current p :
  float_is_zero p = true ->
  calculate_trend current (Some p)
  = {| trend := None; trend_direction := Neutral |}.
Proof.
  intros Hz. destruct current as [c|]; simpl; [rewrite Hz |]; reflexivity.
Qed.

Lemma calculate_trend_defined c p :
  float_is_zero p = false ->
  calculate_trend (Some c) (Some p)
  = {| trend := Some (round2 (((c - p) / p) * 100)%float);
       trend_direction := direction_of (((c - p) / p) * 100)%float |}.
Proof. intros Hz. simpl. rewrite Hz. reflexivity. Qed.

(** C7, as amended.  If [current] or [previous] is absent, or [previous] is
    zero, the calculator returns [(null, neutral)]; otherwise it returns the
    percentage [(current - previous) / previous * 100] rounded to 2 decimals,
    with the direction read off the sign of the percentage before it is
    rounded: up when positive, down when negative, neutral otherwise; and
    [trend(50, 0)] is [(null, neutral)]. *)
Theorem calculate_trend_spec :
  forall current previous,
    (current = None \/ previous = None
     \/ (exists p, previous = Some p /\ float_is_zero p = true) ->
     calculate_trend current previous
     = {| trend := None; trend_direction := Neutral |})
    /\ (forall c p,
          current = Some c -> previous = Some p -> float_is_zero p = false ->
          let pct := (((c - p) / p) * 100)%float in
          trend (calculate_trend current previous) = Some (round2 pct)
          /\ trend_direction (calculate_trend current previous)
             = (if (0 <? pct)%float then Up
                else if (pct <? 0)%float then Down
                else Neutral))
    /\ calculate_trend (Some 50%float) (Some 0%float)
       = {| trend := None; trend_direction := Neutral |}.
Proof.
  intros current previous. split; [| split].
  - intros [Hc | [Hp | [p [-> Hz]]]].
    + apply calculate_trend_absent. now left.
    + apply calculate_trend_absent. now right.
    + now apply calculate_trend_zero_baseline.
  - intros c p -> -> Hz pct. rewrite (calculate_trend_defined _ _ Hz).
    split; reflexivity.
  - reflexivity.
Qed.

(** C7 as stated fails: from 65536 to 65537 the percentage is
    0.00152587890625, which rounds to 0.0; the calculator answers
    [(0.0, up)], whereas the sign of the rounded percentage is neutral. *)
Lemma calculate_trend_direction_not_of_rounded :
  calculate_trend (Some 65537%float) (Some 65536%float)
  = {| trend := Some 0%float; trend_direction := Up |}
  /\ direction_of 0%float = Neutral
  /\ calculate_trend (Some 65537%float) (Some 65536%float)
     <> trend_as_specified (Some 65537%float) (Some 65536%float).
Proof.
  split; [| split].
  - vm_compute. reflexivity.
  - vm_compute. reflexivity.
  - vm_compute. intros Heq. discriminate Heq.
Qed.

Lemma calculate_trend_spec_witness :
  float_is_zero 100%float = false
  /\ trend (calculate_trend (Some 110%float) (Some 100%float)) = Some 10%float
  /\ trend_direction (calculate_trend (Some 110%float) (Some 100%float)) = Up.
Proof.
  split; [reflexivity |].
  destruct (calculate_trend_spec (Some 110%float) (Some 100%float))
    as (_ & Hdef & _).
  destruct (Hdef 110%float 100%float eq_refl eq_refl eq_refl) as [Ht Hd].
  split; [rewrite Ht | rewrite Hd]; vm_compute; reflexivity.
Defined.

(** ** Manual-update debounce *)

Lemma cooldown_check_forced last now : cooldown_check last true now = None.
Proof. destruct last; reflexivity. Qed.

Lemma cooldown_check_within last now :
  (total_seconds now last <? UPDATE_COOLDOWN_SECONDS)%float = true ->
  cooldown_check (Some last) false now
  = Some (int_of_float
            (UPDATE_COOLDOWN_SECONDS - total_seconds now last)%float).
Proof. intros Hlt. unfold cooldown_check. simpl. rewrite Hlt. reflexivity. Qed.

Lemma trigger_accepted last force t_check t_set update :
  cooldown_check last force t_check = None ->
  fst (trigger_manual_update last force t_check t_set update) = Some t_set
  /\ is_too_soon (snd (trigger_manual_update last force t_check t_set update))
     = false.
Proof.
  intros Hpass. unfold trigger_manual_update. rewrite Hpass.
  destruct update; split; reflexivity.
Qed.

Lemma trigger_rejected last t_check t_set update :
  (total_seconds t_check last <? UPDATE_COOLDOWN_SECONDS)%float = true ->
  trigger_manual_update (Some last) false t_check t_set update
  = (Some last,
     TooSoon (int_of_float
                (UPDATE_COOLDOWN_SECONDS - total_seconds t_check last)%float)).
Proof.
  intros Hlt. unfold trigger_manual_update.
  rewrite (cooldown_check_within _ _ Hlt). reflexivity.
Qed.

Lemma five_seconds_apart t :
  int_of_float (UPDATE_COOLDOWN_SECONDS - total_seconds (t + 5000000) t)%float
  = 25.
Proof.
  unfold total_seconds. replace (t + 5000000 - t) with 5000000 by lia.
  vm_compute. reflexivity.
Qed.

(** C8, as amended.  When a manual trigger has passed the cooldown check,
    its timestamp being [t1], a later trigger without the force flag whose
    elapsed time since [t1] is below the 30-second cooldown is rejected with
    the too-soon answer, whose hint is the whole number of seconds left
    (25 when the two are 5 seconds apart), and it leaves the timestamp as it
    is; a trigger with the force flag is never rejected. *)
Theorem debounce_within_cooldown :
  forall last force1 c1 t1 update1 t2 s2 update2,
    cooldown_check last force1 c1 = None ->
    (total_seconds t2 t1 <? UPDATE_COOLDOWN_SECONDS)%float = true ->
    trigger_manual_update
      (fst (trigger_manual_update last force1 c1 t1 update1)) false t2 s2
      update2
    = (Some t1,
       TooSoon (int_of_float
                  (UPDATE_COOLDOWN_SECONDS - total_seconds t2 t1)%float))
    /\ (t2 = t1 + 5000000 ->
        snd (trigger_manual_update
               (fst (trigger_manual_update last force1 c1 t1 update1)) false
               t2 s2 update2)
        = TooSoon 25)
    /\ (forall st t s update,
          is_too_soon (snd (trigger_manual_update st true t s update)) = false).
Proof.
  intros last force1 c1 t1 update1 t2 s2 update2 Hpass Hlt.
  destruct (trigger_accepted last force1 c1 t1 update1 Hpass) as [-> _].
  rewrite (trigger_rejected _ _ s2 update2 Hlt).
  split; [reflexivity | split].
  - intros ->. simpl. rewrite five_seconds_apart. reflexivity.
  - intros st t s update.
    apply (trigger_accepted st true t s update (cooldown_check_forced st t)).
Qed.

Lemma debounce_within_cooldown_witness :
  trigger_manual_update
    (fst (trigger_manual_update None false 1000000 1000000
            (Ok Samples.sample_summary)))
    false 6000000 6000000 (Ok Samples.sample_summary)
  = (Some 1000000, TooSoon 25).
Proof.
  destruct (debounce_within_cooldown None false 1000000 1000000
              (Ok Samples.sample_summary) 6000000 6000000
              (Ok Samples.sample_summary) eq_refl eq_refl) as [Heq _].
  rewrite Heq. vm_compute. reflexivity.
Defined.

(** C8 as stated fails on a pair whose first trigger was itself rejected:
    after an update at second 0, a trigger at second 29 is rejected (hint 1)
    and leaves the timestamp at 0, so the trigger that follows it 5 seconds
    later, at second 34, without the force flag, is let through. *)
Lemma debounce_pair_with_rejected_first :
  let first :=
    trigger_manual_update (Some 0) false 29000000 29000000
      (Ok Samples.sample_summary) in
  let second :=
    trigger_manual_update (fst first) false 34000000 34000000
      (Ok Samples.sample_summary) in
  snd first = TooSoon 1
  /\ (total_seconds 34000000 29000000 <? UPDATE_COOLDOWN_SECONDS)%float = true
  /\ snd second = Completed Samples.sample_summary
  /\ is_too_soon (snd second) = false.
Proof.
  cbv zeta. repeat split; vm_compute; reflexivity.
Qed.

(** C10.  A manual request that passes the cooldown check, as every forced
    request does, sets the timestamp to its reading of the clock before the
    update is called, and the timestamp stays so whether the update returns or
    raises; every later request without the force flag made less than 30
    seconds after that reading is rejected and leaves the timestamp in
    place. *)
Theorem cooldown_starts_with_every_accepted_request :
  forall last force t_check t_set update,
    cooldown_check last force t_check = None ->
    fst (trigger_manual_update last force t_check t_set update) = Some t_set
    /\ (forall e,
          trigger_manual_update last force t_check t_set (Raise e)
          = (Some t_set, InternalError e))
    /\ (forall t' s' update',
          (total_seconds t' t_set <? UPDATE_COOLDOWN_SECONDS)%float = true ->
          let st := fst (trigger_manual_update last force t_check t_set update) in
          is_too_soon (snd (trigger_manual_update st false t' s' update')) = true
          /\ fst (trigger_manual_update st false t' s' update') = Some t_set)
    /\ (forall last' t', cooldown_check last' true t' = None).
Proof.
  intros last force t_check t_set update Hpass.
  destruct (trigger_accepted last force t_check t_set update Hpass) as [Hst _].
  split; [exact Hst | split; [| split]].
  - intros e. unfold trigger_manual_update. rewrite Hpass. reflexivity.
  - intros t' s' update' Hlt st. subst st. rewrite Hst.
    rewrite (trigger_rejected _ _ s' update' Hlt). split; reflexivity.
  - apply cooldown_check_forced.
Qed.

Lemma cooldown_starts_with_every_accepted_request_witness :
  let failed :=
    trigger_manual_update (Some 0) true 1000000 1000000 (Raise IntegrityError) in
  failed = (Some 1000000, InternalError IntegrityError)
  /\ trigger_manual_update (fst failed) false 30999999 30999999
       (Ok Samples.sample_summary)
     = (Some 1000000, TooSoon 0).
Proof.
  cbv zeta.
  destruct (cooldown_starts_with_every_accepted_request (Some 0) true 1000000
              1000000 (Raise IntegrityError) eq_refl)
    as (Hst & Hfail & Hlater & _).
  split; [apply Hfail |].
  destruct (Hlater 30999999 30999999 (Ok Samples.sample_summary) eq_refl)
    as [_ Hkeep].
  rewrite Hst in *. vm_compute. reflexivity.
Defined.

(** ** The year-over-year calculator *)

Section Yoy.
Context `{StrParsers}.

Lemma calculate_cpi_yoy_change_short observations :
  (length observations < 13)%nat -> calculate_cpi_yoy_change observations = Ok [].
Proof.
  intros Hlen. unfold calculate_cpi_yoy_change.
  destruct (length observations <? 12)%nat eqn:Hlt; [reflexivity |].
  apply Nat.ltb_ge in Hlt.
  replace (length observations - 12)%nat with 0%nat by lia. reflexivity.
Qed.

Lemma yoy_try_represented current year_ago d x d0 x0 :
  represents current (d, x) -> represents year_ago (d0, x0) ->
  yoy_try current year_ago
  = if float_is_zero x0 then Raise ZeroDivisionError
    else Ok (YoY d (round2 (((x - x0) / x0) * 100)%float)).
Proof.
  intros [Hd (s & Hs & Hx)] [_ (s0 & Hs0 & Hx0)]. simpl in *.
  unfold yoy_try, getitem, py_float, truediv.
  rewrite Hs. simpl. rewrite Hx. simpl. rewrite Hs0. simpl. rewrite Hx0. simpl.
  destruct (float_is_zero x0); [reflexivity |]. simpl. rewrite Hd. reflexivity.
Qed.

Lemma yoy_loop_all_ok observations (f : nat -> yoy_point) range : forall out,
  (forall i, i ∈ range ->
     exists current year_ago,
       observations !! i = Some current
       /\ observations !! (i - 12)%nat = Some year_ago
       /\ yoy_try current year_ago = Ok (f i)) ->
  yoy_loop observations range out = Ok (out ++ (f <$> range)).
Proof.
  induction range as [| i range IH]; intros out Hall.
  - simpl. rewrite app_nil_r. reflexivity.
  - destruct (Hall i) as (cur & ya & Hi & Hya & Htry); [left |].
    simpl. unfold index. rewrite Hi. simpl. rewrite Hya. simpl. rewrite Htry.
    rewrite IH.
    + rewrite <- app_assoc. reflexivity.
    + intros j Hj. apply Hall. now right.
Qed.

Lemma yoy_of_represented observations pts i :
  Forall2 represents observations pts ->
  (12 <= i < length observations)%nat ->
  exists current year_ago d x d0 x0,
    observations !! i = Some current
    /\ observations !! (i - 12)%nat = Some year_ago
    /\ pts !! i = Some (d, x) /\ pts !! (i - 12)%nat = Some (d0, x0)
    /\ represents current (d, x) /\ represents year_ago (d0, x0)
    /\ yoy_of pts i = Some (YoY d (round2 (((x - x0) / x0) * 100)%float)).
Proof.
  intros Hrep [Hlo Hhi].
  destruct (lookup_lt_is_Some_2 observations i) as [cur Hcur]; [lia |].
  destruct (lookup_lt_is_Some_2 observations (i - 12)) as [ya Hya]; [lia |].
  destruct (Forall2_lookup_l _ _ _ _ _ Hrep Hcur) as ([d x] & Hp & Hr).
  destruct (Forall2_lookup_l _ _ _ _ _ Hrep Hya) as ([d0 x0] & Hp0 & Hr0).
  exists cur, ya, d, x, d0, x0. unfold yoy_of. rewrite Hp, Hp0. tauto.
Qed.

Lemma yoy_loop_zero_baseline observations pts range :
  Forall2 represents observations pts ->
  (forall i, i ∈ range -> (12 <= i < length observations)%nat) ->
  (exists i d0 x0,
     i ∈ range /\ pts !! (i - 12)%nat = Some (d0, x0)
     /\ float_is_zero x0 = true) ->
  forall out, yoy_loop observations range out = Raise ZeroDivisionError.
Proof.
  intros Hrep. induction range as [| i range IH]; intros Hrange Hzero out.
  - destruct Hzero as (j & _ & _ & Hj & _). apply elem_of_nil in Hj.
    destruct Hj.
  - destruct (yoy_of_represented observations pts i Hrep)
      as (cur & ya & d & x & d0 & x0 & Hc & Hy & _ & Hp0 & Hr & Hr0 & _).
    { apply Hrange. left. }
    simpl. unfold index. rewrite Hc. simpl. rewrite Hy. simpl.
    rewrite (yoy_try_represented _ _ _ _ _ _ Hr Hr0).
    destruct (float_is_zero x0) eqn:Hz0; [reflexivity |].
    apply IH.
    + intros j Hj. apply Hrange. now right.
    + destruct Hzero as (j & dj & xj & Hj & Hpj & Hzj).
      apply elem_of_cons in Hj as [-> | Hj].
      * rewrite Hp0 in Hpj. injection Hpj as <- <-. congruence.
      * exists j, dj, xj. auto.
Qed.

Lemma calculate_cpi_yoy_change_zero_baseline observations pts i d0 x0 :
  Forall2 represents observations pts ->
  (i + 12 < length observations)%nat ->
  pts !! i = Some (d0, x0) -> float_is_zero x0 = true ->
  calculate_cpi_yoy_change observations = Raise ZeroDivisionError.
Proof.
  intros Hrep Hi Hp Hz. unfold calculate_cpi_yoy_change.
  destruct (length observations <? 12)%nat eqn:Hlt.
  { apply Nat.ltb_lt in Hlt. lia. }
  apply (yoy_loop_zero_baseline observations pts); [exact Hrep | |].
  - intros j Hj. apply elem_of_seq in Hj. lia.
  - exists (i + 12)%nat, d0, x0. split; [apply elem_of_seq; lia |].
    replace (i + 12 - 12)%nat with i by lia. auto.
Qed.

End Yoy.

(** C9, as amended.  The calculator returns the empty sequence for every
    input with fewer than 13 observations.  For an input of [n >= 13]
    observations that all carry a date and a value that parses as a float,
    and in which no value used as a 12-periods-ago baseline is zero, it
    returns exactly one point per index [i] with [12 <= i < n], in order,
    carrying the date of [obs[i]] and
    [(obs[i].value - obs[i-12].value) / obs[i-12].value * 100] rounded to
    2 decimals. *)
Theorem calculate_cpi_yoy_change_spec :
  forall (P : StrParsers) (observations : list (gmap string string)),
    ((length observations < 13)%nat ->
     calculate_cpi_yoy_change observations = Ok [])
    /\ (forall pts : list (string * float),
          (13 <= length observations)%nat ->
          Forall2 represents observations pts ->
          (forall i d0 x0,
             (i + 12 < length observations)%nat ->
             pts !! i = Some (d0, x0) -> float_is_zero x0 = false) ->
          exists out,
            calculate_cpi_yoy_change observations = Ok out
            /\ length out = (length observations - 12)%nat
            /\ forall i, (12 <= i < length observations)%nat ->
                 exists d x d0 x0,
                   pts !! i = Some (d, x)
                   /\ pts !! (i - 12)%nat = Some (d0, x0)
                   /\ out !! (i - 12)%nat
                      = Some (YoY d (round2 (((x - x0) / x0) * 100)%float))).
Proof.
  intros P observations. split.
  - apply calculate_cpi_yoy_change_short.
  - intros pts Hlen Hrep Hnz.
    set (f := fun i => default (YoY "" 0%float) (yoy_of pts i)).
    exists (f <$> seq 12 (length observations - 12)).
    assert (Hrun : calculate_cpi_yoy_change observations
                   = Ok (f <$> seq 12 (length observations - 12))).
    { unfold calculate_cpi_yoy_change.
      destruct (length observations <? 12)%nat eqn:Hlt.
      { apply Nat.ltb_lt in Hlt. lia. }
      rewrite (yoy_loop_all_ok observations f); [reflexivity |].
      intros i Hi. apply elem_of_seq in Hi.
      destruct (yoy_of_represented observations pts i Hrep)
        as (cur & ya & d & x & d0 & x0 & Hc & Hy & Hp & Hp0 & Hr & Hr0 & Hy_of);
        [lia |].
      exists cur, ya. split; [exact Hc | split; [exact Hy |]].
      rewrite (yoy_try_represented _ _ _ _ _ _ Hr Hr0).
      rewrite (Hnz (i - 12)%nat d0 x0); [| lia | exact Hp0].
      unfold f. rewrite Hy_of. reflexivity. }
    split; [exact Hrun | split].
    + rewrite length_fmap, length_seq. reflexivity.
    + intros i Hi.
      destruct (yoy_of_represented observations pts i Hrep Hi)
        as (cur & ya & d & x & d0 & x0 & _ & _ & Hp & Hp0 & _ & _ & Hy_of).
      exists d, x, d0, x0. split; [exact Hp | split; [exact Hp0 |]].
      rewrite list_lookup_fmap, lookup_seq_lt by lia.
      replace (12 + (i - 12))%nat with i by lia.
      cbn [fmap option_fmap option_map]. f_equal.
      unfold f. rewrite Hy_of. reflexivity.
Qed.

Lemma calculate_cpi_yoy_change_spec_witness :
  @calculate_cpi_yoy_change Ascii_parsers.parsers
    (Samples.flat_then "100" "110")
  = Ok [YoY "2024-01-01" 10%float].
Proof.
  destruct (calculate_cpi_yoy_change_spec Ascii_parsers.parsers
              (Samples.flat_then "100" "110")) as [_ Hlong].
  assert (Hl : length (Samples.flat_then "100" "110") = 13%nat)
    by reflexivity.
  rewrite Hl in Hlong.
  destruct (Hlong (Samples.flat_points 100%float 110%float))
    as (out & Hrun & Hlen & Hpts).
  - lia.
  - unfold Samples.flat_then, Samples.flat_points, Samples.months_2023.
    cbn [fmap list_fmap app].
    repeat (constructor;
            [split; [reflexivity | eexists; split; reflexivity] |]).
    constructor.
  - intros i d0 x0 Hi Hlook.
    assert (i = 0%nat) as -> by lia.
    vm_compute in Hlook. injection Hlook as _ <-. reflexivity.
  - rewrite Hrun. f_equal.
    destruct (Hpts 12%nat) as (d & x & d0 & x0 & Hp & Hp0 & Hout).
    { lia. }
    vm_compute in Hp. injection Hp as <- <-.
    vm_compute in Hp0. injection Hp0 as _ <-.
    destruct out as [| p [| q out]]; [discriminate Hout | | discriminate Hlen].
    simpl in Hout. injection Hout as ->. vm_compute. reflexivity.
Defined.

(** C9 as stated fails on 13 observations of which the last has the
    value ["."], FRED's placeholder for a missing value: the [ValueError] of
    [float(".")] is caught and the point is skipped, so no point is emitted
    for index 12. *)
Lemma calculate_cpi_yoy_change_skips_unparsable :
  length (Samples.flat_then "100" ".") = 13%nat
  /\ @calculate_cpi_yoy_change Ascii_parsers.parsers
       (Samples.flat_then "100" ".") = Ok [].
Proof. split; vm_compute; reflexivity. Qed.

(** C2: the claim does not hold of the code.  A pair of observations whose
    values parse and whose 12-periods-ago value is zero makes the [try] body
    raise [ZeroDivisionError], which [except (ValueError, KeyError)] does not
    catch; so every series of observations that all carry a date and a value
    that parses, one of the values used as a baseline being zero, makes the
    calculator raise instead of skipping the point.  On twelve observations
    of value 0 followed by one of value 110 it raises, and the indicator step
    that called it returns status ['error'] and stores nothing. *)
Theorem calculate_cpi_yoy_change_zero_baseline_raises :
  (forall (P : StrParsers) current year_ago d x d0 x0,
     represents current (d, x) -> represents year_ago (d0, x0) ->
     float_is_zero x0 = true ->
     yoy_try current year_ago = Raise ZeroDivisionError)
  /\ (forall (P : StrParsers) observations pts i d0 x0,
        Forall2 represents observations pts ->
        (i + 12 < length observations)%nat ->
        pts !! i = Some (d0, x0) -> float_is_zero x0 = true ->
        calculate_cpi_yoy_change observations = Raise ZeroDivisionError)
  /\ handled ZeroDivisionError = false
  /\ @calculate_cpi_yoy_change Ascii_parsers.parsers
       (Samples.flat_then "0" "110") = Raise ZeroDivisionError
  /\ @update_economic_indicators Ascii_parsers.parsers 0
       Samples.zero_baseline_feeds Samples.empty_db
     = (Samples.empty_db, StepError (StrOf ZeroDivisionError)).
Proof.
  split; [| split; [| split; [| split]]].
  - intros P current year_ago d x d0 x0 Hr Hr0 Hz.
    rewrite (yoy_try_represented _ _ _ _ _ _ Hr Hr0), Hz. reflexivity.
  - intros P observations pts i d0 x0.
    apply calculate_cpi_yoy_change_zero_baseline.
  - reflexivity.
  - vm_compute. reflexivity.
  - vm_compute. reflexivity.
Qed.

(** ** Empty feeds *)



(** ** Tables keyed by date *)

Section Table_facts.
Context {R : Type} (key : R -> date).

Lemma query_first_Some d table r :
  query_first key d table = Some r -> key r = d /\ r ∈ table.
Proof.
  induction table as [| r' t IH]; simpl; [discriminate |].
  destruct (decide (key r' = d)) as [Heq | Hne].
  - intros [= ->]. split; [exact Heq | left].
  - intros Hq. destruct (IH Hq) as [Hk Hin]. split; [exact Hk | now right].
Qed.

Lemma query_first_None d table :
  query_first key d table = None <-> d ∉ key <$> table.
Proof.
  induction table as [| r t IH]; simpl.
  - split; [intros _; apply not_elem_of_nil | reflexivity].
  - rewrite not_elem_of_cons. destruct (decide (key r = d)) as [Heq | Hne].
    + split; [discriminate | intros [Hne _]; congruence].
    + rewrite IH. split; [intros Hnot; split; [congruence | exact Hnot] | tauto].
Qed.

Lemma query_first_app d t p :
  query_first key d (t ++ p)
  = match query_first key d t with
    | Some r => Some r
    | None => query_first key d p
    end.
Proof.
  induction t as [| r t IH]; simpl; [reflexivity |].
  destruct (decide (key r = d)); [reflexivity | exact IH].
Qed.

Lemma query_first_unique d table r :
  NoDup (key <$> table) -> r ∈ table -> key r = d ->
  query_first key d table = Some r.
Proof.
  induction table as [| r' t IH]; simpl; intros Hnd Hin Hk.
  - apply elem_of_nil in Hin. destruct Hin.
  - apply NoDup_cons in Hnd as [Hfresh Hnd].
    apply elem_of_cons in Hin as [<- | Hin].
    + destruct (decide (key r = d)); [reflexivity | contradiction].
    + destruct (decide (key r' = d)) as [Heq | Hne]; [| now apply IH].
      exfalso. apply Hfresh. rewrite Heq, <- Hk.
      apply list_elem_of_fmap. now exists r.
Qed.

Section Modify.
Variable f : R -> R.
Hypothesis f_key : forall r, key (f r) = key r.

Lemma modify_first_keys d table :
  key <$> modify_first key d f table = key <$> table.
Proof.
  induction table as [| r t IH]; [reflexivity |].
  cbn [modify_first].
  destruct (decide (key r = d)); rewrite !fmap_cons;
    [rewrite f_key | rewrite IH]; reflexivity.
Qed.

Lemma query_first_modify d d' table :
  query_first key d (modify_first key d' f table)
  = if decide (d' = d) then f <$> query_first key d table
    else query_first key d table.
Proof.
  induction table as [| r t IH]; simpl.
  - destruct (decide (d' = d)); reflexivity.
  - destruct (decide (key r = d')) as [Hd' | Hd']; simpl.
    + rewrite f_key. destruct (decide (key r = d)) as [Hd | Hd].
      * destruct (decide (d' = d)); [reflexivity | congruence].
      * destruct (decide (d' = d)); [congruence | reflexivity].
    + destruct (decide (key r = d)) as [Hd | Hd].
      * destruct (decide (d' = d)); [congruence | reflexivity].
      * exact IH.
Qed.

End Modify.

Lemma modify_first_absent d f table :
  query_first key d table = None -> modify_first key d f table = table.
Proof.
  induction table as [| r t IH]; simpl; [reflexivity |].
  destruct (decide (key r = d)); [discriminate |].
  intros Hq. rewrite (IH Hq). reflexivity.
Qed.

Lemma flush_fresh pending : forall table,
  NoDup (key <$> pending) ->
  (forall r, r ∈ pending -> key r ∉ key <$> table) ->
  flush key pending table = Ok (table ++ pending).
Proof.
  induction pending as [| r p IH]; intros table Hnd Hfresh; simpl.
  - rewrite app_nil_r. reflexivity.
  - rewrite fmap_cons in Hnd. apply NoDup_cons in Hnd as [Hr Hnd].
    assert (Hq : query_first key (key r) table = None).
    { apply query_first_None, Hfresh. left. }
    rewrite Hq, IH.
    + rewrite <- app_assoc. reflexivity.
    + exact Hnd.
    + intros r' Hin. rewrite fmap_app. intros Hmem.
      apply elem_of_app in Hmem as [Hmem | Hmem].
      * apply (Hfresh r'); [now right | exact Hmem].
      * simpl in Hmem. apply list_elem_of_singleton in Hmem.
        apply Hr. rewrite <- Hmem. apply list_elem_of_fmap. now exists r'.
Qed.

End Table_facts.

(** ** The per-date accumulator *)

Lemma lookup_date_Some d items values :
  lookup_date d items = Some values -> (d, values) ∈ items.
Proof.
  induction items as [| [d' vs] rest IH]; simpl; [discriminate |].
  destruct (decide (d' = d)) as [-> | Hne].
  - intros [= ->]. left.
  - intros Hl. right. now apply IH.
Qed.

Lemma lookup_date_None d items :
  lookup_date d items = None <-> d ∉ items.*1.
Proof.
  induction items as [| [d' vs] rest IH]; simpl.
  - split; [intros _; apply not_elem_of_nil | reflexivity].
  - rewrite not_elem_of_cons. destruct (decide (d' = d)) as [-> | Hne].
    + split; [discriminate | intros [Hne _]; congruence].
    + rewrite IH. split; [intros Hnot; split; [congruence | exact Hnot] | tauto].
Qed.

Lemma lookup_date_unique d items values :
  NoDup items.*1 -> (d, values) ∈ items -> lookup_date d items = Some values.
Proof.
  induction items as [| [d' vs] rest IH]; simpl; intros Hnd Hin.
  - apply elem_of_nil in Hin. destruct Hin.
  - apply NoDup_cons in Hnd as [Hfresh Hnd].
    apply elem_of_cons in Hin as [[= <- <-] | Hin].
    + destruct (decide (d = d)); [reflexivity | contradiction].
    + destruct (decide (d' = d)) as [-> | Hne]; [| now apply IH].
      exfalso. apply Hfresh. apply list_elem_of_fmap. now exists (d, values).
Qed.

(** ** The indicator upsert *)

Lemma column_setattr f g v r :
  column f (setattr r g v) = if decide (g = f) then Some v else column f r.
Proof. destruct f, g; reflexivity. Qed.

Lemma ind_date_setattr g v r : ind_date (setattr r g v) = ind_date r.
Proof. destruct g; reflexivity. Qed.

Lemma merge_values_fold values r :
  let row := map_fold (fun key value row => setattr row key value) r values in
  ind_date row = ind_date r
  /\ forall f, column f row = match values !! f with
                              | Some v => Some v
                              | None => column f r
                              end.
Proof.
  apply (map_fold_weak_ind
           (fun row (m : gmap field float) =>
              ind_date row = ind_date r
              /\ forall f, column f row = match m !! f with
                                          | Some v => Some v
                                          | None => column f r
                                          end)).
  - split; [reflexivity |]. intros f. rewrite lookup_empty. reflexivity.
  - intros g v m row Hfresh [Hd Hcol]. split.
    + rewrite ind_date_setattr. exact Hd.
    + intros f. rewrite column_setattr.
      destruct (decide (g = f)) as [-> | Hne].
      * rewrite lookup_insert_eq. reflexivity.
      * rewrite lookup_insert_ne by exact Hne. apply Hcol.
Qed.

Lemma merge_values_date now values r :
  ind_date (merge_values now values r) = ind_date r.
Proof.
  unfold merge_values. simpl. apply (merge_values_fold values r).
Qed.

Lemma merge_values_column now values r f :
  column f (merge_values now values r)
  = match values !! f with
    | Some v => Some v
    | None => column f r
    end.
Proof.
  unfold merge_values.
  transitivity (column f (map_fold (fun key value row => setattr row key value)
                            r values)).
  - destruct f; reflexivity.
  - apply (merge_values_fold values r).
Qed.

Lemma new_indicator_column now d values f :
  column f (new_indicator now d values) = values !! f.
Proof. destruct f; reflexivity. Qed.

Lemma stored_eq r r' :
  ind_date r = ind_date r' -> (forall f, column f r = column f r') ->
  stored r = stored r'.
Proof.
  intros Hd Hc. unfold stored.
  pose proof (Hc GlobalGdpGrowth) as H1. pose proof (Hc UsGdpGrowth) as H2.
  pose proof (Hc FederalFundsRate) as H3. pose proof (Hc InflationRate) as H4.
  simpl in H1, H2, H3, H4. congruence.
Qed.

Lemma merge_values_covered now values r :
  covers values r -> stored (merge_values now values r) = stored r.
Proof.
  intros Hcov. apply stored_eq; [apply merge_values_date |].
  intros f. rewrite merge_values_column.
  destruct (values !! f) as [v |] eqn:Hv; [| reflexivity].
  symmetry. now apply Hcov.
Qed.

Lemma merged_table_keys now items : forall table,
  ind_date <$> merged_table now items table = ind_date <$> table.
Proof.
  induction items as [| [d values] rest IH]; intros table; [reflexivity |].
  unfold merged_table in *. simpl. rewrite IH.
  apply modify_first_keys. intros r. apply merge_values_date.
Qed.

Lemma fresh_rows_keys now items t1 t2 :
  ind_date <$> t1 = ind_date <$> t2 ->
  fresh_rows now items t1 = fresh_rows now items t2.
Proof.
  intros Hk. unfold fresh_rows. apply list_omap_ext.
  apply Forall2_same_length_lookup. split; [reflexivity |].
  intros i [d values] [d' values'] H1 H2. rewrite H1 in H2.
  injection H2 as <- <-.
  destruct (query_first ind_date d t1) as [r1 |] eqn:Hq1;
    destruct (query_first ind_date d t2) as [r2 |] eqn:Hq2; try reflexivity.
  - apply query_first_None in Hq2. rewrite <- Hk in Hq2.
    apply query_first_None in Hq2. congruence.
  - apply query_first_None in Hq1. rewrite Hk in Hq1.
    apply query_first_None in Hq1. congruence.
Qed.

Lemma upsert_loop_eq now items : forall table pending count,
  upsert_loop now items table pending count
  = (merged_table now items table, pending ++ fresh_rows now items table,
     (count + length items)%nat).
Proof.
  induction items as [| [d values] rest IH]; intros table pending count.
  - simpl. rewrite app_nil_r, Nat.add_0_r. reflexivity.
  - cbn [upsert_loop].
    assert (Hk : ind_date
                   <$> modify_first ind_date d (merge_values now values) table
                 = ind_date <$> table).
    { apply modify_first_keys. intros r. apply merge_values_date. }
    unfold merged_table, fresh_rows. cbn [foldl omap list_omap length].
    fold (merged_table now rest
            (modify_first ind_date d (merge_values now values) table)).
    fold (fresh_rows now rest table).
    destruct (query_first ind_date d table) as [r |] eqn:Hq.
    + rewrite IH, (fresh_rows_keys now rest _ table Hk).
      f_equal. lia.
    + rewrite IH.
      rewrite (modify_first_absent ind_date d _ table Hq).
      rewrite <- app_assoc. simpl. f_equal. lia.
Qed.

Lemma query_first_merged now items : forall table d,
  NoDup items.*1 ->
  query_first ind_date d (merged_table now items table)
  = match lookup_date d items with
    | Some values => merge_values now values <$> query_first ind_date d table
    | None => query_first ind_date d table
    end.
Proof.
  induction items as [| [d' values] rest IH]; intros table d Hnd;
    [reflexivity |].
  rewrite fmap_cons in Hnd. apply NoDup_cons in Hnd as [Hfresh Hnd].
  unfold merged_table. cbn [foldl lookup_date].
  fold (merged_table now rest
          (modify_first ind_date d' (merge_values now values) table)).
  rewrite (IH _ d Hnd).
  rewrite !(query_first_modify ind_date (merge_values now values)
              (merge_values_date now values)).
  destruct (decide (d' = d)) as [-> | Hne]; [| reflexivity].
  apply lookup_date_None in Hfresh. simpl in Hfresh. rewrite Hfresh.
  reflexivity.
Qed.

Lemma fresh_rows_elem now items table r :
  r ∈ fresh_rows now items table ->
  exists values,
    (ind_date r, values) ∈ items
    /\ query_first ind_date (ind_date r) table = None
    /\ r = new_indicator now (ind_date r) values.
Proof.
  unfold fresh_rows. rewrite list_elem_of_omap.
  intros ([d values] & Hin & Hsome).
  destruct (query_first ind_date d table) eqn:Hq; [discriminate |].
  injection Hsome as <-. exists values. simpl. auto.
Qed.

Lemma fresh_rows_sublist now items table :
  sublist (ind_date <$> fresh_rows now items table) items.*1.
Proof.
  induction items as [| [d values] rest IH]; [constructor |].
  unfold fresh_rows. cbn [omap list_omap]. fold (fresh_rows now rest table).
  destruct (query_first ind_date d table).
  - rewrite fmap_cons. now apply sublist_cons.
  - rewrite !fmap_cons. now apply sublist_skip.
Qed.

Lemma query_first_fresh now items table d :
  NoDup items.*1 ->
  query_first ind_date d (fresh_rows now items table)
  = match lookup_date d items, query_first ind_date d table with
    | Some values, None => Some (new_indicator now d values)
    | _, _ => None
    end.
Proof.
  intros Hnd.
  destruct (query_first ind_date d (fresh_rows now items table)) as [r |] eqn:Hq.
  - apply query_first_Some in Hq as [Hd Hin].
    apply fresh_rows_elem in Hin as (values & Hin & Hnone & Hr).
    rewrite Hd in Hin, Hnone, Hr.
    rewrite (lookup_date_unique d items values Hnd Hin), Hnone, Hr.
    reflexivity.
  - destruct (lookup_date d items) as [values |] eqn:Hl; [| reflexivity].
    destruct (query_first ind_date d table) eqn:Ht; [reflexivity |].
    exfalso. apply query_first_None in Hq. apply Hq.
    apply list_elem_of_fmap. exists (new_indicator now d values).
    split; [reflexivity |]. unfold fresh_rows. apply list_elem_of_omap.
    exists (d, values). split; [now apply lookup_date_Some |].
    rewrite Ht. reflexivity.
Qed.

Lemma upsert_indicators_eq now items table :
  NoDup items.*1 ->
  upsert_indicators now items table
  = Ok (merged_table now items table ++ fresh_rows now items table,
        length items).
Proof.
  intros Hnd. unfold upsert_indicators. rewrite upsert_loop_eq. simpl.
  rewrite flush_fresh; [reflexivity | |].
  - eapply sublist_NoDup; [exact Hnd | apply fresh_rows_sublist].
  - intros r Hin. rewrite merged_table_keys.
    apply fresh_rows_elem in Hin as (values & _ & Hnone & _).
    now apply query_first_None.
Qed.

Lemma query_first_upserted now items table d :
  NoDup items.*1 ->
  query_first ind_date d
    (merged_table now items table ++ fresh_rows now items table)
  = match lookup_date d items with
    | Some values =>
        Some (match query_first ind_date d table with
              | Some old => merge_values now values old
              | None => new_indicator now d values
              end)
    | None => query_first ind_date d table
    end.
Proof.
  intros Hnd.
  rewrite query_first_app, (query_first_merged now items table d Hnd),
    (query_first_fresh now items table d Hnd).
  destruct (lookup_date d items) as [values |];
    destruct (query_first ind_date d table) as [old |]; reflexivity.
Qed.

(** C6.  On a store with at most one row per date, the upsert of an
    accumulator completes and leaves at most one row per date.  A date of the
    accumulator that had a row keeps it, with the columns named in the
    incoming dict overwritten and every other column as it was; a date that
    had none gets a new row whose columns are the given ones, the others
    null; rows of other dates are as they were; and a column that held a
    value still holds one. *)
Theorem upsert_indicators_frame :
  forall now (items : list (date * gmap field float))
         (table : list EconomicIndicator),
    NoDup items.*1 ->
    NoDup (ind_date <$> table) ->
    exists table',
      upsert_indicators now items table = Ok (table', length items)
      /\ NoDup (ind_date <$> table')
      /\ (forall d values old,
            lookup_date d items = Some values ->
            query_first ind_date d table = Some old ->
            exists r,
              query_first ind_date d table' = Some r
              /\ ind_date r = d
              /\ forall f, column f r = match values !! f with
                                        | Some v => Some v
                                        | None => column f old
                                        end)
      /\ (forall d values,
            lookup_date d items = Some values ->
            query_first ind_date d table = None ->
            exists r,
              query_first ind_date d table' = Some r
              /\ ind_date r = d
              /\ forall f, column f r = values !! f)
      /\ (forall d,
            lookup_date d items = None ->
            query_first ind_date d table' = query_first ind_date d table)
      /\ (forall d old f,
            query_first ind_date d table = Some old ->
            is_Some (column f old) ->
            exists r,
              query_first ind_date d table' = Some r
              /\ is_Some (column f r)).
Proof.
  intros now items table Hitems Htable.
  exists (merged_table now items table ++ fresh_rows now items table).
  split; [now apply upsert_indicators_eq |].
  split; [| split; [| split; [| split]]].
  - rewrite fmap_app, merged_table_keys. apply NoDup_app.
    split; [exact Htable | split].
    + intros d Hd Hfresh. apply list_elem_of_fmap in Hfresh as (r & -> & Hin).
      apply fresh_rows_elem in Hin as (values & _ & Hnone & _).
      apply query_first_None in Hnone. contradiction.
    + eapply sublist_NoDup; [exact Hitems | apply fresh_rows_sublist].
  - intros d values old Hl Hq.
    exists (merge_values now values old).
    rewrite (query_first_upserted now items table d Hitems), Hl, Hq.
    split; [reflexivity | split].
    + rewrite merge_values_date. now apply (query_first_Some ind_date d table).
    + intros f. apply merge_values_column.
  - intros d values Hl Hq.
    exists (new_indicator now d values).
    rewrite (query_first_upserted now items table d Hitems), Hl, Hq.
    split; [reflexivity | split; [reflexivity |]].
    intros f. apply new_indicator_column.
  - intros d Hl.
    rewrite (query_first_upserted now items table d Hitems), Hl. reflexivity.
  - intros d old f Hq [v Hv].
    rewrite (query_first_upserted now items table d Hitems), Hq.
    destruct (lookup_date d items) as [values |].
    + eexists. split; [reflexivity |]. rewrite merge_values_column.
      destruct (values !! f); [eauto | rewrite Hv; eauto].
    + eexists. split; [reflexivity |]. rewrite Hv. eauto.
Qed.

Lemma upsert_indicators_frame_witness :
  NoDup Samples.sample_items.*1
  /\ NoDup (ind_date <$> Samples.sample_table)
  /\ exists table',
       upsert_indicators 9 Samples.sample_items Samples.sample_table
       = Ok (table', 2%nat)
       /\ NoDup (ind_date <$> table')
       /\ (exists r,
             query_first ind_date Samples.july_2023 table' = Some r
             /\ federal_funds_rate r = Some 5.5%float
             /\ us_gdp_growth r = Some 4.75%float
             /\ inflation_rate r = Some 2%float
             /\ global_gdp_growth r = None)
       /\ (exists r,
             query_first ind_date Samples.year_end_2023 table' = Some r
             /\ global_gdp_growth r = Some 3%float
             /\ federal_funds_rate r = None).
Proof.
  assert (Hitems : NoDup Samples.sample_items.*1).
  { apply (bool_decide_unpack _). vm_compute. exact I. }
  assert (Htable : NoDup (ind_date <$> Samples.sample_table)).
  { apply (bool_decide_unpack _). vm_compute. exact I. }
  split; [exact Hitems | split; [exact Htable |]].
  destruct (upsert_indicators_frame 9 Samples.sample_items Samples.sample_table
              Hitems Htable)
    as (table' & Hrun & Hnd & Hmerge & Hnew & _ & _).
  exists table'. split; [exact Hrun | split; [exact Hnd | split]].
  - destruct (Hmerge Samples.july_2023 _ _ eq_refl eq_refl)
      as (r & Hq & _ & Hcol).
    exists r. split; [exact Hq |].
    pose proof (Hcol FederalFundsRate) as H1.
    pose proof (Hcol UsGdpGrowth) as H2.
    pose proof (Hcol InflationRate) as H3.
    pose proof (Hcol GlobalGdpGrowth) as H4.
    vm_compute in H1, H2, H3, H4. auto.
  - destruct (Hnew Samples.year_end_2023 _ eq_refl eq_refl)
      as (r & Hq & _ & Hcol).
    exists r. split; [exact Hq |].
    pose proof (Hcol GlobalGdpGrowth) as H1.
    pose proof (Hcol FederalFundsRate) as H2.
    vm_compute in H1, H2. auto.
Defined.

Lemma fresh_rows_nil now items table :
  (forall d values, (d, values) ∈ items ->
     is_Some (query_first ind_date d table)) ->
  fresh_rows now items table = [].
Proof.
  induction items as [| [d values] rest IH]; intros Hall; [reflexivity |].
  unfold fresh_rows. cbn [omap list_omap]. fold (fresh_rows now rest table).
  destruct (Hall d values) as [r ->]; [left |].
  apply IH. intros d' values' Hin. apply (Hall d' values'). now right.
Qed.

Lemma modify_first_stored d (f : EconomicIndicator -> EconomicIndicator) table :
  (forall r, query_first ind_date d table = Some r -> stored (f r) = stored r) ->
  stored <$> modify_first ind_date d f table = stored <$> table.
Proof.
  induction table as [| r t IH]; intros Hf; [reflexivity |].
  cbn [modify_first query_first] in *.
  destruct (decide (ind_date r = d)); rewrite !fmap_cons.
  - rewrite Hf; reflexivity.
  - rewrite IH; [reflexivity | exact Hf].
Qed.

Lemma covers_merge_values now values values' r :
  covers values r -> covers values' r ->
  covers values' (merge_values now values r).
Proof.
  intros Hc Hc' f v' Hv'. rewrite merge_values_column.
  destruct (values !! f) as [v |] eqn:Hv; [| now apply Hc'].
  rewrite <- (Hc f v Hv). now apply Hc'.
Qed.

Lemma merged_table_covered now items : forall table,
  (forall d values, (d, values) ∈ items ->
     exists r, query_first ind_date d table = Some r /\ covers values r) ->
  stored <$> merged_table now items table = stored <$> table.
Proof.
  induction items as [| [d values] rest IH]; intros table Hall; [reflexivity |].
  unfold merged_table. cbn [foldl].
  fold (merged_table now rest
          (modify_first ind_date d (merge_values now values) table)).
  destruct (Hall d values) as (r & Hq & Hcov); [left |].
  rewrite IH.
  - apply modify_first_stored. intros r' Hq'.
    rewrite Hq in Hq'. injection Hq' as <-. now apply merge_values_covered.
  - intros d' values' Hin.
    destruct (Hall d' values') as (r' & Hq' & Hcov'); [now right |].
    rewrite (query_first_modify ind_date (merge_values now values)
               (merge_values_date now values)).
    destruct (decide (d = d')) as [<- | Hne].
    + rewrite Hq' . rewrite Hq in Hq'. injection Hq' as <-.
      eexists. split; [reflexivity |]. now apply covers_merge_values.
    + exists r'. split; [exact Hq' | exact Hcov'].
Qed.

Lemma upserted_covers now items table d values :
  NoDup items.*1 -> (d, values) ∈ items ->
  exists r,
    query_first ind_date d
      (merged_table now items table ++ fresh_rows now items table) = Some r
    /\ covers values r.
Proof.
  intros Hnd Hin.
  rewrite (query_first_upserted now items table d Hnd),
    (lookup_date_unique d items values Hnd Hin).
  eexists. split; [reflexivity |].
  intros f v Hv. destruct (query_first ind_date d table).
  - rewrite merge_values_column, Hv. reflexivity.
  - rewrite new_indicator_column. exact Hv.
Qed.

(** C5.  For every accumulator and every store, the upsert completes, the
    same upsert applied again to the store it produced completes too, and it
    leaves the rows as they were, in number and in stored field values,
    whatever the two clock readings are. *)
Theorem upsert_indicators_idempotent :
  forall now1 now2 (items : list (date * gmap field float))
         (table : list EconomicIndicator),
    NoDup items.*1 ->
    exists once twice,
      upsert_indicators now1 items table = Ok (once, length items)
      /\ upsert_indicators now2 items once = Ok (twice, length items)
      /\ stored <$> twice = stored <$> once
      /\ length twice = length once.
Proof.
  intros now1 now2 items table Hnd.
  set (once := merged_table now1 items table ++ fresh_rows now1 items table).
  assert (Hcov : forall d values, (d, values) ∈ items ->
            exists r, query_first ind_date d once = Some r /\ covers values r).
  { intros d values Hin. now apply upserted_covers. }
  assert (Hfresh : fresh_rows now2 items once = []).
  { apply fresh_rows_nil. intros d values Hin.
    destruct (Hcov d values Hin) as (r & -> & _). eauto. }
  assert (Hstored : stored <$> merged_table now2 items once = stored <$> once).
  { now apply merged_table_covered. }
  exists once, (merged_table now2 items once).
  split; [now apply upsert_indicators_eq |].
  split; [| split].
  - rewrite (upsert_indicators_eq now2 items once Hnd), Hfresh, app_nil_r.
    reflexivity.
  - exact Hstored.
  - rewrite <- (length_fmap stored), Hstored, length_fmap. reflexivity.
Qed.

Lemma upsert_indicators_idempotent_witness :
  NoDup Samples.sample_items.*1
  /\ exists once twice,
       upsert_indicators 9 Samples.sample_items Samples.sample_table
       = Ok (once, 2%nat)
       /\ upsert_indicators 12 Samples.sample_items once = Ok (twice, 2%nat)
       /\ stored <$> twice = stored <$> once
       /\ length twice = length once.
Proof.
  assert (Hitems : NoDup Samples.sample_items.*1).
  { apply (bool_decide_unpack _). vm_compute. exact I. }
  split; [exact Hitems |].
  exact (upsert_indicators_idempotent 9 12 Samples.sample_items
           Samples.sample_table Hitems).
Defined.

(** ** Reconciliation and forward fill *)

Lemma lookup_date_set_field d f v acc d' :
  lookup_date d' (set_field d f v acc)
  = if decide (d = d')
    then Some (<[f := v]> (default ∅ (lookup_date d acc)))
    else lookup_date d' acc.
Proof.
  induction acc as [| [d0 values] rest IH]; simpl.
  - destruct (decide (d = d')); reflexivity.
  - destruct (decide (d0 = d)) as [-> | Hne]; simpl.
    + destruct (decide (d = d')); reflexivity.
    + destruct (decide (d0 = d')) as [-> | Hne'].
      * destruct (decide (d = d')); [congruence | reflexivity].
      * exact IH.
Qed.

Lemma set_field_no_global_gdp d f v acc :
  f <> GlobalGdpGrowth -> no_global_gdp acc ->
  no_global_gdp (set_field d f v acc).
Proof.
  intros Hf Hacc d' values. rewrite lookup_date_set_field.
  destruct (decide (d = d')) as [<- | Hne]; [| apply Hacc].
  intros [= <-]. rewrite lookup_insert_ne by exact Hf.
  destruct (lookup_date d acc) as [values |] eqn:Hl; simpl.
  - now apply (Hacc d).
  - apply lookup_empty.
Qed.

(** A loop whose body raises nothing but what its [except] catches
    completes, and keeps what every assignment keeps. *)
Lemma collect_handled {A} (parse : A -> result (date * float)) f
    (I : list (date * gmap field float) -> Prop) items :
  (forall item e, item ∈ items -> parse item = Raise e -> handled e = true) ->
  (forall d v acc, I acc -> I (set_field d f v acc)) ->
  forall acc, I acc ->
    exists acc', collect parse f items acc = Ok acc' /\ I acc'.
Proof.
  intros Hparse Hstep. induction items as [| item rest IH]; intros acc Hacc.
  - exists acc. split; [reflexivity | exact Hacc].
  - simpl. destruct (parse item) as [[d v] | e] eqn:Hp.
    + apply IH; [| now apply Hstep].
      intros item' e' Hin. apply Hparse. now right.
    + rewrite (Hparse item e); [| left | exact Hp].
      apply IH; [| exact Hacc].
      intros item' e' Hin. apply Hparse. now right.
Qed.

Lemma parse_observation_handled `{StrParsers} obs e :
  parse_observation obs = Raise e -> handled e = true.
Proof.
  unfold parse_observation, getitem, strptime, py_float.
  destruct (obs !! "date") as [ds |]; simpl; [| intros [= <-]; reflexivity].
  destruct (strptime_ymd ds); simpl; [| intros [= <-]; reflexivity].
  destruct (obs !! "value") as [vs |]; simpl; [| intros [= <-]; reflexivity].
  destruct (float_of_str vs); simpl; [discriminate | intros [= <-]; reflexivity].
Qed.

Lemma parse_yoy_handled `{StrParsers} pt e :
  parse_yoy pt = Raise e -> handled e = true.
Proof.
  unfold parse_yoy, strptime.
  destruct (strptime_ymd (yoy_date pt)); simpl;
    [discriminate | intros [= <-]; reflexivity].
Qed.

Lemma parse_annual_cases item :
  c_int_ok (gdp_year item) = true ->
  (exists d, mk_date (gdp_year item) 12 31 = Ok d
             /\ parse_annual item = Ok (d, gdp_value item))
  \/ (parse_annual item = Raise ValueError
      /\ forall d, mk_date (gdp_year item) 12 31 <> Ok d).
Proof.
  intros Hy. unfold parse_annual.
  destruct (mk_date (gdp_year item) 12 31) as [d | e] eqn:Hmk.
  - left. exists d. split; reflexivity.
  - right. unfold mk_date in Hmk. rewrite Hy in Hmk. simpl in Hmk.
    destruct (negb _) in Hmk; [injection Hmk as <- |].
    + split; [reflexivity | discriminate].
    + simpl in Hmk. discriminate Hmk.
Qed.

(** The loop over the annual points, on years that fit a C [int]. *)
Lemma collect_annual items : forall acc,
  Forall (fun item => c_int_ok (gdp_year item) = true) items ->
  exists acc',
    collect parse_annual GlobalGdpGrowth items acc = Ok acc'
    /\ forall d,
         lookup_date d acc'
         = match annual_point d items with
           | Some item =>
               Some (<[GlobalGdpGrowth := gdp_value item]>
                       (default ∅ (lookup_date d acc)))
           | None => lookup_date d acc
           end.
Proof.
  induction items as [| item rest IH]; intros acc Hyears.
  - exists acc. split; reflexivity.
  - apply Forall_cons in Hyears as [Hy Hyears]. simpl.
    destruct (parse_annual_cases item Hy) as [(d0 & Hmk & ->) | [-> Hno]].
    + destruct (IH (set_field d0 GlobalGdpGrowth (gdp_value item) acc) Hyears)
        as (acc' & -> & Hlook).
      exists acc'. split; [reflexivity |].
      intros d. rewrite Hlook, lookup_date_set_field, Hmk.
      destruct (annual_point d rest) as [later |].
      * destruct (decide (d0 = d)) as [-> | Hne]; [| reflexivity].
        simpl. rewrite insert_insert_eq. reflexivity.
      * destruct (decide (d0 = d)) as [-> | Hne].
        -- destruct (decide (Ok d = Ok d)); [reflexivity | contradiction].
        -- destruct (decide (Ok d0 = Ok d)); [congruence | reflexivity].
    + simpl. destruct (IH acc Hyears) as (acc' & -> & Hlook).
      exists acc'. split; [reflexivity |].
      intros d. rewrite Hlook.
      destruct (annual_point d rest) as [later |]; [reflexivity |].
      destruct (decide (mk_date (gdp_year item) 12 31 = Ok d)) as [Heq |];
        [| reflexivity].
      destruct (Hno d Heq).
Qed.

Lemma lookup_date_forward_fill v acc d :
  lookup_date d (forward_fill (Some v) acc) = fill_gdp v <$> lookup_date d acc.
Proof.
  induction acc as [| [d0 values] rest IH]; [reflexivity |].
  unfold forward_fill in *. rewrite fmap_cons. cbn beta iota.
  destruct (values !! GlobalGdpGrowth) eqn:Hv; cbn [lookup_date];
    (destruct (decide (d0 = d));
     [cbn [fmap option_fmap option_map]; unfold fill_gdp; rewrite Hv;
      reflexivity
     | exact IH]).
Qed.

Lemma fill_gdp_lookup v values :
  fill_gdp v values !! GlobalGdpGrowth
  = Some (default v (values !! GlobalGdpGrowth)).
Proof.
  unfold fill_gdp. destruct (values !! GlobalGdpGrowth) as [w |] eqn:Hv.
  - rewrite Hv. reflexivity.
  - rewrite lookup_insert_eq. reflexivity.
Qed.

(** The head of the sorted list is a point of greatest year. *)
Lemma sorted_by_year_desc_head l :
  l <> [] ->
  exists top rest,
    sorted_by_year_desc l = top :: rest
    /\ top ∈ l
    /\ forall item, item ∈ l -> gdp_year item <= gdp_year top.
Proof.
  induction l as [| x l IH]; [congruence |]. intros _.
  destruct l as [| y l'].
  - exists x, []. split; [reflexivity | split; [left |]].
    intros item Hin. apply list_elem_of_singleton in Hin as ->. lia.
  - destruct IH as (top & rest & Hs & Hin & Hmax); [discriminate |].
    cbn [sorted_by_year_desc foldr] in *. rewrite Hs. cbn [insert_desc].
    destruct (gdp_year x <? gdp_year top) eqn:Hlt.
    + apply Z.ltb_lt in Hlt. exists top, (insert_desc x rest).
      split; [reflexivity | split; [now right |]].
      intros item Hitem. apply elem_of_cons in Hitem as [-> | Hitem];
        [lia | now apply Hmax].
    + apply Z.ltb_ge in Hlt. exists x, (top :: rest).
      split; [reflexivity | split; [left |]].
      intros item Hitem. apply elem_of_cons in Hitem as [-> | Hitem];
        [lia |]. specialize (Hmax item Hitem). lia.
Qed.

Lemma latest_gdp_value_max global_gdp :
  global_gdp <> [] ->
  exists top,
    latest_gdp_value global_gdp = Some (gdp_value top)
    /\ top ∈ global_gdp
    /\ forall item, item ∈ global_gdp -> gdp_year item <= gdp_year top.
Proof.
  intros Hne.
  destruct (sorted_by_year_desc_head global_gdp Hne)
    as (top & rest & Hs & Hin & Hmax).
  exists top. split; [| split; [exact Hin | exact Hmax]].
  unfold latest_gdp_value. rewrite Hs.
  destruct global_gdp; [congruence | reflexivity].
Qed.

Lemma no_global_gdp_nil : no_global_gdp [].
Proof. intros d values Hl. discriminate Hl. Qed.

(** C4.  On annual points whose years fit a C [int], the reconciliation
    completes.  When at least one annual point was fetched, there is a point
    [top] of greatest year among all the fetched ones such that every date of
    the accumulator carries a [global_gdp_growth] value: the value of the
    annual point dated that very day if one of the last five is, and the value
    of [top] otherwise.  The fill step changes nothing else: it maps the dict
    of every date through [fill_gdp].  When no annual point was fetched, no
    date gets a value. *)
Theorem forward_fill_latest_global_gdp :
  forall (P : StrParsers) (fed_rates : list (gmap string string))
         (inflation_data : list yoy_point)
         (gdp_data : list (gmap string string)) (global_gdp : list gdp_item),
    Forall (fun item => c_int_ok (gdp_year item) = true) (lastn 5 global_gdp) ->
    exists acc,
      build_data_by_date fed_rates inflation_data gdp_data global_gdp = Ok acc
      /\ (global_gdp <> [] ->
          exists top,
            top ∈ global_gdp
            /\ (forall item, item ∈ global_gdp ->
                             gdp_year item <= gdp_year top)
            /\ latest_gdp_value global_gdp = Some (gdp_value top)
            /\ forall d values,
                 lookup_date d acc = Some values ->
                 values !! GlobalGdpGrowth
                 = Some (match annual_point d (lastn 5 global_gdp) with
                         | Some item => gdp_value item
                         | None => gdp_value top
                         end))
      /\ (forall v acc0 d,
            lookup_date d (forward_fill (Some v) acc0)
            = fill_gdp v <$> lookup_date d acc0)
      /\ (global_gdp = [] -> no_global_gdp acc).
Proof.
  intros P fed_rates inflation_data gdp_data global_gdp Hyears.
  unfold build_data_by_date.
  destruct (collect_handled parse_observation FederalFundsRate no_global_gdp
              (lastn 12 fed_rates)) with (acc := @nil (date * gmap field float))
    as (acc1 & Hr1 & H1).
  { intros item e _. apply parse_observation_handled. }
  { intros d v acc. now apply set_field_no_global_gdp. }
  { apply no_global_gdp_nil. }
  rewrite Hr1. cbn [mbind result_bind].
  destruct (collect_handled parse_yoy InflationRate no_global_gdp
              (lastn 12 inflation_data)) with (acc := acc1)
    as (acc2 & Hr2 & H2).
  { intros item e _. apply parse_yoy_handled. }
  { intros d v acc. now apply set_field_no_global_gdp. }
  { exact H1. }
  rewrite Hr2. cbn [mbind result_bind].
  destruct (collect_handled parse_observation UsGdpGrowth no_global_gdp
              (lastn 8 gdp_data)) with (acc := acc2)
    as (acc3 & Hr3 & H3).
  { intros item e _. apply parse_observation_handled. }
  { intros d v acc. now apply set_field_no_global_gdp. }
  { exact H2. }
  rewrite Hr3. cbn [mbind result_bind].
  destruct (collect_annual (lastn 5 global_gdp) acc3 Hyears)
    as (acc4 & Hrun & H4).
  rewrite Hrun. cbn [mbind result_bind mret result_ret].
  eexists. split; [reflexivity |].
  split; [| split; [apply lookup_date_forward_fill |]].
  - intros Hne.
    destruct (latest_gdp_value_max global_gdp Hne) as (top & Hlatest & Hin & Hmax).
    exists top. split; [exact Hin | split; [exact Hmax | split; [exact Hlatest |]]].
    intros d values. rewrite Hlatest, lookup_date_forward_fill, H4.
    destruct (annual_point d (lastn 5 global_gdp)) as [item |].
    + intros [= <-]. rewrite fill_gdp_lookup, lookup_insert_eq. reflexivity.
    + destruct (lookup_date d acc3) as [values3 |] eqn:Hl; [| discriminate].
      intros [= <-]. rewrite fill_gdp_lookup, (H3 d values3 Hl). reflexivity.
  - intros ->. intros d values Hl. simpl in Hl.
    assert (Hacc : acc4 = acc3).
    { change (lastn 5 (@nil gdp_item)) with (@nil gdp_item) in Hrun.
      simpl in Hrun. congruence. }
    rewrite Hacc in Hl. now apply (H3 d).
Qed.

Lemma forward_fill_latest_global_gdp_witness :
  Forall (fun item => c_int_ok (gdp_year item) = true)
    (lastn 5 (global_gdp Samples.sample_feeds))
  /\ exists acc,
       @build_data_by_date Ascii_parsers.parsers
         (fed_rates Samples.sample_feeds) [YoY "2024-01-01" 10%float]
         (gdp_data Samples.sample_feeds) (global_gdp Samples.sample_feeds)
       = Ok acc
       /\ (forall d values,
             lookup_date d acc = Some values ->
             values !! GlobalGdpGrowth
             = Some (if decide (d = Date 2022 12 31) then 2.5%float
                     else 3%float))
       /\ is_Some (lookup_date (Date 2022 6 1) acc)
       /\ is_Some (lookup_date (Date 2022 12 31) acc)
       /\ is_Some (lookup_date (Date 2024 1 1) acc).
Proof.
  assert (Hyears : Forall (fun item => c_int_ok (gdp_year item) = true)
                     (lastn 5 (global_gdp Samples.sample_feeds))).
  { apply (bool_decide_unpack _). vm_compute. exact I. }
  split; [exact Hyears |].
  destruct (forward_fill_latest_global_gdp Ascii_parsers.parsers
              (fed_rates Samples.sample_feeds) [YoY "2024-01-01" 10%float]
              (gdp_data Samples.sample_feeds) (global_gdp Samples.sample_feeds)
              Hyears)
    as (acc & Hrun & Hfill & _ & _).
  exists acc. split; [exact Hrun |].
  destruct Hfill as (top & _ & _ & Hlatest & Hvalues); [discriminate |].
  assert (Hthree : latest_gdp_value (global_gdp Samples.sample_feeds)
                   = Some 3%float) by (vm_compute; reflexivity).
  rewrite Hthree in Hlatest. injection Hlatest as Htop.
  split.
  - intros d values Hl. rewrite (Hvalues d values Hl), <- Htop. f_equal.
    change (lastn 5 (global_gdp Samples.sample_feeds))
      with [ {| gdp_year := 2022; gdp_value := 2.5 |};
             {| gdp_year := 2023; gdp_value := 3 |} ].
    cbn [annual_point gdp_year].
    change (mk_date 2023 12 31) with (Ok (Date 2023 12 31)).
    change (mk_date 2022 12 31) with (Ok (Date 2022 12 31)).
    repeat case_decide; simplify_eq; reflexivity.
  - vm_compute in Hrun. injection Hrun as <-.
    repeat split; vm_compute; eauto.
Defined.

(** ** The year-over-year calculator on arbitrary input *)

Section Yoy_general.
Context `{StrParsers}.

Lemma yoy_try_raises current year_ago e :
  yoy_try current year_ago = Raise e ->
  handled e = true \/ e = ZeroDivisionError.
Proof.
  unfold yoy_try, getitem, py_float, truediv.
  destruct (current !! "value") as [cs |]; simpl;
    [| intros [= <-]; now left].
  destruct (float_of_str cs) as [cv |]; simpl; [| intros [= <-]; now left].
  destruct (year_ago !! "value") as [ys |]; simpl;
    [| intros [= <-]; now left].
  destruct (float_of_str ys) as [yv |]; simpl; [| intros [= <-]; now left].
  destruct (float_is_zero yv); simpl; [intros [= <-]; now right |].
  destruct (current !! "date"); simpl; [discriminate | intros [= <-]; now left].
Qed.

Lemma yoy_try_date current year_ago p :
  yoy_try current year_ago = Ok p -> current !! "date" = Some (yoy_date p).
Proof.
  unfold yoy_try, getitem, py_float, truediv.
  destruct (current !! "value") as [cs |]; simpl; [| discriminate].
  destruct (float_of_str cs) as [cv |]; simpl; [| discriminate].
  destruct (year_ago !! "value") as [ys |]; simpl; [| discriminate].
  destruct (float_of_str ys) as [yv |]; simpl; [| discriminate].
  destruct (float_is_zero yv); simpl; [discriminate |].
  destruct (current !! "date"); simpl; [| discriminate].
  intros [= <-]. reflexivity.
Qed.

Lemma yoy_loop_cases observations range : forall out,
  (forall i, i ∈ range -> (12 <= i < length observations)%nat) ->
  (yoy_loop observations range out
   = Ok (out ++ omap (emitted observations) range)
   /\ forall i, i ∈ range -> ~ divides_by_zero observations i)
  \/ (yoy_loop observations range out = Raise ZeroDivisionError
      /\ exists i, i ∈ range /\ divides_by_zero observations i).
Proof.
  induction range as [| i range IH]; intros out Hrange.
  - left. simpl. rewrite app_nil_r. split; [reflexivity |].
    intros i Hi. apply elem_of_nil in Hi. destruct Hi.
  - destruct (lookup_lt_is_Some_2 observations i) as [cur Hcur].
    { apply Hrange. left. }
    destruct (lookup_lt_is_Some_2 observations (i - 12)) as [ya Hya].
    { pose proof (Hrange i ltac:(left)). lia. }
    assert (Hrest : forall j, j ∈ range -> (12 <= j < length observations)%nat).
    { intros j Hj. apply Hrange. now right. }
    cbn [yoy_loop omap list_omap]. unfold index, emitted at 1.
    rewrite Hcur, Hya. cbn [mbind result_bind].
    assert (Hhead : yoy_try cur ya <> Raise ZeroDivisionError ->
                    ~ divides_by_zero observations i).
    { intros Hne (c & y & Hc & Hy & Hr). congruence. }
    destruct (yoy_try cur ya) as [p | e] eqn:Htry.
    + destruct (IH (out ++ [p]) Hrest) as [[-> Hnz] | [-> (j & Hj & Hdz)]].
      * left. rewrite <- app_assoc. split; [reflexivity |].
        intros j Hj. apply elem_of_cons in Hj as [-> | Hj];
          [now apply Hhead | now apply Hnz].
      * right. split; [reflexivity |]. exists j. split; [now right | exact Hdz].
    + destruct (yoy_try_raises cur ya e Htry) as [He | ->].
      * rewrite He.
        destruct (IH out Hrest) as [[-> Hnz] | [-> (j & Hj & Hdz)]].
        -- left. split; [reflexivity |].
           intros j Hj. apply elem_of_cons in Hj as [-> | Hj];
             [| now apply Hnz].
           apply Hhead. intros [= ->]. discriminate He.
        -- right. split; [reflexivity |]. exists j.
           split; [now right | exact Hdz].
      * right. split; [reflexivity |]. exists i. split; [left |].
        exists cur, ya. auto.
Qed.

Lemma emitted_date observations i p :
  emitted observations i = Some p ->
  exists current,
    observations !! i = Some current /\ current !! "date" = Some (yoy_date p).
Proof.
  unfold emitted. destruct (observations !! i) as [cur |]; [| discriminate].
  destruct (observations !! (i - 12)%nat) as [ya |]; [| discriminate].
  destruct (yoy_try cur ya) as [q |] eqn:Htry; [| discriminate].
  intros [= <-]. exists cur. split; [reflexivity |].
  now apply (yoy_try_date cur ya).
Qed.

Lemma length_omap_le {A B} (f : A -> option B) (l : list A) :
  (length (omap f l) <= length l)%nat.
Proof.
  induction l as [| a l IH]; [reflexivity |].
  cbn [omap list_omap length]. fold (omap f l).
  destruct (f a); cbn [length]; lia.
Qed.

End Yoy_general.

(** X1.  On every input the calculator either returns or raises
    [ZeroDivisionError], and which of the two is decided by the input: it
    raises when some index from 12 on has a pair of values that parse with a
    zero baseline, and otherwise it returns the points of the indices from 12
    on that have both values and a date, in order, the other indices being
    skipped; so it returns at most [n - 12] points and each carries the date
    of an observation of index 12 or more. *)
Theorem calculate_cpi_yoy_change_outcome :
  forall (P : StrParsers) (observations : list (gmap string string)),
    let n := length observations in
    ((exists i, (12 <= i < n)%nat /\ divides_by_zero observations i) ->
     calculate_cpi_yoy_change observations = Raise ZeroDivisionError)
    /\ ((forall i, (12 <= i < n)%nat -> ~ divides_by_zero observations i) ->
        calculate_cpi_yoy_change observations
        = Ok (omap (emitted observations) (seq 12 (n - 12))))
    /\ (forall e, calculate_cpi_yoy_change observations = Raise e ->
                  e = ZeroDivisionError)
    /\ (forall out,
          calculate_cpi_yoy_change observations = Ok out ->
          out = omap (emitted observations) (seq 12 (n - 12))
          /\ (length out <= n - 12)%nat
          /\ forall p, p ∈ out ->
               exists i current,
                 (12 <= i < n)%nat /\ observations !! i = Some current
                 /\ current !! "date" = Some (yoy_date p)).
Proof.
  intros P observations n.
  assert (Hcases :
    (calculate_cpi_yoy_change observations
     = Ok (omap (emitted observations) (seq 12 (n - 12)))
     /\ forall i, (12 <= i < n)%nat -> ~ divides_by_zero observations i)
    \/ (calculate_cpi_yoy_change observations = Raise ZeroDivisionError
        /\ exists i, (12 <= i < n)%nat /\ divides_by_zero observations i)).
  { unfold calculate_cpi_yoy_change. fold n.
    destruct (n <? 12)%nat eqn:Hlt.
    - apply Nat.ltb_lt in Hlt. left.
      replace (n - 12)%nat with 0%nat by lia. split; [reflexivity |].
      intros i Hi. exfalso. lia.
    - apply Nat.ltb_ge in Hlt.
      destruct (yoy_loop_cases observations (seq 12 (n - 12)) [])
        as [[-> Hnz] | [-> (i & Hi & Hdz)]].
      + intros i Hi. apply elem_of_seq in Hi. fold n. lia.
      + left. split; [reflexivity |].
        intros i Hi. apply Hnz, elem_of_seq. lia.
      + right. split; [reflexivity |]. exists i.
        apply elem_of_seq in Hi. split; [lia | exact Hdz]. }
  split; [| split; [| split]].
  - intros (i & Hi & Hdz).
    destruct Hcases as [[_ Hnz] | [Hr _]]; [| exact Hr].
    destruct (Hnz i Hi Hdz).
  - intros Hnz. destruct Hcases as [[Hr _] | [_ (i & Hi & Hdz)]]; [exact Hr |].
    destruct (Hnz i Hi Hdz).
  - intros e He. destruct Hcases as [[Hr _] | [Hr _]]; congruence.
  - intros out Hout.
    destruct Hcases as [[Hr _] | [Hr _]]; [| congruence].
    rewrite Hr in Hout. injection Hout as <-.
    split; [reflexivity | split].
    + etransitivity; [apply length_omap_le |]. rewrite length_seq. lia.
    + intros p Hp. apply list_elem_of_omap in Hp as (i & Hi & Hem).
      apply elem_of_seq in Hi.
      destruct (emitted_date observations i p Hem) as (cur & Hcur & Hd).
      exists i, cur. split; [lia | auto].
Qed.

Lemma calculate_cpi_yoy_change_outcome_witness :
  @calculate_cpi_yoy_change Ascii_parsers.parsers More_samples.gap_series
  = Ok [YoY "2024-02-01" 10%float].
Proof.
  destruct (calculate_cpi_yoy_change_outcome Ascii_parsers.parsers
              More_samples.gap_series) as (_ & Hnone & _).
  rewrite Hnone; [vm_compute; reflexivity |].
  intros i Hi (cur & ya & Hc & Hy & Hr).
  assert (Hlen : length More_samples.gap_series = 14%nat) by reflexivity.
  rewrite Hlen in Hi.
  assert (i = 12 \/ i = 13)%nat as [-> | ->] by lia;
    vm_compute in Hc, Hy; injection Hc as <-; injection Hy as <-;
    vm_compute in Hr; discriminate Hr.
Defined.

(** ** The loops that fill the accumulator *)

Lemma lookup_date_keys_Some d (acc : list (date * gmap field float)) :
  is_Some (lookup_date d acc) <-> d ∈ acc.*1.
Proof.
  destruct (lookup_date d acc) as [values |] eqn:Hl.
  - split; [intros _ | eauto].
    apply lookup_date_Some in Hl. apply list_elem_of_fmap.
    now exists (d, values).
  - apply lookup_date_None in Hl. split; [intros [v Hv]; discriminate | tauto].
Qed.

Lemma set_field_keys d f v (acc : list (date * gmap field float)) :
  (set_field d f v acc).*1
  = if decide (d ∈ acc.*1) then acc.*1 else acc.*1 ++ [d].
Proof.
  induction acc as [| [d0 values] rest IH]; [reflexivity |].
  cbn [set_field]. destruct (decide (d0 = d)) as [-> | Hne].
  - rewrite !fmap_cons. cbn [fst].
    destruct (decide (d ∈ d :: rest.*1)) as [_ | Hnot]; [reflexivity |].
    destruct Hnot. left.
  - rewrite !fmap_cons, IH. cbn [fst].
    destruct (decide (d ∈ rest.*1)) as [Hin | Hnot].
    + destruct (decide (d ∈ d0 :: rest.*1)) as [_ | Hnot]; [reflexivity |].
      destruct Hnot. now right.
    + destruct (decide (d ∈ d0 :: rest.*1)) as [Hin | _]; [| reflexivity].
      apply elem_of_cons in Hin as [-> | Hin]; [congruence | contradiction].
Qed.

Lemma set_field_NoDup d f v (acc : list (date * gmap field float)) :
  NoDup acc.*1 -> NoDup (set_field d f v acc).*1.
Proof.
  intros Hnd. rewrite set_field_keys.
  destruct (decide (d ∈ acc.*1)) as [Hin | Hnot]; [exact Hnd |].
  apply NoDup_app. split; [exact Hnd | split; [| apply NoDup_singleton]].
  intros x Hx Hx'. apply list_elem_of_singleton in Hx'. congruence.
Qed.

Lemma set_field_non_empty d f v (acc : list (date * gmap field float)) :
  Forall (fun entry => entry.2 <> ∅) acc ->
  Forall (fun entry => entry.2 <> ∅) (set_field d f v acc).
Proof.
  induction acc as [| [d0 values] rest IH]; intros Hall.
  - constructor; [apply insert_non_empty | constructor].
  - apply Forall_cons in Hall as [Hhead Hall]. cbn [set_field].
    destruct (decide (d0 = d)).
    + constructor; [apply insert_non_empty | exact Hall].
    + constructor; [exact Hhead | now apply IH].
Qed.

(** What a loop keeps when it completes, whatever its items are. *)
Lemma collect_invariant {A} (parse : A -> result (date * float)) f
    (I : list (date * gmap field float) -> Prop) items :
  (forall d v acc, I acc -> I (set_field d f v acc)) ->
  forall acc acc', I acc -> collect parse f items acc = Ok acc' -> I acc'.
Proof.
  intros Hstep. induction items as [| item rest IH]; intros acc acc' Hacc.
  - simpl. intros [= <-]. exact Hacc.
  - simpl. destruct (parse item) as [[d v] | e].
    + apply IH. now apply Hstep.
    + destruct (handled e); [now apply IH | discriminate].
Qed.

(** A loop raises only what its body raises and its [except] lets through. *)
Lemma collect_raises {A} (parse : A -> result (date * float)) f items :
  forall acc e,
    collect parse f items acc = Raise e ->
    exists item, item ∈ items /\ parse item = Raise e /\ handled e = false.
Proof.
  induction items as [| item rest IH]; intros acc e; simpl; [discriminate |].
  destruct (parse item) as [[d v] | e'] eqn:Hp.
  - intros Hr. destruct (IH _ _ Hr) as (it & Hin & Hit).
    exists it. split; [now right | exact Hit].
  - destruct (handled e') eqn:Hh.
    + intros Hr. destruct (IH _ _ Hr) as (it & Hin & Hit).
      exists it. split; [now right | exact Hit].
    + intros [= <-]. exists item. split; [left | auto].
Qed.

Lemma collect_last_parsed {A} (parse : A -> result (date * float)) f items :
  (forall item e, item ∈ items -> parse item = Raise e -> handled e = true) ->
  forall acc,
    exists acc',
      collect parse f items acc = Ok acc'
      /\ forall d,
           lookup_date d acc'
           = match last_parsed parse d items with
             | Some v => Some (<[f := v]> (default ∅ (lookup_date d acc)))
             | None => lookup_date d acc
             end.
Proof.
  induction items as [| item rest IH]; intros Hparse acc.
  - exists acc. split; reflexivity.
  - assert (Hrest : forall item' e, item' ∈ rest -> parse item' = Raise e ->
                                    handled e = true).
    { intros item' e Hin. apply Hparse. now right. }
    cbn [collect last_parsed].
    destruct (parse item) as [[d0 v0] | e] eqn:Hp.
    + destruct (IH Hrest (set_field d0 f v0 acc)) as (acc' & -> & Hlook).
      exists acc'. split; [reflexivity |].
      intros d. rewrite Hlook.
      destruct (last_parsed parse d rest) as [v |];
        rewrite lookup_date_set_field.
      * destruct (decide (d0 = d)) as [-> | Hne]; [| reflexivity].
        simpl. rewrite insert_insert_eq. reflexivity.
      * destruct (decide (d0 = d)) as [-> | Hne]; reflexivity.
    + rewrite (Hparse item e); [| left | exact Hp].
      destruct (IH Hrest acc) as (acc' & -> & Hlook).
      exists acc'. split; [reflexivity |].
      intros d. rewrite Hlook.
      destruct (last_parsed parse d rest); reflexivity.
Qed.

(** X2.  A loop over a FRED series always completes.  In the accumulator
    it returns, a date on which some observation of the series parses holds
    the value of the last such observation under the field of the series, its
    other fields being as before; every other date is as before; an
    observation whose date or value is missing or does not parse changes
    nothing; and the dates stay distinct. *)
Theorem collect_observations_last_wins :
  forall (P : StrParsers) (f : field) (series : list (gmap string string))
         (acc : list (date * gmap field float)),
    exists acc',
      collect parse_observation f series acc = Ok acc'
      /\ (forall d,
            lookup_date d acc'
            = match last_parsed parse_observation d series with
              | Some v => Some (<[f := v]> (default ∅ (lookup_date d acc)))
              | None => lookup_date d acc
              end)
      /\ (forall d g,
            g <> f ->
            (lookup_date d acc' ≫= (fun values => values !! g))
            = (lookup_date d acc ≫= (fun values => values !! g)))
      /\ (NoDup acc.*1 -> NoDup acc'.*1).
Proof.
  intros P f series acc.
  destruct (collect_last_parsed parse_observation f series) with (acc := acc)
    as (acc' & Hrun & Hlook).
  { intros item e _. apply parse_observation_handled. }
  exists acc'. split; [exact Hrun | split; [exact Hlook | split]].
  - intros d g Hg. rewrite Hlook.
    destruct (last_parsed parse_observation d series) as [v |]; [| reflexivity].
    simpl. rewrite lookup_insert_ne by congruence.
    destruct (lookup_date d acc); [reflexivity |].
    simpl. rewrite lookup_empty. reflexivity.
  - intros Hnd.
    apply (collect_invariant parse_observation f
             (fun a => NoDup a.*1) series) with (acc := acc);
      [| exact Hnd | exact Hrun].
    intros d v a. apply set_field_NoDup.
Qed.

Lemma collect_observations_last_wins_witness :
  exists acc',
    @collect _ (@parse_observation Ascii_parsers.parsers) FederalFundsRate
      More_samples.repeated_day [] = Ok acc'
    /\ (lookup_date (Date 2023 7 1) acc' ≫= (fun values => values !! FederalFundsRate))
       = Some 5.5%float
    /\ (lookup_date (Date 2023 8 1) acc' ≫= (fun values => values !! FederalFundsRate))
       = Some 5.25%float
    /\ length acc' = 2%nat.
Proof.
  destruct (collect_observations_last_wins Ascii_parsers.parsers
              FederalFundsRate More_samples.repeated_day [])
    as (acc' & Hrun & Hlook & _ & _).
  exists acc'. split; [exact Hrun |].
  rewrite !Hlook. split; [vm_compute; reflexivity |].
  split; [vm_compute; reflexivity |].
  vm_compute in Hrun. injection Hrun as <-. reflexivity.
Defined.

(** ** The accumulator as a whole *)

Lemma forward_fill_keys latest (acc : list (date * gmap field float)) :
  (forward_fill latest acc).*1 = acc.*1.
Proof.
  destruct latest as [v |]; [| reflexivity].
  unfold forward_fill. induction acc as [| [d values] rest IH]; [reflexivity |].
  rewrite !fmap_cons, IH. destruct (values !! GlobalGdpGrowth); reflexivity.
Qed.

Lemma forward_fill_non_empty latest (acc : list (date * gmap field float)) :
  Forall (fun entry => entry.2 <> ∅) acc ->
  Forall (fun entry => entry.2 <> ∅) (forward_fill latest acc).
Proof.
  destruct latest as [v |]; [| tauto].
  unfold forward_fill. induction acc as [| [d values] rest IH]; intros Hall;
    [constructor |].
  apply Forall_cons in Hall as [Hhead Hall]. rewrite fmap_cons.
  constructor; [| now apply IH].
  destruct (values !! GlobalGdpGrowth); [exact Hhead | apply insert_non_empty].
Qed.

Lemma set_field_length d f v (acc : list (date * gmap field float)) :
  (length (set_field d f v acc) <= S (length acc))%nat.
Proof.
  induction acc as [| [d0 values] rest IH]; simpl; [lia |].
  destruct (decide (d0 = d)); simpl; lia.
Qed.

Lemma collect_length {A} (parse : A -> result (date * float)) f items :
  forall acc acc',
    collect parse f items acc = Ok acc' ->
    (length acc' <= length acc + length items)%nat.
Proof.
  induction items as [| item rest IH]; intros acc acc'; simpl.
  - intros [= <-]. lia.
  - destruct (parse item) as [[d v] | e].
    + intros Hr. apply IH in Hr. pose proof (set_field_length d f v acc). lia.
    + destruct (handled e); [| discriminate].
      intros Hr. apply IH in Hr. lia.
Qed.

Lemma length_lastn {A} n (l : list A) : (length (lastn n l) <= n)%nat.
Proof. unfold lastn. rewrite length_drop. lia. Qed.

(** The four loops, one after the other. *)
Lemma build_data_by_date_steps `{StrParsers} fed_rates inflation_data gdp_data
    global_gdp acc :
  build_data_by_date fed_rates inflation_data gdp_data global_gdp = Ok acc ->
  exists acc1 acc2 acc3 acc4,
    collect parse_observation FederalFundsRate (lastn 12 fed_rates) [] = Ok acc1
    /\ collect parse_yoy InflationRate (lastn 12 inflation_data) acc1 = Ok acc2
    /\ collect parse_observation UsGdpGrowth (lastn 8 gdp_data) acc2 = Ok acc3
    /\ collect parse_annual GlobalGdpGrowth (lastn 5 global_gdp) acc3 = Ok acc4
    /\ acc = forward_fill (latest_gdp_value global_gdp) acc4.
Proof.
  unfold build_data_by_date. intros Hrun.
  destruct (collect parse_observation FederalFundsRate (lastn 12 fed_rates) [])
    as [acc1 |] eqn:H1; [| discriminate]. cbn [mbind result_bind] in Hrun.
  destruct (collect parse_yoy InflationRate (lastn 12 inflation_data) acc1)
    as [acc2 |] eqn:H2; [| discriminate]. cbn [mbind result_bind] in Hrun.
  destruct (collect parse_observation UsGdpGrowth (lastn 8 gdp_data) acc2)
    as [acc3 |] eqn:H3; [| discriminate]. cbn [mbind result_bind] in Hrun.
  destruct (collect parse_annual GlobalGdpGrowth (lastn 5 global_gdp) acc3)
    as [acc4 |] eqn:H4; [| discriminate].
  cbn [mbind result_bind mret result_ret] in Hrun. injection Hrun as <-.
  exists acc1, acc2, acc3, acc4. repeat split; assumption.
Qed.

Lemma build_data_by_date_keeps `{StrParsers}
    (I : list (date * gmap field float) -> Prop) fed_rates inflation_data
    gdp_data global_gdp acc :
  I [] ->
  (forall d f v a, I a -> I (set_field d f v a)) ->
  (forall latest a, I a -> I (forward_fill latest a)) ->
  build_data_by_date fed_rates inflation_data gdp_data global_gdp = Ok acc ->
  I acc.
Proof.
  intros Hnil Hset Hfill Hrun.
  destruct (build_data_by_date_steps _ _ _ _ _ Hrun)
    as (acc1 & acc2 & acc3 & acc4 & H1 & H2 & H3 & H4 & ->).
  apply Hfill.
  eapply collect_invariant; [intros d v a; apply Hset | | exact H4].
  eapply collect_invariant; [intros d v a; apply Hset | | exact H3].
  eapply collect_invariant; [intros d v a; apply Hset | | exact H2].
  eapply collect_invariant; [intros d v a; apply Hset | | exact H1].
  exact Hnil.
Qed.

Lemma build_data_by_date_NoDup `{StrParsers} fed_rates inflation_data gdp_data
    global_gdp acc :
  build_data_by_date fed_rates inflation_data gdp_data global_gdp = Ok acc ->
  NoDup acc.*1.
Proof.
  apply (build_data_by_date_keeps (fun a => NoDup a.*1)).
  - constructor.
  - intros d f v a. apply set_field_NoDup.
  - intros latest a. now rewrite forward_fill_keys.
Qed.

(** X3.  The accumulator that the reconciliation returns is a dict: its
    dates are pairwise distinct.  No date has an empty field map, and there
    are at most 37 dates (12 + 12 + 8 + 5, the windows of the four series). *)
Theorem build_data_by_date_well_formed :
  forall (P : StrParsers) fed_rates inflation_data gdp_data global_gdp acc,
    build_data_by_date fed_rates inflation_data gdp_data global_gdp = Ok acc ->
    NoDup acc.*1
    /\ Forall (fun entry => entry.2 <> ∅) acc
    /\ (length acc <= 37)%nat.
Proof.
  intros P fed_rates inflation_data gdp_data global_gdp acc Hrun.
  split; [now apply (build_data_by_date_NoDup _ _ _ _ _ Hrun) | split].
  - revert Hrun.
    apply (build_data_by_date_keeps (Forall (fun entry => entry.2 <> ∅))).
    + constructor.
    + intros d f v a. apply set_field_non_empty.
    + intros latest a. apply forward_fill_non_empty.
  - destruct (build_data_by_date_steps _ _ _ _ _ Hrun)
      as (acc1 & acc2 & acc3 & acc4 & H1 & H2 & H3 & H4 & ->).
    apply collect_length in H1, H2, H3, H4.
    pose proof (length_lastn 12 fed_rates).
    pose proof (length_lastn 12 inflation_data).
    pose proof (length_lastn 8 gdp_data).
    pose proof (length_lastn 5 global_gdp).
    rewrite <- (length_fmap fst), forward_fill_keys, length_fmap.
    simpl in H1. lia.
Qed.

Lemma build_data_by_date_well_formed_witness :
  exists acc,
    @build_data_by_date Ascii_parsers.parsers
      (fed_rates Samples.sample_feeds) [YoY "2024-01-01" 10%float]
      (gdp_data Samples.sample_feeds) (global_gdp Samples.sample_feeds)
    = Ok acc
    /\ NoDup acc.*1
    /\ Forall (fun entry => entry.2 <> ∅) acc
    /\ (length acc <= 37)%nat.
Proof.
  eexists. split; [vm_compute; reflexivity |].
  apply (build_data_by_date_well_formed Ascii_parsers.parsers
           (fed_rates Samples.sample_feeds) [YoY "2024-01-01" 10%float]
           (gdp_data Samples.sample_feeds) (global_gdp Samples.sample_feeds)).
  vm_compute. reflexivity.
Defined.

(** ** The indicator step as a whole *)

Lemma calculate_cpi_yoy_change_raises `{StrParsers} observations e :
  calculate_cpi_yoy_change observations = Raise e -> e = ZeroDivisionError.
Proof.
  unfold calculate_cpi_yoy_change.
  destruct (length observations <? 12)%nat; [discriminate |].
  destruct (yoy_loop_cases observations
              (seq 12 (length observations - 12)) [])
    as [[-> _] | [-> _]]; [| discriminate | congruence].
  intros i Hi. apply elem_of_seq in Hi. lia.
Qed.

Lemma parse_annual_raises item e :
  parse_annual item = Raise e -> e = OverflowError \/ e = ValueError.
Proof.
  unfold parse_annual, mk_date.
  repeat match goal with
         | |- context [if ?b then _ else _] =>
             destruct b; cbn [mbind result_bind]
         end;
    first [discriminate | intros [= <-]; auto].
Qed.

Lemma build_data_by_date_raises `{StrParsers} fed_rates inflation_data gdp_data
    global_gdp e :
  build_data_by_date fed_rates inflation_data gdp_data global_gdp = Raise e ->
  e = OverflowError.
Proof.
  unfold build_data_by_date.
  destruct (collect parse_observation FederalFundsRate (lastn 12 fed_rates) [])
    as [acc1 | e1] eqn:H1; cbn [mbind result_bind].
  2: { apply collect_raises in H1 as (item & _ & Hp & Hh).
       apply parse_observation_handled in Hp. congruence. }
  destruct (collect parse_yoy InflationRate (lastn 12 inflation_data) acc1)
    as [acc2 | e2] eqn:H2; cbn [mbind result_bind].
  2: { apply collect_raises in H2 as (item & _ & Hp & Hh).
       apply parse_yoy_handled in Hp. congruence. }
  destruct (collect parse_observation UsGdpGrowth (lastn 8 gdp_data) acc2)
    as [acc3 | e3] eqn:H3; cbn [mbind result_bind].
  2: { apply collect_raises in H3 as (item & _ & Hp & Hh).
       apply parse_observation_handled in Hp. congruence. }
  destruct (collect parse_annual GlobalGdpGrowth (lastn 5 global_gdp) acc3)
    as [acc4 | e4] eqn:H4; cbn [mbind result_bind]; [discriminate |].
  intros [= <-]. apply collect_raises in H4 as (item & _ & Hp & Hh).
  apply parse_annual_raises in Hp as [-> | ->]; [reflexivity | discriminate Hh].
Qed.

Lemma build_data_by_date_total `{StrParsers} fed_rates inflation_data gdp_data
    global_gdp :
  Forall (fun item => c_int_ok (gdp_year item) = true) (lastn 5 global_gdp) ->
  exists acc,
    build_data_by_date fed_rates inflation_data gdp_data global_gdp = Ok acc.
Proof.
  intros Hyears.
  destruct (build_data_by_date fed_rates inflation_data gdp_data global_gdp)
    as [acc | e] eqn:Hrun; [eauto |].
  exfalso. unfold build_data_by_date in Hrun.
  destruct (collect_handled parse_observation FederalFundsRate (fun _ => True)
              (lastn 12 fed_rates)) with (acc := @nil (date * gmap field float))
    as (acc1 & Hr1 & _); [| auto | auto |].
  { intros item e' _. apply parse_observation_handled. }
  rewrite Hr1 in Hrun. cbn [mbind result_bind] in Hrun.
  destruct (collect_handled parse_yoy InflationRate (fun _ => True)
              (lastn 12 inflation_data)) with (acc := acc1)
    as (acc2 & Hr2 & _); [| auto | auto |].
  { intros item e' _. apply parse_yoy_handled. }
  rewrite Hr2 in Hrun. cbn [mbind result_bind] in Hrun.
  destruct (collect_handled parse_observation UsGdpGrowth (fun _ => True)
              (lastn 8 gdp_data)) with (acc := acc2)
    as (acc3 & Hr3 & _); [| auto | auto |].
  { intros item e' _. apply parse_observation_handled. }
  rewrite Hr3 in Hrun. cbn [mbind result_bind] in Hrun.
  destruct (collect_annual (lastn 5 global_gdp) acc3 Hyears) as (acc4 & Hr4 & _).
  rewrite Hr4 in Hrun. discriminate Hrun.
Qed.

Lemma upserted_NoDup now items table :
  NoDup items.*1 -> NoDup (ind_date <$> table) ->
  NoDup (ind_date
           <$> merged_table now items table ++ fresh_rows now items table).
Proof.
  intros Hitems Htable.
  rewrite fmap_app, merged_table_keys. apply NoDup_app.
  split; [exact Htable | split].
  - intros d Hd Hfresh. apply list_elem_of_fmap in Hfresh as (r & -> & Hin).
    apply fresh_rows_elem in Hin as (values & _ & Hnone & _).
    apply query_first_None in Hnone. contradiction.
  - eapply sublist_NoDup; [exact Hitems | apply fresh_rows_sublist].
Qed.

Lemma upsert_indicators_again now1 now2 items table :
  NoDup items.*1 ->
  let once := merged_table now1 items table ++ fresh_rows now1 items table in
  exists twice,
    upsert_indicators now2 items once = Ok (twice, length items)
    /\ stored <$> twice = stored <$> once.
Proof.
  intros Hnd once.
  assert (Hcov : forall d values, (d, values) ∈ items ->
            exists r, query_first ind_date d once = Some r /\ covers values r).
  { intros d values Hin. now apply upserted_covers. }
  assert (Hfresh : fresh_rows now2 items once = []).
  { apply fresh_rows_nil. intros d values Hin.
    destruct (Hcov d values Hin) as (r & -> & _). eauto. }
  exists (merged_table now2 items once). split.
  - rewrite (upsert_indicators_eq now2 items once Hnd), Hfresh, app_nil_r.
    reflexivity.
  - now apply merged_table_covered.
Qed.

(** The step in terms of its three stages. *)
Lemma update_economic_indicators_eq `{StrParsers} now src db :
  update_economic_indicators now src db
  = match calculate_cpi_yoy_change (cpi_data src) with
    | Raise e => (db, StepError (StrOf e))
    | Ok inflation_data =>
        match build_data_by_date (fed_rates src) inflation_data (gdp_data src)
                (global_gdp src) with
        | Raise e => (db, StepError (StrOf e))
        | Ok acc =>
            ({| economic_indicators :=
                  merged_table now acc (economic_indicators db)
                  ++ fresh_rows now acc (economic_indicators db);
                stock_data := stock_data db |},
             StepSuccess (length acc))
        end
    end.
Proof.
  unfold update_economic_indicators.
  destruct (calculate_cpi_yoy_change (cpi_data src)) as [inflation | e];
    [| reflexivity].
  cbn [mbind result_bind].
  destruct (build_data_by_date (fed_rates src) inflation (gdp_data src)
              (global_gdp src)) as [acc | e] eqn:Hb; [| reflexivity].
  cbn [mbind result_bind].
  rewrite (upsert_indicators_eq now acc _ (build_data_by_date_NoDup _ _ _ _ _ Hb)).
  reflexivity.
Qed.

(** X4.  The indicator step never touches the stock table and keeps the
    dates of the indicator table distinct.  It fails in two ways only, on a
    zero CPI baseline ([ZeroDivisionError]) or on an annual point whose year
    does not fit a C [int] ([OverflowError]), never on the unique constraint,
    and a failed step leaves the store exactly as it was.  When the CPI
    series has no zero baseline and the years fit, it succeeds, and its count
    is the number of dates of the accumulator. *)
Theorem update_economic_indicators_outcome :
  forall (P : StrParsers) now src db,
    let db' := fst (update_economic_indicators now src db) in
    let r := snd (update_economic_indicators now src db) in
    stock_data db' = stock_data db
    /\ (NoDup (ind_date <$> economic_indicators db) ->
        NoDup (ind_date <$> economic_indicators db'))
    /\ (forall m, r = StepError m ->
          db' = db
          /\ (m = StrOf ZeroDivisionError \/ m = StrOf OverflowError))
    /\ (forall n, r = StepSuccess n ->
          exists inflation_data acc,
            calculate_cpi_yoy_change (cpi_data src) = Ok inflation_data
            /\ build_data_by_date (fed_rates src) inflation_data (gdp_data src)
                 (global_gdp src) = Ok acc
            /\ n = length acc
            /\ upsert_indicators now acc (economic_indicators db)
               = Ok (economic_indicators db', n))
    /\ (is_ok (calculate_cpi_yoy_change (cpi_data src)) = true ->
        Forall (fun item => c_int_ok (gdp_year item) = true)
          (lastn 5 (global_gdp src)) ->
        exists n, r = StepSuccess n).
Proof.
  intros P now src db db' r. subst db' r.
  rewrite update_economic_indicators_eq.
  destruct (calculate_cpi_yoy_change (cpi_data src)) as [inflation | e] eqn:Hc.
  - destruct (build_data_by_date (fed_rates src) inflation (gdp_data src)
                (global_gdp src)) as [acc | e] eqn:Hb.
    + pose proof (build_data_by_date_NoDup _ _ _ _ _ Hb) as Hnd.
      cbn [fst snd economic_indicators stock_data].
      split; [reflexivity | split; [| split; [| split]]].
      * now apply upserted_NoDup.
      * intros m Hm. discriminate Hm.
      * intros n [= <-]. exists inflation, acc.
        split; [reflexivity | split; [exact Hb | split; [reflexivity |]]].
        now apply upsert_indicators_eq.
      * intros _ _. eauto.
    + cbn [fst snd]. apply build_data_by_date_raises in Hb as Hover. subst e.
      split; [reflexivity | split; [tauto | split; [| split]]].
      * intros m [= <-]. split; [reflexivity | now right].
      * intros n Hn. discriminate Hn.
      * intros _ Hyears.
        destruct (build_data_by_date_total (fed_rates src) inflation
                    (gdp_data src) (global_gdp src) Hyears) as [acc Hacc].
        congruence.
  - cbn [fst snd]. apply calculate_cpi_yoy_change_raises in Hc as Hz. subst e.
    split; [reflexivity | split; [tauto | split; [| split]]].
    + intros m [= <-]. split; [reflexivity | now left].
    + intros n Hn. discriminate Hn.
    + intros Hok. discriminate Hok.
Qed.

(** X5.  The indicator step is idempotent on its feeds: when it has
    succeeded, running it again on the store it produced, at any later clock
    reading, succeeds with the same count and leaves every row with the same
    stored field values, adding none. *)
Theorem update_economic_indicators_idempotent :
  forall (P : StrParsers) now1 now2 src db n,
    snd (update_economic_indicators now1 src db) = StepSuccess n ->
    let db1 := fst (update_economic_indicators now1 src db) in
    let db2 := fst (update_economic_indicators now2 src db1) in
    snd (update_economic_indicators now2 src db1) = StepSuccess n
    /\ stored <$> economic_indicators db2 = stored <$> economic_indicators db1
    /\ stock_data db2 = stock_data db.
Proof.
  intros P now1 now2 src db n Hfirst db1 db2. subst db1 db2.
  rewrite !update_economic_indicators_eq in *.
  destruct (calculate_cpi_yoy_change (cpi_data src)) as [inflation | e];
    [| discriminate Hfirst].
  destruct (build_data_by_date (fed_rates src) inflation (gdp_data src)
              (global_gdp src)) as [acc | e] eqn:Hb; [| discriminate Hfirst].
  cbn [fst snd economic_indicators stock_data] in *.
  injection Hfirst as <-.
  pose proof (build_data_by_date_NoDup _ _ _ _ _ Hb) as Hnd.
  destruct (upsert_indicators_again now1 now2 acc (economic_indicators db) Hnd)
    as (twice & Hrun & Hstored).
  rewrite (upsert_indicators_eq now2 acc _ Hnd) in Hrun.
  injection Hrun as Htwice.
  split; [reflexivity | split; [| reflexivity]].
  rewrite Htwice. exact Hstored.
Qed.

Lemma update_economic_indicators_idempotent_witness :
  let run1 :=
    @update_economic_indicators Ascii_parsers.parsers 9 Samples.sample_feeds
      Samples.empty_db in
  let run2 :=
    @update_economic_indicators Ascii_parsers.parsers 12 Samples.sample_feeds
      (fst run1) in
  snd run1 = StepSuccess 5
  /\ snd run2 = StepSuccess 5
  /\ stored <$> economic_indicators (fst run2)
     = stored <$> economic_indicators (fst run1).
Proof.
  cbv zeta.
  assert (Hfirst : snd (@update_economic_indicators Ascii_parsers.parsers 9
                          Samples.sample_feeds Samples.empty_db)
                   = StepSuccess 5) by (vm_compute; reflexivity).
  split; [exact Hfirst |].
  destruct (update_economic_indicators_idempotent Ascii_parsers.parsers 9 12
              Samples.sample_feeds Samples.empty_db 5 Hfirst)
    as (Hsecond & Hstored & _).
  split; [exact Hsecond | exact Hstored].
Defined.

(** ** Upserts by date in general *)

Section Upsert_facts.
Context {R V : Type} (key : R -> date).
Context (merge : V -> R -> R) (make : date -> V -> R).
Hypothesis merge_key : forall v r, key (merge v r) = key r.
Hypothesis make_key : forall d v, key (make d v) = d.

Lemma merged_rows_keys items : forall table,
  key <$> merged_rows key merge items table = key <$> table.
Proof.
  induction items as [| [d v] rest IH]; intros table; [reflexivity |].
  unfold merged_rows in *. simpl. rewrite IH.
  apply modify_first_keys. apply merge_key.
Qed.

Lemma inserted_rows_keys items t1 t2 :
  key <$> t1 = key <$> t2 ->
  inserted_rows key make items t1 = inserted_rows key make items t2.
Proof.
  intros Hk. unfold inserted_rows. apply list_omap_ext.
  apply Forall2_same_length_lookup. split; [reflexivity |].
  intros i [d v] [d' v'] H1 H2. rewrite H1 in H2. injection H2 as <- <-.
  destruct (query_first key d t1) as [r1 |] eqn:Hq1;
    destruct (query_first key d t2) as [r2 |] eqn:Hq2; try reflexivity.
  - apply query_first_None in Hq2. rewrite <- Hk in Hq2.
    apply query_first_None in Hq2. congruence.
  - apply query_first_None in Hq1. rewrite Hk in Hq1.
    apply query_first_None in Hq1. congruence.
Qed.

Lemma item_of_None d (items : list (date * V)) :
  item_of d items = None <-> d ∉ items.*1.
Proof.
  induction items as [| [d' v] rest IH]; simpl.
  - split; [intros _; apply not_elem_of_nil | reflexivity].
  - rewrite not_elem_of_cons. destruct (decide (d' = d)) as [-> | Hne].
    + split; [discriminate | intros [Hne _]; congruence].
    + rewrite IH. split; [intros Hnot; split; [congruence | exact Hnot] | tauto].
Qed.

Lemma item_of_Some d (items : list (date * V)) v :
  item_of d items = Some v -> (d, v) ∈ items.
Proof.
  induction items as [| [d' v'] rest IH]; simpl; [discriminate |].
  destruct (decide (d' = d)) as [-> | Hne].
  - intros [= ->]. left.
  - intros Hl. right. now apply IH.
Qed.

Lemma item_of_unique d (items : list (date * V)) v :
  NoDup items.*1 -> (d, v) ∈ items -> item_of d items = Some v.
Proof.
  induction items as [| [d' v'] rest IH]; simpl; intros Hnd Hin.
  - apply elem_of_nil in Hin. destruct Hin.
  - apply NoDup_cons in Hnd as [Hfresh Hnd].
    apply elem_of_cons in Hin as [[= <- <-] | Hin].
    + destruct (decide (d = d)); [reflexivity | contradiction].
    + destruct (decide (d' = d)) as [-> | Hne]; [| now apply IH].
      exfalso. apply Hfresh. apply list_elem_of_fmap. now exists (d, v).
Qed.

Lemma query_first_merged_rows items : forall table d,
  NoDup items.*1 ->
  query_first key d (merged_rows key merge items table)
  = match item_of d items with
    | Some v => merge v <$> query_first key d table
    | None => query_first key d table
    end.
Proof.
  induction items as [| [d' v] rest IH]; intros table d Hnd; [reflexivity |].
  rewrite fmap_cons in Hnd. apply NoDup_cons in Hnd as [Hfresh Hnd].
  unfold merged_rows. cbn [foldl item_of].
  fold (merged_rows key merge rest (modify_first key d' (merge v) table)).
  rewrite (IH _ d Hnd).
  rewrite !(query_first_modify key (merge v) (merge_key v)).
  destruct (decide (d' = d)) as [-> | Hne]; [| reflexivity].
  apply item_of_None in Hfresh. simpl in Hfresh. rewrite Hfresh. reflexivity.
Qed.

Lemma inserted_rows_elem items table r :
  r ∈ inserted_rows key make items table ->
  exists v,
    (key r, v) ∈ items /\ query_first key (key r) table = None
    /\ r = make (key r) v.
Proof.
  unfold inserted_rows. rewrite list_elem_of_omap.
  intros ([d v] & Hin & Hsome).
  destruct (query_first key d table) eqn:Hq; [discriminate |].
  injection Hsome as <-. exists v. rewrite make_key. auto.
Qed.

Lemma inserted_rows_sublist items table :
  sublist (key <$> inserted_rows key make items table) items.*1.
Proof.
  induction items as [| [d v] rest IH]; [constructor |].
  unfold inserted_rows. cbn [omap list_omap].
  fold (inserted_rows key make rest table).
  destruct (query_first key d table).
  - rewrite fmap_cons. now apply sublist_cons.
  - rewrite !fmap_cons, make_key. now apply sublist_skip.
Qed.

Lemma query_first_inserted_rows items table d :
  NoDup items.*1 ->
  query_first key d (inserted_rows key make items table)
  = match item_of d items, query_first key d table with
    | Some v, None => Some (make d v)
    | _, _ => None
    end.
Proof.
  intros Hnd.
  destruct (query_first key d (inserted_rows key make items table))
    as [r |] eqn:Hq.
  - apply query_first_Some in Hq as [Hd Hin].
    apply inserted_rows_elem in Hin as (v & Hin & Hnone & Hr).
    rewrite Hd in Hin, Hnone, Hr.
    rewrite (item_of_unique d items v Hnd Hin), Hnone, Hr. reflexivity.
  - destruct (item_of d items) as [v |] eqn:Hl; [| reflexivity].
    destruct (query_first key d table) eqn:Ht; [reflexivity |].
    exfalso. apply query_first_None in Hq. apply Hq.
    apply list_elem_of_fmap. exists (make d v).
    split; [now rewrite make_key |]. unfold inserted_rows.
    apply list_elem_of_omap.
    exists (d, v). split; [now apply item_of_Some |]. rewrite Ht. reflexivity.
Qed.

Lemma query_first_upserted_rows items table d :
  NoDup items.*1 ->
  query_first key d
    (merged_rows key merge items table ++ inserted_rows key make items table)
  = match item_of d items with
    | Some v =>
        Some (match query_first key d table with
              | Some old => merge v old
              | None => make d v
              end)
    | None => query_first key d table
    end.
Proof.
  intros Hnd.
  rewrite query_first_app, (query_first_merged_rows items table d Hnd),
    (query_first_inserted_rows items table d Hnd).
  destruct (item_of d items) as [v |];
    destruct (query_first key d table) as [old |]; reflexivity.
Qed.

Lemma upserted_rows_NoDup items table :
  NoDup items.*1 -> NoDup (key <$> table) ->
  NoDup (key <$> merged_rows key merge items table
                 ++ inserted_rows key make items table).
Proof.
  intros Hitems Htable.
  rewrite fmap_app, merged_rows_keys. apply NoDup_app.
  split; [exact Htable | split].
  - intros d Hd Hfresh. apply list_elem_of_fmap in Hfresh as (r & -> & Hin).
    apply inserted_rows_elem in Hin as (v & _ & Hnone & _).
    apply query_first_None in Hnone. contradiction.
  - eapply sublist_NoDup; [exact Hitems | apply inserted_rows_sublist].
Qed.

Lemma flush_inserted_rows items table :
  NoDup items.*1 ->
  flush key (inserted_rows key make items table)
    (merged_rows key merge items table)
  = Ok (merged_rows key merge items table
        ++ inserted_rows key make items table).
Proof.
  intros Hnd. apply flush_fresh.
  - eapply sublist_NoDup; [exact Hnd | apply inserted_rows_sublist].
  - intros r Hin. rewrite merged_rows_keys.
    apply inserted_rows_elem in Hin as (v & _ & Hnone & _).
    now apply query_first_None.
Qed.

(** What every row keeps. *)
Lemma modify_first_Forall (P : R -> Prop) d f table :
  (forall r, P r -> P (f r)) -> Forall P table ->
  Forall P (modify_first key d f table).
Proof.
  intros Hf. induction table as [| r t IH]; intros Hall; [constructor |].
  apply Forall_cons in Hall as [Hr Hall]. cbn [modify_first].
  destruct (decide (key r = d)); constructor; auto.
Qed.

Lemma merged_rows_Forall (P : R -> Prop) items : forall table,
  (forall v r, P r -> P (merge v r)) -> Forall P table ->
  Forall P (merged_rows key merge items table).
Proof.
  induction items as [| [d v] rest IH]; intros table Hm Hall; [exact Hall |].
  unfold merged_rows in *. simpl. apply IH; [exact Hm |].
  apply modify_first_Forall; [apply Hm | exact Hall].
Qed.

Lemma inserted_rows_Forall (P : R -> Prop) items table :
  (forall d v, P (make d v)) ->
  Forall P (inserted_rows key make items table).
Proof.
  intros Hmake. apply Forall_forall. intros r Hin.
  apply inserted_rows_elem in Hin as (v & _ & _ & ->). apply Hmake.
Qed.

(** A second pass over rows that already hold the items. *)
Section Same_view.
Context {W : Type} (view : R -> W) (holds : V -> R -> Prop).
Hypothesis merge_holds : forall v r, holds v r -> view (merge v r) = view r.
Hypothesis holds_merge :
  forall v v' r, holds v r -> holds v' r -> holds v' (merge v r).

Lemma modify_first_view d (f : R -> R) table :
  (forall r, query_first key d table = Some r -> view (f r) = view r) ->
  view <$> modify_first key d f table = view <$> table.
Proof.
  induction table as [| r t IH]; intros Hf; [reflexivity |].
  cbn [modify_first query_first] in *.
  destruct (decide (key r = d)); rewrite !fmap_cons.
  - rewrite Hf; reflexivity.
  - rewrite IH; [reflexivity | exact Hf].
Qed.

Lemma merged_rows_view items : forall table,
  (forall d v, (d, v) ∈ items ->
     exists r, query_first key d table = Some r /\ holds v r) ->
  view <$> merged_rows key merge items table = view <$> table.
Proof.
  induction items as [| [d v] rest IH]; intros table Hall; [reflexivity |].
  unfold merged_rows. cbn [foldl].
  fold (merged_rows key merge rest (modify_first key d (merge v) table)).
  destruct (Hall d v) as (r & Hq & Hh); [left |].
  rewrite IH.
  - apply modify_first_view. intros r' Hq'.
    rewrite Hq in Hq'. injection Hq' as <-. now apply merge_holds.
  - intros d' v' Hin.
    destruct (Hall d' v') as (r' & Hq' & Hh'); [now right |].
    rewrite (query_first_modify key (merge v) (merge_key v)).
    destruct (decide (d = d')) as [<- | Hne].
    + rewrite Hq'. rewrite Hq in Hq'. injection Hq' as <-.
      eexists. split; [reflexivity |]. now apply holds_merge.
    + exists r'. split; [exact Hq' | exact Hh'].
Qed.

Lemma inserted_rows_nil items table :
  (forall d v, (d, v) ∈ items -> is_Some (query_first key d table)) ->
  inserted_rows key make items table = [].
Proof.
  induction items as [| [d v] rest IH]; intros Hall; [reflexivity |].
  unfold inserted_rows. cbn [omap list_omap].
  fold (inserted_rows key make rest table).
  destruct (Hall d v) as [r ->]; [left |].
  apply IH. intros d' v' Hin. apply (Hall d' v'). now right.
Qed.

End Same_view.

(** When the commit fails and when it does not. *)
Lemma flush_raises pending : forall table e,
  flush key pending table = Raise e -> e = IntegrityError.
Proof.
  induction pending as [| r p IH]; intros table e; simpl; [discriminate |].
  destruct (query_first key (key r) table); [intros [= <-]; reflexivity |].
  apply IH.
Qed.

Lemma flush_Ok pending : forall table table',
  flush key pending table = Ok table' ->
  table' = table ++ pending
  /\ NoDup (key <$> pending)
  /\ forall r, r ∈ pending -> key r ∉ key <$> table.
Proof.
  induction pending as [| r p IH]; intros table table'; cbn [flush].
  - intros [= <-]. rewrite app_nil_r.
    split; [reflexivity | split; [constructor |]].
    intros r Hin. apply elem_of_nil in Hin. destruct Hin.
  - destruct (query_first key (key r) table) eqn:Hq; [discriminate |].
    apply query_first_None in Hq.
    intros Hf. destruct (IH _ _ Hf) as (-> & Hnd & Hout).
    rewrite <- app_assoc. split; [reflexivity | split].
    + rewrite fmap_cons. apply NoDup_cons. split; [| exact Hnd].
      intros Hin. apply list_elem_of_fmap in Hin as (r' & Hk & Hin).
      apply (Hout r' Hin). rewrite fmap_app. apply elem_of_app. right.
      rewrite <- Hk. rewrite fmap_cons. left.
    + intros r' Hin. apply elem_of_cons in Hin as [-> | Hin]; [exact Hq |].
      intros Hmem. apply (Hout r' Hin). rewrite fmap_app.
      apply elem_of_app. now left.
Qed.

Lemma flush_duplicate pending table :
  ~ NoDup (key <$> pending) ->
  flush key pending table = Raise IntegrityError.
Proof.
  intros Hdup. destruct (flush key pending table) as [t | e] eqn:Hf.
  - apply flush_Ok in Hf as (_ & Hnd & _). contradiction.
  - apply flush_raises in Hf. now subst e.
Qed.

End Upsert_facts.

(** ** The stock step *)

Section Stock_step.
Context `{StrParsers}.

Lemma stock_loop_eq now bars : forall table pending count,
  stock_loop now bars table pending count
  = Ok (merged_rows stock_date (stock_merge now) (parsed_bars bars) table,
        pending
        ++ inserted_rows stock_date (stock_make now) (parsed_bars bars) table,
        (count + length (parsed_bars bars))%nat).
Proof.
  induction bars as [| item rest IH]; intros table pending count.
  - simpl. rewrite app_nil_r, Nat.add_0_r. reflexivity.
  - cbn [stock_loop]. unfold parsed_bars, strptime.
    cbn [omap list_omap]. fold (parsed_bars rest).
    destruct (strptime_ymd (bar_date item)) as [d |].
    + assert (Hk : stock_date
                     <$> modify_first stock_date d (stock_merge now item) table
                   = stock_date <$> table).
      { apply modify_first_keys. reflexivity. }
      unfold merged_rows, inserted_rows. cbn [foldl omap list_omap length].
      fold (merged_rows stock_date (stock_merge now) (parsed_bars rest)
              (modify_first stock_date d (stock_merge now item) table)).
      fold (inserted_rows stock_date (stock_make now) (parsed_bars rest) table).
      fold (cap_of item). fold (stock_merge now item).
      fold (stock_make now d item).
      destruct (query_first stock_date d table) as [r |] eqn:Hq.
      * rewrite IH.
        rewrite (inserted_rows_keys stock_date (stock_make now)
                   (parsed_bars rest) _ table Hk).
        do 2 f_equal. lia.
      * rewrite IH.
        rewrite (modify_first_absent stock_date d _ table Hq).
        rewrite <- app_assoc. do 2 f_equal. simpl. lia.
    + cbn [handled]. apply IH.
Qed.

Lemma update_stock_data_eq now src db :
  stock_bars src <> [] ->
  update_stock_data now src db
  = match flush stock_date
            (inserted_rows stock_date (stock_make now)
               (parsed_bars (stock_bars src)) (stock_data db))
            (merged_rows stock_date (stock_merge now)
               (parsed_bars (stock_bars src)) (stock_data db)) with
    | Ok table =>
        ({| economic_indicators := economic_indicators db;
            stock_data := table |},
         StepSuccess (length (parsed_bars (stock_bars src))))
    | Raise e => (db, StepError (StrOf e))
    end.
Proof.
  intros Hne. unfold update_stock_data.
  destruct (stock_bars src) as [| item rest] eqn:Hbars; [congruence |].
  rewrite stock_loop_eq. cbn [mbind result_bind app].
  destruct (flush stock_date _ _); reflexivity.
Qed.

Lemma stock_merge_holds now item r : holds_bar item (stock_merge now item r).
Proof. repeat split. Qed.

Lemma stock_make_holds now d item : holds_bar item (stock_make now d item).
Proof. repeat split. Qed.

Lemma holds_bar_cap item r : holds_bar item r -> cap_consistent r.
Proof.
  intros (_ & Hc & _ & _ & _ & Hm). unfold cap_consistent, cap_of in *.
  congruence.
Qed.

Lemma stock_merge_view now item r :
  holds_bar item r -> stored_stock (stock_merge now item r) = stored_stock r.
Proof.
  intros (H1 & H2 & H3 & H4 & H5 & H6). unfold stored_stock. simpl.
  congruence.
Qed.

Lemma holds_bar_merge now item item' r :
  holds_bar item r -> holds_bar item' r ->
  holds_bar item' (stock_merge now item r).
Proof.
  intros (H1 & H2 & H3 & H4 & H5 & H6) (K1 & K2 & K3 & K4 & K5 & K6).
  unfold holds_bar. simpl. repeat split; congruence.
Qed.

End Stock_step.

(** X6.  On bars whose parsed dates are pairwise distinct, the stock step
    succeeds and counts the bars whose date parses, the others being
    skipped.  Each such date then has a row with the prices and the volume of
    its bar and the market capitalisation [round(close * 24.6, 2)] of that
    same bar; the rows of the other dates are as they were; the dates of the
    table stay distinct if they were; and the indicator table is not
    touched. *)
Theorem update_stock_data_upserts :
  forall (P : StrParsers) now src db,
    stock_bars src <> [] ->
    NoDup (parsed_bars (stock_bars src)).*1 ->
    exists table',
      update_stock_data now src db
      = ({| economic_indicators := economic_indicators db;
            stock_data := table' |},
         StepSuccess (length (parsed_bars (stock_bars src))))
      /\ (forall d item,
            (d, item) ∈ parsed_bars (stock_bars src) ->
            exists r,
              query_first stock_date d table' = Some r
              /\ stock_date r = d /\ holds_bar item r)
      /\ (forall d,
            d ∉ (parsed_bars (stock_bars src)).*1 ->
            query_first stock_date d table'
            = query_first stock_date d (stock_data db))
      /\ (NoDup (stock_date <$> stock_data db) ->
          NoDup (stock_date <$> table')).
Proof.
  intros P now src db Hne Hnd.
  set (items := parsed_bars (stock_bars src)) in *.
  exists (merged_rows stock_date (stock_merge now) items (stock_data db)
          ++ inserted_rows stock_date (stock_make now) items (stock_data db)).
  split; [| split; [| split]].
  - rewrite (update_stock_data_eq now src db Hne). fold items.
    rewrite (flush_inserted_rows stock_date (stock_merge now) (stock_make now));
      [reflexivity | reflexivity | reflexivity | exact Hnd].
  - intros d item Hin.
    rewrite (query_first_upserted_rows stock_date (stock_merge now)
               (stock_make now)); [| reflexivity | reflexivity | exact Hnd].
    rewrite (item_of_unique d items item Hnd Hin).
    destruct (query_first stock_date d (stock_data db)) as [old |] eqn:Hq.
    + eexists. split; [reflexivity | split; [| apply stock_merge_holds]].
      change (stock_date old = d).
      now apply (query_first_Some stock_date d (stock_data db)).
    + eexists. split; [reflexivity | split; [reflexivity |]].
      apply stock_make_holds.
  - intros d Hd.
    rewrite (query_first_upserted_rows stock_date (stock_merge now)
               (stock_make now)); [| reflexivity | reflexivity | exact Hnd].
    apply item_of_None in Hd. rewrite Hd. reflexivity.
  - intros Htable.
    apply (upserted_rows_NoDup stock_date (stock_merge now) (stock_make now));
      [reflexivity | reflexivity | exact Hnd | exact Htable].
Qed.

Lemma update_stock_data_upserts_witness :
  stock_bars (Stock_samples.only_bars Stock_samples.mixed_bars) <> []
  /\ NoDup (@parsed_bars Ascii_parsers.parsers Stock_samples.mixed_bars).*1
  /\ exists table',
       @update_stock_data Ascii_parsers.parsers 9
         (Stock_samples.only_bars Stock_samples.mixed_bars) Samples.empty_db
       = ({| economic_indicators := []; stock_data := table' |}, StepSuccess 2)
       /\ exists r,
            query_first stock_date (Date 2024 1 3) table' = Some r
            /\ close_price r = 122%float
            /\ market_cap r = 0x1.7726666666666p+11%float.
Proof.
  assert (Hne : stock_bars (Stock_samples.only_bars Stock_samples.mixed_bars)
                <> []) by discriminate.
  assert (Hnd : NoDup (@parsed_bars Ascii_parsers.parsers
                         Stock_samples.mixed_bars).*1).
  { apply (bool_decide_unpack _). vm_compute. exact I. }
  split; [exact Hne | split; [exact Hnd |]].
  destruct (update_stock_data_upserts Ascii_parsers.parsers 9
              (Stock_samples.only_bars Stock_samples.mixed_bars)
              Samples.empty_db Hne Hnd)
    as (table' & Hrun & Hrows & _ & _).
  exists table'. split; [exact Hrun |].
  destruct (Hrows (Date 2024 1 3) (Stock_samples.bar "2024-01-03" 122))
    as (r & Hq & _ & Hholds).
  { vm_compute. right. left. }
  exists r. split; [exact Hq |].
  destruct Hholds as (_ & Hclose & _ & _ & _ & Hcap).
  split; [exact Hclose |]. rewrite Hcap. vm_compute. reflexivity.
Defined.

(** X7.  The stock step keeps this invariant of the stock table, whatever
    the bars are and whether it succeeds or not: the market capitalisation of
    every row is [round(close * 24.6, 2)] for the close price of that same
    row. *)
Theorem update_stock_data_keeps_market_cap :
  forall (P : StrParsers) now src db,
    Forall cap_consistent (stock_data db) ->
    Forall cap_consistent (stock_data (fst (update_stock_data now src db))).
Proof.
  intros P now src db Hall.
  destruct (stock_bars src) as [| item rest] eqn:Hbars.
  - unfold update_stock_data. rewrite Hbars. exact Hall.
  - rewrite update_stock_data_eq by (rewrite Hbars; discriminate).
    destruct (flush stock_date _ _) as [table | e] eqn:Hf; [| exact Hall].
    apply flush_Ok in Hf as (-> & _ & _). cbn [fst stock_data].
    apply Forall_app. split.
    + apply merged_rows_Forall; [| exact Hall].
      intros v r _. apply (holds_bar_cap v), stock_merge_holds.
    + apply (inserted_rows_Forall stock_date (stock_make now));
        [reflexivity |].
      intros d v. apply (holds_bar_cap v), stock_make_holds.
Qed.

Lemma update_stock_data_keeps_market_cap_witness :
  Forall cap_consistent
    (stock_data
       (fst (@update_stock_data Ascii_parsers.parsers 9
               (Stock_samples.only_bars Stock_samples.mixed_bars)
               Samples.empty_db))).
Proof.
  apply (update_stock_data_keeps_market_cap Ascii_parsers.parsers 9
           (Stock_samples.only_bars Stock_samples.mixed_bars)
           Samples.empty_db).
  simpl. constructor.
Defined.

Lemma parsed_bars_app `{StrParsers} a b :
  parsed_bars (a ++ b) = parsed_bars a ++ parsed_bars b.
Proof. apply omap_app. Qed.

Lemma parsed_bars_cons `{StrParsers} item rest d :
  strptime_ymd (bar_date item) = Some d ->
  parsed_bars (item :: rest) = (d, item) :: parsed_bars rest.
Proof.
  intros Hd. unfold parsed_bars. cbn [omap list_omap]. rewrite Hd. reflexivity.
Qed.

Lemma inserted_rows_app {R V} (key : R -> date) (make : date -> V -> R) a b t :
  inserted_rows key make (a ++ b) t
  = inserted_rows key make a t ++ inserted_rows key make b t.
Proof. apply omap_app. Qed.

Lemma inserted_rows_cons {R V} (key : R -> date) (make : date -> V -> R)
    d v rest t :
  query_first key d t = None ->
  inserted_rows key make ((d, v) :: rest) t
  = make d v :: inserted_rows key make rest t.
Proof.
  intros Hq. unfold inserted_rows. cbn [omap list_omap]. rewrite Hq.
  reflexivity.
Qed.

Lemma not_NoDup_twice {A} (x : A) (a b c : list A) :
  ~ NoDup (a ++ x :: b ++ x :: c).
Proof.
  intros Hnd. apply NoDup_app in Hnd as (_ & _ & Hnd).
  apply NoDup_cons in Hnd as [Hnot _]. apply Hnot.
  apply elem_of_app. right. left.
Qed.

(** X8.  When two bars of one batch parse to the same date and the table
    has no row of that date, both are added to the session, the commit
    violates the unique [date] column, and the step answers with status
    ['error'] for the [IntegrityError], the store being left as it was: none
    of the other bars of the batch is stored either. *)
Theorem update_stock_data_same_new_date_twice :
  forall (P : StrParsers) now src db before item1 between item2 after d,
    stock_bars src = before ++ item1 :: between ++ item2 :: after ->
    strptime_ymd (bar_date item1) = Some d ->
    strptime_ymd (bar_date item2) = Some d ->
    query_first stock_date d (stock_data db) = None ->
    update_stock_data now src db = (db, StepError (StrOf IntegrityError)).
Proof.
  intros P now src db before item1 between item2 after d Hbars H1 H2 Hq.
  rewrite update_stock_data_eq
    by (rewrite Hbars; destruct before; discriminate).
  rewrite flush_duplicate; [reflexivity |].
  rewrite Hbars, parsed_bars_app, (parsed_bars_cons item1 _ d H1),
    parsed_bars_app, (parsed_bars_cons item2 _ d H2).
  rewrite inserted_rows_app, (inserted_rows_cons _ _ d item1 _ _ Hq),
    inserted_rows_app, (inserted_rows_cons _ _ d item2 _ _ Hq).
  rewrite fmap_app, fmap_cons, fmap_app, fmap_cons.
  change (stock_date (stock_make now d item1)) with d.
  change (stock_date (stock_make now d item2)) with d.
  apply not_NoDup_twice.
Qed.

Lemma update_stock_data_same_new_date_twice_witness :
  @update_stock_data Ascii_parsers.parsers 9
    (Stock_samples.only_bars Stock_samples.same_day_bars) Samples.empty_db
  = (Samples.empty_db, StepError (StrOf IntegrityError)).
Proof.
  apply (update_stock_data_same_new_date_twice Ascii_parsers.parsers 9
           (Stock_samples.only_bars Stock_samples.same_day_bars)
           Samples.empty_db [] (Stock_samples.bar "2024-01-02" 120) []
           (Stock_samples.bar "2024-01-02" 121) [] (Date 2024 1 2));
    reflexivity.
Defined.

(** X9.  The stock step is idempotent: on bars whose parsed dates are
    pairwise distinct, running it again on the store it produced, at any
    later clock reading, succeeds with the same count and leaves every stock
    row with the same stored field values, adding none. *)
Theorem update_stock_data_idempotent :
  forall (P : StrParsers) now1 now2 src db,
    stock_bars src <> [] ->
    NoDup (parsed_bars (stock_bars src)).*1 ->
    let db1 := fst (update_stock_data now1 src db) in
    let db2 := fst (update_stock_data now2 src db1) in
    snd (update_stock_data now1 src db)
    = StepSuccess (length (parsed_bars (stock_bars src)))
    /\ snd (update_stock_data now2 src db1)
       = StepSuccess (length (parsed_bars (stock_bars src)))
    /\ stored_stock <$> stock_data db2 = stored_stock <$> stock_data db1.
Proof.
  intros P now1 now2 src db Hne Hnd db1 db2. subst db1 db2.
  set (items := parsed_bars (stock_bars src)) in *.
  set (once := merged_rows stock_date (stock_merge now1) items (stock_data db)
               ++ inserted_rows stock_date (stock_make now1) items
                    (stock_data db)).
  assert (Hfirst : update_stock_data now1 src db
                   = ({| economic_indicators := economic_indicators db;
                         stock_data := once |},
                      StepSuccess (length items))).
  { rewrite (update_stock_data_eq now1 src db Hne). fold items.
    rewrite (flush_inserted_rows stock_date (stock_merge now1)
               (stock_make now1));
      [reflexivity | reflexivity | reflexivity | exact Hnd]. }
  rewrite Hfirst. cbn [fst snd].
  assert (Hholds : forall d item, (d, item) ∈ items ->
            exists r, query_first stock_date d once = Some r
                      /\ holds_bar item r).
  { intros d item Hin. unfold once.
    rewrite (query_first_upserted_rows stock_date (stock_merge now1)
               (stock_make now1)); [| reflexivity | reflexivity | exact Hnd].
    rewrite (item_of_unique d items item Hnd Hin).
    eexists. split; [reflexivity |].
    destruct (query_first stock_date d (stock_data db));
      [apply stock_merge_holds | apply stock_make_holds]. }
  rewrite (update_stock_data_eq now2 src _ Hne). cbn [stock_data].
  fold items.
  rewrite (inserted_rows_nil stock_date (stock_make now2) items once).
  2: { intros d item Hin. destruct (Hholds d item Hin) as (r & -> & _). eauto. }
  cbn [flush fst snd stock_data].
  split; [reflexivity | split; [reflexivity |]].
  apply (merged_rows_view stock_date (stock_merge now2) (fun _ _ => eq_refl)
           stored_stock holds_bar).
  - intros v r. apply stock_merge_view.
  - intros v v' r. apply holds_bar_merge.
  - exact Hholds.
Qed.

Lemma update_stock_data_idempotent_witness :
  let src := Stock_samples.only_bars Stock_samples.mixed_bars in
  let db1 :=
    fst (@update_stock_data Ascii_parsers.parsers 9 src Samples.empty_db) in
  let db2 := fst (@update_stock_data Ascii_parsers.parsers 12 src db1) in
  snd (@update_stock_data Ascii_parsers.parsers 12 src db1) = StepSuccess 2
  /\ stored_stock <$> stock_data db2 = stored_stock <$> stock_data db1.
Proof.
  cbv zeta.
  assert (Hne : stock_bars (Stock_samples.only_bars Stock_samples.mixed_bars)
                <> []) by discriminate.
  assert (Hnd : NoDup (@parsed_bars Ascii_parsers.parsers
                         (stock_bars (Stock_samples.only_bars
                                        Stock_samples.mixed_bars))).*1).
  { apply (bool_decide_unpack _). vm_compute. exact I. }
  destruct (update_stock_data_idempotent Ascii_parsers.parsers 9 12
              (Stock_samples.only_bars Stock_samples.mixed_bars)
              Samples.empty_db Hne Hnd) as (_ & Hsecond & Hstored).
  split; [exact Hsecond | exact Hstored].
Defined.

(** ** The two steps in one run *)

Lemma update_stock_data_frame `{StrParsers} now src db1 db2 :
  stock_data db1 = stock_data db2 ->
  snd (update_stock_data now src db1) = snd (update_stock_data now src db2)
  /\ stock_data (fst (update_stock_data now src db1))
     = stock_data (fst (update_stock_data now src db2))
  /\ economic_indicators (fst (update_stock_data now src db1))
     = economic_indicators db1.
Proof.
  intros Heq. destruct (stock_bars src) as [| item rest] eqn:Hbars.
  - unfold update_stock_data. rewrite Hbars. simpl. auto.
  - rewrite !update_stock_data_eq by (rewrite Hbars; discriminate).
    rewrite Heq.
    destruct (flush stock_date _ _); simpl; auto.
Qed.

Lemma update_economic_indicators_frame `{StrParsers} now src db :
  stock_data (fst (update_economic_indicators now src db)) = stock_data db.
Proof.
  rewrite update_economic_indicators_eq.
  destruct (calculate_cpi_yoy_change (cpi_data src)); [| reflexivity].
  destruct (build_data_by_date _ _ _ _); reflexivity.
Qed.

(** X10.  In a run of the orchestrator on the two methods of the
    aggregator, each step does to its own table, and reports, exactly what it
    would if it ran alone on the initial store: the failure of one changes
    neither the effect nor the result of the other; and the run appends one
    entry to the audit log. *)
Theorem run_update_steps_independent :
  forall (P : StrParsers) now src ty db logs,
    let db' := fst (fst (run_update now src ty db logs)) in
    let logs' := snd (fst (run_update now src ty db logs)) in
    let sum := snd (run_update now src ty db logs) in
    economic_indicators db'
    = economic_indicators (fst (update_economic_indicators now src db))
    /\ stock_data db' = stock_data (fst (update_stock_data now src db))
    /\ r_economic_indicators (sum_results sum)
       = Some (snd (update_economic_indicators now src db))
    /\ r_stock_data (sum_results sum)
       = Some (snd (update_stock_data now src db))
    /\ exists entry, logs' = logs ++ [entry] /\ log_update_type entry = ty.
Proof.
  intros P now src ty db logs db' logs' sum. subst db' logs' sum.
  unfold run_update, update_all_data.
  pose proof (update_economic_indicators_frame now src db) as Hframe.
  destruct (update_economic_indicators now src db) as [db1 r1] eqn:H1.
  simpl in Hframe.
  destruct (update_stock_data_frame now src db1 db Hframe) as (Hr & Hs & Hi).
  destruct (update_stock_data now src db1) as [db2 r2] eqn:H2.
  simpl in Hr, Hs, Hi. cbn [fst snd sum_results r_economic_indicators
                             r_stock_data].
  split; [exact Hi | split; [exact Hs | split; [reflexivity | split]]].
  - rewrite Hr. reflexivity.
  - eexists. split; reflexivity.
Qed.

(** ** Sequences of manual requests *)

Lemma trigger_too_soon_state last force t_check t_set update :
  is_too_soon (snd (trigger_manual_update last force t_check t_set update))
  = true ->
  fst (trigger_manual_update last force t_check t_set update) = last.
Proof.
  unfold trigger_manual_update.
  destruct (cooldown_check last force t_check); [reflexivity |].
  destruct update; discriminate.
Qed.

Lemma trigger_too_soon_iff last force t_check t_set update :
  is_too_soon (snd (trigger_manual_update last force t_check t_set update))
  = true
  <-> is_Some (cooldown_check last force t_check).
Proof.
  unfold trigger_manual_update.
  destruct (cooldown_check last force t_check) as [w |]; simpl.
  - split; eauto.
  - destruct update; simpl; split; [discriminate | intros [w Hw]; discriminate
                                   | discriminate | intros [w Hw]; discriminate].
Qed.

Lemma serve_all_rejected reqs : forall last,
  Forall (fun a => is_too_soon a = true) (snd (serve last reqs)) ->
  fst (serve last reqs) = last.
Proof.
  induction reqs as [| r rest IH]; intros last; [reflexivity |].
  cbn [serve]. 
  pose proof (trigger_too_soon_state last (req_force r) (req_check r)
                (req_set r) (req_update r)) as Hstate.
  fold (serve_one last r) in Hstate.
  destruct (serve_one last r) as [last1 answer].
  specialize (IH last1).
  destruct (serve last1 rest) as [last2 answers].
  cbn [fst snd] in *. intros Hall.
  apply Forall_cons in Hall as [Hhead Hall].
  rewrite (IH Hall). now apply Hstate.
Qed.

Lemma serve_keeps_set reqs : forall t,
  is_Some (fst (serve (Some t) reqs)).
Proof.
  induction reqs as [| r rest IH]; intros t; [simpl; eauto |].
  cbn [serve]. unfold serve_one, trigger_manual_update.
  destruct (cooldown_check (Some t) (req_force r) (req_check r)).
  - specialize (IH t). destruct (serve (Some t) rest). exact IH.
  - destruct (req_update r);
      specialize (IH (req_set r)); destruct (serve (Some (req_set r)) rest);
      exact IH.
Qed.

(** X11.  Rejected requests do not move the cooldown.  After a request
    that passed the check, whatever number of requests were rejected in
    between, the timestamp is still the one of the request that passed, and
    the next request is rejected exactly when it has no force flag and comes
    less than 30 seconds after that timestamp.  Moreover once the timestamp
    is set, no sequence of requests unsets it. *)
Theorem rejected_requests_keep_the_cooldown :
  forall last r1 (rejected : list request) r2,
    is_too_soon (snd (serve_one last r1)) = false ->
    Forall (fun a => is_too_soon a = true)
      (snd (serve (fst (serve_one last r1)) rejected)) ->
    let st := fst (serve (fst (serve_one last r1)) rejected) in
    st = Some (req_set r1)
    /\ (is_too_soon (snd (serve_one st r2)) = true
        <-> req_force r2 = false
            /\ (total_seconds (req_check r2) (req_set r1)
                <? UPDATE_COOLDOWN_SECONDS)%float = true)
    /\ (forall t reqs, is_Some (fst (serve (Some t) reqs))).
Proof.
  intros last r1 rejected r2 Hpass Hrej st. subst st.
  assert (Hst : fst (serve_one last r1) = Some (req_set r1)).
  { unfold serve_one in *.
    destruct (cooldown_check last (req_force r1) (req_check r1)) as [w |] eqn:Hc.
    - unfold trigger_manual_update in Hpass. rewrite Hc in Hpass.
      discriminate Hpass.
    - now apply trigger_accepted. }
  rewrite (serve_all_rejected rejected _ Hrej), Hst.
  split; [reflexivity | split; [| intros t reqs; apply serve_keeps_set]].
  unfold serve_one. rewrite trigger_too_soon_iff. unfold cooldown_check.
  destruct (req_force r2); simpl.
  - split; [intros [w Hw]; discriminate | intros [Hf _]; discriminate].
  - destruct (total_seconds (req_check r2) (req_set r1)
              <? UPDATE_COOLDOWN_SECONDS)%float.
    + split; eauto.
    + split; [intros [w Hw]; discriminate | intros [_ Hf]; discriminate].
Qed.

Lemma rejected_requests_keep_the_cooldown_witness :
  let first := {| req_force := false; req_check := 0; req_set := 0;
                  req_update := Ok Samples.sample_summary |} in
  let early t := {| req_force := false; req_check := t; req_set := t;
                    req_update := Ok Samples.sample_summary |} in
  fst (serve (fst (serve_one None first)) [early 10000000; early 29000000])
  = Some 0
  /\ is_too_soon
       (snd (serve_one
               (fst (serve (fst (serve_one None first))
                       [early 10000000; early 29000000]))
               (early 29999999))) = true.
Proof.
  cbv zeta.
  destruct (rejected_requests_keep_the_cooldown None
              {| req_force := false; req_check := 0; req_set := 0;
                 req_update := Ok Samples.sample_summary |}
              [ {| req_force := false; req_check := 10000000;
                   req_set := 10000000;
                   req_update := Ok Samples.sample_summary |};
                {| req_force := false; req_check := 29000000;
                   req_set := 29000000;
                   req_update := Ok Samples.sample_summary |} ]
              {| req_force := false; req_check := 29999999;
                 req_set := 29999999;
                 req_update := Ok Samples.sample_summary |})
    as (Hst & Hnext & _).
  - reflexivity.
  - vm_compute. repeat constructor.
  - split; [exact Hst |]. apply Hnext. split; reflexivity.
Defined.

(** ** The latest annual point *)

Lemma years_ascending_last_max l x :
  years_ascending l -> last l = Some x ->
  forall item, item ∈ l -> gdp_year item <= gdp_year x /\
                           (gdp_year item = gdp_year x -> item = x).
Proof.
  intros Hasc Hlast item Hin.
  apply list_elem_of_lookup in Hin as [i Hi].
  rewrite last_lookup in Hlast.
  assert (Hlt : (i < length l)%nat) by (eapply lookup_lt_Some; eauto).
  destruct (decide (i = pred (length l))) as [-> | Hne].
  - rewrite Hlast in Hi. injection Hi as <-. split; [lia | reflexivity].
  - pose proof (Hasc i (pred (length l)) item x ltac:(lia) Hi Hlast). lia.
Qed.

(** X12.  When the years of the fetched annual points grow strictly along
    the list, as in what the World Bank adapter returns for distinct years,
    the value used for the forward fill is the value of the last point of the
    list. *)
Theorem latest_gdp_value_of_ascending :
  forall global_gdp,
    years_ascending global_gdp ->
    latest_gdp_value global_gdp = gdp_value <$> last global_gdp.
Proof.
  intros global_gdp Hasc.
  destruct global_gdp as [| y l] eqn:Hl; [reflexivity |]. rewrite <- Hl in *.
  assert (Hne : global_gdp <> []) by (rewrite Hl; discriminate).
  destruct (latest_gdp_value_max global_gdp Hne) as (top & -> & Hin & Hmax).
  destruct (last global_gdp) as [x |] eqn:Hlast.
  - simpl. f_equal. f_equal.
    destruct (years_ascending_last_max global_gdp x Hasc Hlast top Hin)
      as [Hle Heq].
    apply Heq. assert (Hx : x ∈ global_gdp).
    { rewrite last_lookup in Hlast. eapply list_elem_of_lookup_2; eauto. }
    specialize (Hmax x Hx). lia.
  - apply last_None in Hlast. contradiction.
Qed.

Lemma latest_gdp_value_of_ascending_witness :
  latest_gdp_value (global_gdp Samples.sample_feeds) = Some 3%float.
Proof.
  rewrite latest_gdp_value_of_ascending; [reflexivity |].
  intros i j a b Hij Ha Hb.
  destruct i as [| [| i]]; destruct j as [| [| j]];
    try lia; try discriminate Ha; try discriminate Hb.
  injection Ha as <-. injection Hb as <-. simpl. lia.
Defined.

(** ** The World Bank adapter *)

Lemma insert_asc_Permutation x l : insert_asc x l ≡ₚ x :: l.
Proof.
  induction l as [| y l IH]; [reflexivity |]. simpl.
  destruct (gdp_year y <? gdp_year x); [| reflexivity].
  rewrite IH. apply Permutation_swap.
Qed.

Lemma sorted_by_year_Permutation l : sorted_by_year l ≡ₚ l.
Proof.
  induction l as [| x l IH]; [reflexivity |].
  unfold sorted_by_year in *. simpl. rewrite insert_asc_Permutation.
  now rewrite IH.
Qed.





Section World_bank.
Variable int_of_str : string -> option Z.

Lemma transform_cases item :
  match point_of int_of_str item with
  | Some p => transform int_of_str item = Ok (Some p)
  | None =>
      (wb_value item = None /\ transform int_of_str item = Ok None)
      \/ (unreadable int_of_str item
          /\ (transform int_of_str item = Raise ValueError
              \/ transform int_of_str item = Raise KeyError))
  end.
Proof.
  unfold point_of, transform, unreadable, py_int.
  destruct (wb_value item) as [v |]; simpl; [| left; auto].
  destruct (wb_date item) as [s |]; simpl.
  - destruct (int_of_str s) as [y |]; simpl; [reflexivity |].
    right. split; [split; eauto | left; reflexivity].
  - right. split; [split; eauto | right; reflexivity].
Qed.

Lemma point_of_unreadable item :
  unreadable int_of_str item -> point_of int_of_str item = None.
Proof.
  unfold unreadable, point_of. intros [[v ->] Hdate]. simpl.
  destruct (wb_date item) as [s |]; simpl in *; [| reflexivity].
  now rewrite Hdate.
Qed.

Lemma transform_all_cases data :
  match transform_all int_of_str data with
  | Ok result =>
      result = omap (point_of int_of_str) data
      /\ forall item, item ∈ data -> ~ unreadable int_of_str item
  | Raise e =>
      (e = ValueError \/ e = KeyError)
      /\ exists item, item ∈ data /\ unreadable int_of_str item
  end.
Proof.
  induction data as [| item rest IH]; simpl.
  - split; [reflexivity |]. intros item Hin. inversion Hin.
  - pose proof (transform_cases item) as Hitem.
    destruct (point_of int_of_str item) as [p |] eqn:Hp.
    + rewrite Hitem. simpl.
      destruct (transform_all int_of_str rest) as [result | e]; simpl.
      * destruct IH as [-> Hrest].
        split; [reflexivity |].
        intros other [-> | Hin]%elem_of_cons; [| now apply Hrest].
        intros Hbad. apply point_of_unreadable in Hbad. congruence.
      * destruct IH as [He (other & Hin & Hbad)].
        split; [exact He |]. exists other. split; [now right | exact Hbad].
    + destruct Hitem as [[Hnone ->] | [Hbad [-> | ->]]]; simpl.
      * destruct (transform_all int_of_str rest) as [result | e]; simpl.
        -- destruct IH as [-> Hrest].
           split; [reflexivity |].
           intros other [-> | Hin]%elem_of_cons; [| now apply Hrest].
           intros [[v Hv] _]. congruence.
        -- destruct IH as [He (other & Hin & Hbad)].
           split; [exact He |]. exists other. split; [now right | exact Hbad].
      * split; [now left |]. exists item. split; [now left | exact Hbad].
      * split; [now right |]. exists item. split; [now left | exact Hbad].
Qed.

Lemma get_global_gdp_growth_eq data :
  get_global_gdp_growth int_of_str data
  = result ← transform_all int_of_str (default [] data);
    Ok (sorted_by_year result).
Proof. destruct data as [[| item rest] |]; reflexivity. Qed.

End World_bank.



Lemma point_of_Some int_of_str item p :
  point_of int_of_str item = Some p <->
  exists x y,
    wb_value item = Some x /\ (wb_date item ≫= int_of_str) = Some y
    /\ p = {| gdp_year := y; gdp_value := round2 x |}.
Proof.
  unfold point_of. destruct (wb_value item) as [x |]; simpl.
  - destruct (wb_date item) as [s |]; simpl.
    + destruct (int_of_str s) as [y |]; simpl.
      * split; [intros [= <-]; eauto |].
        intros (x' & y' & [= <-] & [= <-] & ->). reflexivity.
      * split; [discriminate | intros (x' & y' & _ & Hy & _); discriminate].
    + split; [discriminate | intros (x' & y' & _ & Hy & _); discriminate].
  - split; [discriminate | intros (x' & y' & Hx & _); discriminate].
Qed.

(** X14.  The adapter and the forward fill together: when the World Bank
    adapter returns, the value that the indicator step fills forward is the
    value, rounded to two decimals, of an item of the response whose year is
    the greatest among the items that have a value; and there is no such
    value only when no item of the response has a value. *)
Theorem forward_fill_value_of_world_bank_response :
  forall (int_of_str : string -> option Z) data out,
    get_global_gdp_growth int_of_str data = Ok out ->
    match latest_gdp_value out with
    | Some v =>
        exists item x y,
          item ∈ default [] data
          /\ wb_value item = Some x
          /\ (wb_date item ≫= int_of_str) = Some y
          /\ v = round2 x
          /\ forall other y',
               other ∈ default [] data ->
               is_Some (wb_value other) ->
               (wb_date other ≫= int_of_str) = Some y' ->
               y' <= y
    | None => forall item, item ∈ default [] data -> wb_value item = None
    end.
Proof.
  intros int_of_str data out. rewrite get_global_gdp_growth_eq.
  pose proof (transform_all_cases int_of_str (default [] data)) as Hcases.
  destruct (transform_all int_of_str (default [] data)) as [result | e];
    simpl; [| discriminate].
  destruct Hcases as [-> Hgood]. intros [= <-].
  pose proof (sorted_by_year_Permutation
                (omap (point_of int_of_str) (default [] data))) as Hperm.
  destruct (sorted_by_year (omap (point_of int_of_str) (default [] data)))
    as [| p out] eqn:Hout.
  - simpl. intros item Hin.
    destruct (wb_value item) as [x |] eqn:Hx; [| reflexivity]. exfalso.
    destruct (wb_date item ≫= int_of_str) as [y |] eqn:Hy.
    + assert (Hp : {| gdp_year := y; gdp_value := round2 x |}
                   ∈ omap (point_of int_of_str) (default [] data)).
      { apply list_elem_of_omap. exists item. split; [exact Hin |].
        apply point_of_Some. eauto. }
      rewrite <- Hperm in Hp. inversion Hp.
    + apply (Hgood item Hin). split; [rewrite Hx; eauto | exact Hy].
  - destruct (latest_gdp_value_max (p :: out) ltac:(discriminate))
      as (top & -> & Hin & Hmax).
    rewrite Hperm in Hin. apply list_elem_of_omap in Hin as (item & Hin & Htop).
    apply point_of_Some in Htop as (x & y & Hx & Hy & ->).
    exists item, x, y. repeat split; try assumption.
    intros other y' Hother [x' Hx'] Hy'.
    assert (Hp : {| gdp_year := y'; gdp_value := round2 x' |} ∈ p :: out).
    { rewrite Hperm. apply list_elem_of_omap. exists other.
      split; [exact Hother |]. apply point_of_Some. eauto. }
    apply Hmax in Hp. exact Hp.
Qed.

Lemma forward_fill_value_of_world_bank_response_witness :
  exists out,
    get_global_gdp_growth World_bank_samples.plain_int
      (Some World_bank_samples.response) = Ok out
    /\ latest_gdp_value out = Some 0x1.5d70a3d70a3d7p+1%float
    /\ exists item,
         item ∈ World_bank_samples.response
         /\ wb_value item = Some 0x1.5cd013a92a305p+1%float.
Proof.
  eexists. split; [reflexivity |]. split; [reflexivity |].
  pose proof (forward_fill_value_of_world_bank_response
                World_bank_samples.plain_int
                (Some World_bank_samples.response) _ eq_refl) as Hfill.
  vm_compute latest_gdp_value in Hfill.
  destruct Hfill as (item & x & y & Hin & Hx & Hy & Hv & _).
  exists item. split; [exact Hin |]. rewrite Hx. f_equal.
  vm_compute in Hin.
  repeat (apply elem_of_cons in Hin as [-> | Hin]);
    try (inversion Hin); try discriminate Hx;
    vm_compute in Hx; injection Hx as <-; try reflexivity.
  vm_compute in Hv. discriminate Hv.
Defined.

(** ** The Alpha Vantage adapter *)

Lemma string_ltb_Lt a b : String.ltb a b = true <-> String.compare a b = Lt.
Proof.
  unfold String.ltb. destruct (String.compare a b); split; congruence.
Qed.

Lemma string_ltb_trans a b c :
  String.ltb a b = true -> String.ltb b c = true -> String.ltb a c = true.
Proof.
  rewrite !string_ltb_Lt.
  change String.compare with OrderedTypeEx.String_as_OT.cmp.
  rewrite !OrderedTypeEx.String_as_OT.cmp_lt.
  apply OrderedTypeEx.String_as_OT.lt_trans.
Qed.

Lemma string_ltb_cases a b :
  String.ltb a b = true \/ a = b \/ String.ltb b a = true.
Proof.
  rewrite !string_ltb_Lt. rewrite (String.compare_antisym b a).
  destruct (String.compare a b) eqn:Hc; simpl; auto.
  apply String.compare_eq_iff in Hc. auto.
Qed.

Lemma string_ltb_irrefl a : String.ltb a a = false.
Proof.
  unfold String.ltb. pose proof (String.compare_antisym a a) as Hanti.
  destruct (String.compare a a); simpl in Hanti; congruence.
Qed.

Lemma string_ltb_asym a b : String.ltb a b = true -> String.ltb b a = false.
Proof.
  intros Hab. destruct (String.ltb b a) eqn:Hba; [| reflexivity].
  pose proof (string_ltb_trans a b a Hab Hba) as Haa.
  rewrite string_ltb_irrefl in Haa. discriminate.
Qed.

Lemma date_le_iff a b :
  date_le a b <->
  String.ltb (bar_date a) (bar_date b) = true \/ bar_date a = bar_date b.
Proof.
  unfold date_le. split.
  - intros Hle.
    destruct (string_ltb_cases (bar_date a) (bar_date b)) as [? | [? | Hba]];
      auto.
    congruence.
  - intros [Hlt | Heq]; [now apply string_ltb_asym |].
    rewrite Heq. apply string_ltb_irrefl.
Qed.

Lemma date_le_trans a b c : date_le a b -> date_le b c -> date_le a c.
Proof.
  rewrite !date_le_iff. intros [Hab | Hab] [Hbc | Hbc].
  - left. eapply string_ltb_trans; eauto.
  - left. now rewrite <- Hbc.
  - left. now rewrite Hab.
  - right. congruence.
Qed.

Lemma insert_by_date_Permutation x l : insert_by_date x l ≡ₚ x :: l.
Proof.
  induction l as [| y l IH]; [reflexivity |]. simpl.
  destruct (String.ltb (bar_date y) (bar_date x)); [| reflexivity].
  rewrite IH. apply Permutation_swap.
Qed.

Lemma sorted_by_date_Permutation l : sorted_by_date l ≡ₚ l.
Proof.
  induction l as [| x l IH]; [reflexivity |].
  unfold sorted_by_date in *. simpl. rewrite insert_by_date_Permutation.
  now rewrite IH.
Qed.

Lemma insert_by_date_sorted x l :
  StronglySorted date_le l -> StronglySorted date_le (insert_by_date x l).
Proof.
  induction 1 as [| y l Hsorted IH Hall]; simpl.
  - repeat constructor.
  - destruct (String.ltb (bar_date y) (bar_date x)) eqn:Hlt.
    + constructor; [exact IH |].
      rewrite insert_by_date_Permutation.
      constructor; [| exact Hall]. apply date_le_iff. now left.
    + constructor; [now constructor |].
      constructor; [exact Hlt |].
      eapply Forall_impl; [exact Hall |]. simpl.
      intros z Hz. eapply date_le_trans; [exact Hlt | exact Hz].
Qed.

Lemma sorted_by_date_sorted l : StronglySorted date_le (sorted_by_date l).
Proof.
  induction l as [| x l IH]; [constructor |].
  apply insert_by_date_sorted, IH.
Qed.

Lemma StronglySorted_strict (l : list ohlcv) :
  StronglySorted date_le l -> NoDup (bar_date <$> l) ->
  StronglySorted
    (fun a b => String.ltb (bar_date a) (bar_date b) = true) l.
Proof.
  induction 1 as [| x l Hsorted IH Hall]; [constructor |].
  rewrite fmap_cons. intros [Hx Hnodup]%NoDup_cons.
  constructor; [now apply IH |].
  apply Forall_forall. intros y Hy.
  rewrite Forall_forall in Hall. specialize (Hall y Hy).
  apply date_le_iff in Hall as [Hlt | Heq]; [exact Hlt |].
  exfalso. apply Hx. rewrite Heq. apply list_elem_of_fmap. eauto.
Qed.

Section Alpha_vantage.
Context `{StrParsers}.
Variable int_of_str : string -> option Z.

Lemma getitem_float (values : gmap string string) k :
  getitem values k ≫= py_float
  = match values !! k ≫= float_of_str with
    | Some x => Ok x
    | None =>
        Raise (match values !! k with Some _ => ValueError | None => KeyError
               end)
    end.
Proof.
  unfold getitem, py_float. destruct (values !! k) as [s |]; simpl;
    [| reflexivity].
  destruct (float_of_str s); reflexivity.
Qed.

Lemma getitem_int (values : gmap string string) k :
  getitem values k ≫= py_int int_of_str
  = match values !! k ≫= int_of_str with
    | Some x => Ok x
    | None =>
        Raise (match values !! k with Some _ => ValueError | None => KeyError
               end)
    end.
Proof.
  unfold getitem, py_int. destruct (values !! k) as [s |]; simpl;
    [| reflexivity].
  destruct (int_of_str s); reflexivity.
Qed.

Lemma bar_of_Ok date_str values b :
  bar_of int_of_str date_str values = Ok b
  <-> converts int_of_str (date_str, values) b.
Proof.
  unfold bar_of, converts. rewrite !getitem_float, getitem_int.
  cbn [fst snd].
  destruct (values !! "1. open" ≫= float_of_str) as [o |];
    cbn [mbind result_bind fmap option_fmap option_map];
    [| split; [discriminate | intros (_ & ? & _); discriminate]].
  destruct (values !! "2. high" ≫= float_of_str) as [h |];
    cbn [mbind result_bind fmap option_fmap option_map];
    [| split; [discriminate | intros (_ & _ & ? & _); discriminate]].
  destruct (values !! "3. low" ≫= float_of_str) as [l |];
    cbn [mbind result_bind fmap option_fmap option_map];
    [| split; [discriminate | intros (_ & _ & _ & ? & _); discriminate]].
  destruct (values !! "4. close" ≫= float_of_str) as [c |];
    cbn [mbind result_bind fmap option_fmap option_map];
    [| split; [discriminate | intros (_ & _ & _ & _ & ? & _); discriminate]].
  destruct (values !! "5. volume" ≫= int_of_str) as [v |];
    cbn [mbind result_bind fmap option_fmap option_map];
    [| split; [discriminate | intros (_ & _ & _ & _ & _ & ?); discriminate]].
  split.
  - intros [= <-]. repeat split.
  - destruct b as [bd bo bh bl bc bv]. cbn.
    intros (-> & [= ->] & [= ->] & [= ->] & [= ->] & [= ->]). reflexivity.
Qed.

Lemma bars_of_cases series :
  match bars_of int_of_str series with
  | Ok bars => Forall2 (converts int_of_str) series bars
  | Raise _ =>
      exists entry,
        entry ∈ series /\ forall b, ~ converts int_of_str entry b
  end.
Proof.
  induction series as [| [date_str values] rest IH]; simpl; [constructor |].
  destruct (bar_of int_of_str date_str values) as [b | e] eqn:Hb; simpl.
  - destruct (bars_of int_of_str rest) as [bars | e]; simpl.
    + constructor; [now apply bar_of_Ok | exact IH].
    + destruct IH as (entry & Hin & Hno). exists entry.
      split; [now right | exact Hno].
  - exists (date_str, values). split; [now left |].
    intros b Hconv. apply bar_of_Ok in Hconv. congruence.
Qed.

Lemma converts_dates series bars :
  Forall2 (converts int_of_str) series bars ->
  bar_date <$> bars = series.*1.
Proof.
  induction 1 as [| entry b series bars Hconv _ IH]; [reflexivity |].
  rewrite !fmap_cons, IH. f_equal. apply Hconv.
Qed.

End Alpha_vantage.

(** X15.  The daily series is all or nothing and comes back in the order of
    its dates.  When the request succeeds, the response has the time series
    and every entry converts (four prices that parse, a volume that parses),
    the result has exactly the converted entries, prices rounded to two
    decimals, sorted by date string, strictly so since the keys of the time
    series are distinct; in every other case, one unreadable entry being
    enough, the result is empty.  Nothing is ever raised. *)
Theorem get_daily_data_all_or_nothing :
  forall (P : StrParsers) (int_of_str : string -> option Z)
         (response : result (option time_series)),
    let out := get_daily_data int_of_str response in
    StronglySorted date_le out
    /\ (forall series,
          response = Ok (Some series) ->
          (exists entry,
             entry ∈ series /\ forall b, ~ converts int_of_str entry b) ->
          out = [])
    /\ (forall series,
          response = Ok (Some series) ->
          (forall entry, entry ∈ series ->
                         exists b, converts int_of_str entry b) ->
          exists bars,
            Forall2 (converts int_of_str) series bars
            /\ out ≡ₚ bars
            /\ (NoDup series.*1 ->
                StronglySorted
                  (fun a b => String.ltb (bar_date a) (bar_date b) = true)
                  out))
    /\ ((forall series, response <> Ok (Some series)) -> out = []).
Proof.
  intros P int_of_str response out. subst out.
  split; [| split; [| split]].
  - unfold get_daily_data.
    destruct response as [[series |] | e]; try constructor.
    destruct (bars_of int_of_str series); [| constructor].
    apply sorted_by_date_sorted.
  - intros series -> (entry & Hin & Hno). unfold get_daily_data.
    pose proof (bars_of_cases int_of_str series) as Hcases.
    destruct (bars_of int_of_str series) as [bars | e]; [| reflexivity].
    exfalso.
    apply list_elem_of_lookup in Hin as [i Hi].
    destruct (Forall2_lookup_l _ _ _ _ _ Hcases Hi) as (b & _ & Hconv).
    exact (Hno b Hconv).
  - intros series -> Hall. unfold get_daily_data.
    pose proof (bars_of_cases int_of_str series) as Hcases.
    destruct (bars_of int_of_str series) as [bars | e].
    + exists bars. split; [exact Hcases |].
      split; [apply sorted_by_date_Permutation |].
      intros Hnodup. apply StronglySorted_strict.
      * apply sorted_by_date_sorted.
      * rewrite sorted_by_date_Permutation.
        now rewrite (converts_dates int_of_str series bars Hcases).
    + exfalso. destruct Hcases as (entry & Hin & Hno).
      destruct (Hall entry Hin) as [b Hb]. exact (Hno b Hb).
  - intros Hno. unfold get_daily_data.
    destruct response as [[series |] | e]; try reflexivity.
    now destruct (Hno series).
Qed.

Lemma get_daily_data_all_or_nothing_witness :
  (bar_date <$> get_daily_data (H := Ascii_parsers.parsers)
                  World_bank_samples.plain_int
                  (Ok (Some Alpha_vantage_samples.series)))
  = ["2024-01-02"; "2024-01-03"; "2024-01-04"]
  /\ get_daily_data (H := Ascii_parsers.parsers) World_bank_samples.plain_int
       (Ok (Some Alpha_vantage_samples.broken_series)) = [].
Proof.
  destruct (get_daily_data_all_or_nothing Ascii_parsers.parsers
              World_bank_samples.plain_int
              (Ok (Some Alpha_vantage_samples.broken_series)))
    as (_ & Hnothing & _).
  split; [reflexivity |].
  apply (Hnothing _ eq_refl).
  exists (Alpha_vantage_samples.entry "2024-01-03" "120" "122" "119.5"
            "121.5" "n/a").
  split; [right; left |].
  intros b (_ & _ & _ & _ & _ & Hv). vm_compute in Hv. discriminate Hv.
Defined.

Lemma get_daily_data_sorted `{StrParsers} int_of_str response :
  StronglySorted date_le (get_daily_data int_of_str response).
Proof.
  unfold get_daily_data.
  destruct response as [[series |] | e]; try constructor.
  destruct (bars_of int_of_str series); [| constructor].
  apply sorted_by_date_sorted.
Qed.

Lemma period_days_bounds period : 1 <= period_days period <= 7300.
Proof.
  unfold period_days.
  repeat match goal with
         | |- context [match ?s with EmptyString => _ | String _ _ => _ end] =>
             destruct s
         | |- context [match ?a with Ascii _ _ _ _ _ _ _ _ => _ end] =>
             destruct a
         | |- context [if ?b then _ else _] => destruct b
         end; lia.
Qed.

Lemma StronglySorted_app_le {A} (R : A -> A -> Prop) l1 l2 :
  StronglySorted R (l1 ++ l2) ->
  StronglySorted R l2 /\ forall a b, a ∈ l1 -> b ∈ l2 -> R a b.
Proof.
  induction l1 as [| x l1 IH]; simpl.
  - intros Hsorted. split; [exact Hsorted |]. intros a b Ha. inversion Ha.
  - intros Hsorted. apply StronglySorted_inv in Hsorted as [Hrest Hall].
    destruct (IH Hrest) as [H2 Hle]. split; [exact H2 |].
    intros a b [-> | Ha]%elem_of_cons Hb; [| now apply Hle].
    rewrite Forall_forall in Hall. apply Hall.
    apply elem_of_app. now right.
Qed.

(** X16.  The historical series is the end of the daily series: the
    request asks for the full output when the period needs more than 100
    days, the result is the last [days_needed] bars of the daily series, all
    of them when there are fewer, so that every bar left out is dated no
    later than every bar kept; and the result is empty only when the daily
    series is. *)
Theorem get_historical_data_latest_bars :
  forall (P : StrParsers) (int_of_str : string -> option Z)
         (request : outputsize -> result (option time_series))
         (period : string),
    let days_needed := period_days period in
    let size := if 100 <? days_needed then Full else Compact in
    let daily := get_daily_data int_of_str (request size) in
    let out := AlphaVantageService.get_historical_data int_of_str request period in
    (exists older,
       daily = older ++ out
       /\ forall a b, a ∈ older -> b ∈ out -> date_le a b)
    /\ Z.of_nat (length out) = Z.min days_needed (Z.of_nat (length daily))
    /\ StronglySorted date_le out
    /\ (out = [] <-> daily = []).
Proof.
  intros P int_of_str request period days_needed size daily out.
  pose proof (period_days_bounds period) as Hdays.
  fold days_needed in Hdays.
  assert (Hout : out = lastn (Z.to_nat days_needed) daily).
  { subst out. unfold AlphaVantageService.get_historical_data.
    fold days_needed. fold size. fold daily.
    destruct daily as [| b daily'] eqn:Hdaily.
    - unfold lastn. now rewrite drop_nil.
    - rewrite <- Hdaily.
      destruct (days_needed <? Z.of_nat (length daily)) eqn:Hlt;
        [reflexivity |].
      apply Z.ltb_ge in Hlt. unfold lastn.
      replace (length daily - Z.to_nat days_needed)%nat with 0%nat by lia.
      reflexivity. }
  assert (Hsorted : StronglySorted date_le daily).
  { subst daily. apply get_daily_data_sorted. }
  assert (Hsplit : daily = take (length daily - Z.to_nat days_needed) daily
                           ++ out).
  { rewrite Hout. unfold lastn. now rewrite take_drop. }
  rewrite Hsplit in Hsorted.
  apply StronglySorted_app_le in Hsorted as [Hsorted Hle].
  split; [| split; [| split]].
  - eexists. split; [exact Hsplit | exact Hle].
  - rewrite Hout. unfold lastn. rewrite length_drop. lia.
  - exact Hsorted.
  - rewrite Hout. unfold lastn. split.
    + intros Hnil. apply (f_equal length) in Hnil.
      rewrite length_drop in Hnil. simpl in Hnil.
      destruct daily; [reflexivity | simpl in Hnil; lia].
    + intros ->. apply drop_nil.
Qed.

Lemma get_historical_data_latest_bars_witness :
  let request size :=
    match size with
    | Compact => Ok (Some Alpha_vantage_samples.series)
    | Full => Raise ValueError
    end in
  let out :=
    AlphaVantageService.get_historical_data (H := Ascii_parsers.parsers)
      World_bank_samples.plain_int request "1d" in
  Z.of_nat (length out) = 1 /\ bar_date <$> out = ["2024-01-04"].
Proof.
  intros request out.
  destruct (get_historical_data_latest_bars Ascii_parsers.parsers
              World_bank_samples.plain_int request "1d")
    as (_ & Hlen & _).
  split; [| reflexivity].
  subst out. rewrite Hlen. reflexivity.
Defined.

(** ** The demo generator and the stock service *)

Lemma days_before_S today n :
  days_before today (S n) = (today - Z.of_nat (S n)) :: days_before today n.
Proof.
  unfold days_before. cbn [seq]. rewrite fmap_cons. f_equal; [lia |].
  rewrite <- fmap_S_seq, <- list_fmap_compose.
  apply Forall_fmap_ext, Forall_forall. intros j _. simpl. lia.
Qed.

Lemma days_before_elem today n o :
  o ∈ days_before today n <-> today - Z.of_nat n <= o < today.
Proof.
  unfold days_before. rewrite list_elem_of_fmap. split.
  - intros (j & -> & Hj). apply elem_of_seq in Hj. lia.
  - intros Ho. exists (Z.to_nat (o - (today - Z.of_nat n))).
    split; [lia |]. apply elem_of_seq. lia.
Qed.

Lemma is_weekday_shift o : is_weekday (o + 7) = is_weekday o.
Proof.
  unfold is_weekday, weekday.
  replace (o + 7 + 6) with (o + 6 + 1 * 7) by lia.
  now rewrite Z.mod_add by lia.
Qed.

Lemma three_days_have_a_weekday o :
  is_weekday o = true \/ is_weekday (o + 1) = true
  \/ is_weekday (o + 2) = true.
Proof.
  unfold is_weekday, weekday. rewrite !Z.ltb_lt.
  pose proof (Z.mod_pos_bound (o + 6) 7 ltac:(lia)).
  pose proof (Z.div_mod (o + 6) 7 ltac:(lia)).
  pose proof (Z.mod_pos_bound (o + 1 + 6) 7 ltac:(lia)).
  pose proof (Z.div_mod (o + 1 + 6) 7 ltac:(lia)).
  pose proof (Z.mod_pos_bound (o + 2 + 6) 7 ltac:(lia)).
  pose proof (Z.div_mod (o + 2 + 6) 7 ltac:(lia)).
  lia.
Qed.

Lemma weekdays_non_empty today n :
  (3 <= n)%nat ->
  filter (fun o => is_weekday o = true) (days_before today n) <> [].
Proof.
  intros Hn Hnil.
  assert (Hnone : forall o, today - 3 <= o < today -> is_weekday o = false).
  { intros o Ho. destruct (is_weekday o) eqn:Hw; [| reflexivity].
    assert (Hin : o ∈ filter (fun o => is_weekday o = true)
                      (days_before today n)).
    { apply list_elem_of_filter. split; [exact Hw |].
      apply days_before_elem. lia. }
    rewrite Hnil in Hin. inversion Hin. }
  destruct (three_days_have_a_weekday (today - 3)) as [Hw | [Hw | Hw]];
    rewrite Hnone in Hw by lia; discriminate.
Qed.

Lemma weekdays_count today n :
  length (filter (fun o => is_weekday o = true) (days_before today n))
  = length (filter
              (fun j =>
                 (((today - Z.of_nat n + 6) mod 7 + Z.of_nat j) mod 7 <? 5)
                 = true)
              (seq 0 n)).
Proof.
  unfold days_before. generalize (seq 0 n). intros l.
  induction l as [| j l IH]; [reflexivity |].
  rewrite fmap_cons, !filter_cons.
  assert (Hj : is_weekday (today - Z.of_nat n + Z.of_nat j)
               = (((today - Z.of_nat n + 6) mod 7 + Z.of_nat j) mod 7 <? 5)).
  { unfold is_weekday, weekday. f_equal.
    rewrite Zplus_mod_idemp_l. f_equal. lia. }
  rewrite Hj.
  destruct (decide
              ((((today - Z.of_nat n + 6) mod 7 + Z.of_nat j) mod 7 <? 5)
               = true));
    simpl; now rewrite IH.
Qed.

Lemma weekdays_of_90_days today :
  (64 <= length (filter (fun o => is_weekday o = true)
                   (days_before today 90)) <= 65)%nat.
Proof.
  rewrite weekdays_count.
  pose proof (Z.mod_pos_bound (today - Z.of_nat 90 + 6) 7 ltac:(lia)) as Hr.
  set (r := (today - Z.of_nat 90 + 6) mod 7) in *.
  assert (Hcases : r = 0 \/ r = 1 \/ r = 2 \/ r = 3 \/ r = 4 \/ r = 5
                   \/ r = 6) by lia.
  clearbody r.
  destruct Hcases as [-> | [-> | [-> | [-> | [-> | [-> | ->]]]]]];
    vm_compute; lia.
Qed.

Section Demo_facts.
Variable strftime_ymd : Z -> string.
Variable today : Z.
Variable rng : nat -> draws.

Lemma demo_loop_Ok n : forall price k,
  n = 0%nat \/ 1 <= today - Z.of_nat n ->
  exists data,
    demo_loop strftime_ymd today rng n price k = Ok data
    /\ bar_date <$> data
       = strftime_ymd
           <$> filter (fun o => is_weekday o = true) (days_before today n)
    /\ (forall b, head data = Some b -> bar_open b = round2 price)
    /\ (forall i a b,
          data !! i = Some a -> data !! S i = Some b ->
          bar_open b = bar_close a)
    /\ bar_volume <$> data
       = (fun j => n_volume (rng (k + j)%nat)) <$> seq 0 (length data).
Proof.
  induction n as [| n IH]; intros price k Hday.
  - exists []. repeat split; discriminate.
  - rewrite days_before_S, filter_cons. cbn [demo_loop].
    destruct (today - Z.of_nat (S n) <? 1) eqn:Hover;
      [apply Z.ltb_lt in Hover; lia |].
    apply Z.ltb_ge in Hover.
    unfold is_weekday at 1.
    destruct (5 <=? weekday (today - Z.of_nat (S n))) eqn:Hweekend.
    + apply Z.leb_le in Hweekend.
      destruct (decide ((weekday (today - Z.of_nat (S n)) <? 5) = true))
        as [Hlt | _]; [apply Z.ltb_lt in Hlt; lia |].
      apply IH. lia.
    + apply Z.leb_gt in Hweekend.
      destruct (decide ((weekday (today - Z.of_nat (S n)) <? 5) = true))
        as [_ | Hge]; [| rewrite Z.ltb_lt in Hge; lia].
      match goal with
      | |- context [demo_loop _ _ _ n ?close (S k)] =>
          destruct (IH close (S k) ltac:(lia))
            as (data & -> & Hdates & Hhead & Hchain & Hvol)
      end.
      eexists. split; [reflexivity |].
      split; [rewrite !fmap_cons, Hdates; reflexivity |].
      split; [intros b [= <-]; reflexivity |].
      split.
      * intros [| i] a b Ha Hb.
        -- injection Ha as <-. simpl in Hb.
           rewrite <- head_lookup in Hb. now apply Hhead.
        -- simpl in Ha, Hb. eapply Hchain; eauto.
      * rewrite fmap_cons, Hvol. cbn [length seq]. rewrite fmap_cons.
        f_equal; [now rewrite Nat.add_0_r |].
        rewrite <- fmap_S_seq, <- list_fmap_compose.
        apply Forall_fmap_ext, Forall_forall. intros j _. simpl.
        now rewrite Nat.add_succ_r.
Qed.

Lemma demo_loop_overflow n price k :
  (1 <= n)%nat -> today - Z.of_nat n < 1 ->
  demo_loop strftime_ymd today rng n price k = Raise OverflowError.
Proof.
  intros Hn Hover. destruct n as [| n]; [lia |]. cbn [demo_loop].
  apply Z.ltb_lt in Hover. now rewrite Hover.
Qed.

End Demo_facts.

(** X17.  The demo generator makes one bar for each weekday among the
    [days] days before today, oldest first, and none for a Saturday or a
    Sunday; the first bar opens at the base price and each later bar opens
    at the close of the bar before it (all rounded to two decimals); the
    volumes are the successive draws.  So there is a bar as soon as
    [days] is 3 or more, and 64 or 65 bars for 90 days.  When today is
    not more than [days] days after the first day of year 1 the date
    subtraction raises [OverflowError]. *)
Theorem generate_realistic_price_data_weekdays :
  forall (strftime_ymd : Z -> string) (today : Z) (rng : nat -> draws)
         (days : Z) (base_price : float),
    (1 <= days -> today <= days ->
     generate_realistic_price_data strftime_ymd today rng days base_price
     = Raise OverflowError)
    /\ (days < today ->
        exists data,
          generate_realistic_price_data strftime_ymd today rng days
            base_price = Ok data
          /\ bar_date <$> data
             = strftime_ymd
                 <$> filter (fun o => is_weekday o = true)
                       (days_before today (Z.to_nat days))
          /\ (forall b, head data = Some b -> bar_open b = round2 base_price)
          /\ (forall i a b,
                data !! i = Some a -> data !! S i = Some b ->
                bar_open b = bar_close a)
          /\ bar_volume <$> data
             = (fun j => n_volume (rng j)) <$> seq 0 (length data)
          /\ (3 <= days -> data <> [])
          /\ (days = 90 -> (64 <= length data <= 65)%nat)).
Proof.
  intros strftime_ymd today rng days base_price. split.
  - intros Hdays Hover. apply demo_loop_overflow; lia.
  - intros Hdays. unfold generate_realistic_price_data.
    destruct (demo_loop_Ok strftime_ymd today rng (Z.to_nat days) base_price
                0%nat ltac:(lia))
      as (data & Hdata & Hdates & Hhead & Hchain & Hvol).
    exists data. repeat split; try assumption.
    + intros Hthree ->.
      apply (weekdays_non_empty today (Z.to_nat days) ltac:(lia)).
      symmetry in Hdates. apply fmap_nil_inv in Hdates. exact Hdates.
    + subst days. apply (f_equal length) in Hdates.
      rewrite !length_fmap in Hdates. rewrite Hdates.
      apply (weekdays_of_90_days today).
    + subst days. apply (f_equal length) in Hdates.
      rewrite !length_fmap in Hdates. rewrite Hdates.
      apply (weekdays_of_90_days today).
Qed.

Lemma generate_realistic_price_data_weekdays_witness :
  exists data,
    generate_realistic_price_data Demo_samples.strftime_sample
      Demo_samples.monday (fun _ => Demo_samples.flat) 5 0x1.7ap+7%float
    = Ok data
    /\ bar_date <$> data = ["2025-01-01"; "2025-01-02"; "2025-01-03"]
    /\ (bar_open <$> head data) = Some 0x1.7ap+7%float.
Proof.
  destruct (generate_realistic_price_data_weekdays
              Demo_samples.strftime_sample Demo_samples.monday
              (fun _ => Demo_samples.flat) 5 0x1.7ap+7%float)
    as [_ Hok].
  destruct Hok as (data & Hdata & Hdates & Hhead & _);
    [unfold Demo_samples.monday; lia |].
  exists data. split; [exact Hdata |].
  split; [rewrite Hdates; reflexivity |].
  destruct data as [| b data]; [discriminate Hdates |].
  simpl. f_equal. rewrite (Hhead b eq_refl). reflexivity.
Defined.

Lemma update_stock_data_with_bars `{StrParsers} now src data db :
  data <> [] ->
  snd (update_stock_data now (with_bars src data) db)
  <> StepError (Literal "No stock data available from Alpha Vantage").
Proof.
  intros Hne. rewrite update_stock_data_eq by exact Hne.
  destruct (flush stock_date _ _); simpl; discriminate.
Qed.

(** X18.  The stock service never hands an empty history to its callers
    for a period of three days or more: it returns the bars of Alpha Vantage
    when the adapter is configured and has any, and the demo bars in every
    other case, which are not empty.  So the guard of the stock step against
    an empty fetch, with its message 'No stock data available from Alpha
    Vantage', cannot fire on what the service returns for the three months
    that the step asks for. *)
Theorem stock_service_history_never_empty :
  forall (P : StrParsers) (int_of_str : string -> option Z)
         (strftime_ymd : Z -> string) (today : Z) (rng : nat -> draws)
         (alpha_vantage : option (outputsize -> result (option time_series)))
         (period : string),
    3 <= period_days_map period < today ->
    let real :=
      match alpha_vantage with
      | Some request =>
          AlphaVantageService.get_historical_data int_of_str request period
      | None => []
      end in
    exists data,
      StockService.get_historical_data strftime_ymd today rng int_of_str
        alpha_vantage period = Ok data
      /\ data <> []
      /\ (real <> [] -> data = real)
      /\ (real = [] ->
          generate_realistic_price_data strftime_ymd today rng
            (period_days_map period) 0x1.7ap+7%float = Ok data)
      /\ forall now src db,
           snd (update_stock_data now (with_bars src data) db)
           <> StepError (Literal "No stock data available from Alpha Vantage").
Proof.
  intros P int_of_str strftime_ymd today rng alpha_vantage period Hdays real.
  destruct (demo_loop_Ok strftime_ymd today rng
              (Z.to_nat (period_days_map period)) 0x1.7ap+7%float 0%nat
              ltac:(lia))
    as (demo & Hdemo & Hdates & _).
  assert (Hne : demo <> []).
  { intros ->.
    apply (weekdays_non_empty today (Z.to_nat (period_days_map period))
             ltac:(lia)).
    symmetry in Hdates. apply fmap_nil_inv in Hdates. exact Hdates. }
  assert (Hcases :
            (real = []
             /\ StockService.get_historical_data strftime_ymd today rng
                  int_of_str alpha_vantage period = Ok demo)
            \/ (real <> []
                /\ StockService.get_historical_data strftime_ymd today rng
                     int_of_str alpha_vantage period = Ok real)).
  { subst real. unfold StockService.get_historical_data.
    destruct alpha_vantage as [request |]; [| left; split; auto].
    destruct (AlphaVantageService.get_historical_data int_of_str request
                period) as [| b data].
    - left. split; [reflexivity | exact Hdemo].
    - right. split; [discriminate | reflexivity]. }
  destruct Hcases as [[Hreal Hget] | [Hreal Hget]].
  - exists demo. split; [exact Hget |]. split; [exact Hne |].
    split; [intros Hno; now destruct Hno |]. split; [intros _; exact Hdemo |].
    intros now src db. now apply update_stock_data_with_bars.
  - exists real. split; [exact Hget |]. split; [exact Hreal |].
    split; [reflexivity |]. split; [intros Hno; now destruct Hreal |].
    intros now src db. now apply update_stock_data_with_bars.
Qed.

Lemma stock_service_history_never_empty_witness :
  exists data,
    StockService.get_historical_data (H := Ascii_parsers.parsers)
      Demo_samples.strftime_sample Demo_samples.monday
      (fun _ => Demo_samples.flat) World_bank_samples.plain_int None "5d"
    = Ok data
    /\ data <> [].
Proof.
  destruct (stock_service_history_never_empty Ascii_parsers.parsers
              World_bank_samples.plain_int Demo_samples.strftime_sample
              Demo_samples.monday (fun _ => Demo_samples.flat) None "5d")
    as (data & Hdata & Hne & _).
  - vm_compute. split; [intros Hc; discriminate Hc | reflexivity].
  - exists data. split; [exact Hdata | exact Hne].
Defined.

Lemma days_before_NoDup today n : NoDup (days_before today n).
Proof.
  unfold days_before. apply NoDup_fmap_2_strong; [| apply NoDup_seq].
  intros i j _ _ Hij. lia.
Qed.

Lemma parsed_bars_all `{StrParsers} (bars : list ohlcv) :
  Forall (fun b => is_Some (strptime_ymd (bar_date b))) bars ->
  Some <$> (parsed_bars bars).*1 = (fun b => strptime_ymd (bar_date b)) <$> bars.
Proof.
  induction 1 as [| b bars [d Hd] _ IH]; [reflexivity |].
  unfold parsed_bars in *. cbn [omap list_omap]. rewrite Hd.
  rewrite !fmap_cons. cbn [fst]. rewrite Hd. f_equal. exact IH.
Qed.

(** X19.  The demo data through the stock step: when date strings made by
    [strftime] are read back by [strptime], different days giving different
    dates, the step run on the demo bars of three days or more succeeds, its
    count is the number of bars, one per weekday of the window, and each bar
    date gets its own row, so that the unique constraint is never violated;
    the indicator table is not touched. *)
Theorem demo_history_is_stored :
  forall (P : StrParsers) (strftime_ymd : Z -> string) (today : Z)
         (rng : nat -> draws) (days : Z) (base_price : float)
         (data : list ohlcv) now src db,
    generate_realistic_price_data strftime_ymd today rng days base_price
    = Ok data ->
    3 <= days ->
    (forall o, today - days <= o < today ->
               is_Some (strptime_ymd (strftime_ymd o))) ->
    (forall o1 o2,
       today - days <= o1 < today -> today - days <= o2 < today ->
       strptime_ymd (strftime_ymd o1) = strptime_ymd (strftime_ymd o2) ->
       o1 = o2) ->
    exists table',
      update_stock_data now (with_bars src data) db
      = ({| economic_indicators := economic_indicators db;
            stock_data := table' |},
         StepSuccess (length data))
      /\ length data
         = length (filter (fun o => is_weekday o = true)
                     (days_before today (Z.to_nat days)))
      /\ NoDup (parsed_bars data).*1
      /\ forall b, b ∈ data ->
           exists d r,
             strptime_ymd (bar_date b) = Some d
             /\ query_first stock_date d table' = Some r.
Proof.
  intros P strftime_ymd today rng days base_price data now src db
    Hdata Hdays Hparse Hinj.
  assert (Htoday : days < today).
  { destruct (Z.ltb_spec days today) as [Hlt | Hge]; [exact Hlt |].
    unfold generate_realistic_price_data in Hdata.
    rewrite demo_loop_overflow in Hdata by lia. discriminate Hdata. }
  destruct (demo_loop_Ok strftime_ymd today rng (Z.to_nat days) base_price
              0%nat ltac:(lia))
    as (data' & Hdata' & Hdates & _).
  unfold generate_realistic_price_data in Hdata.
  rewrite Hdata' in Hdata. injection Hdata as ->.
  set (W := filter (fun o => is_weekday o = true)
              (days_before today (Z.to_nat days))) in *.
  assert (HW : forall o, o ∈ W -> today - days <= o < today).
  { intros o Ho. apply list_elem_of_filter in Ho as [_ Ho].
    apply days_before_elem in Ho. lia. }
  assert (Hne : data <> []).
  { intros ->. apply (weekdays_non_empty today (Z.to_nat days) ltac:(lia)).
    symmetry in Hdates. apply fmap_nil_inv in Hdates. exact Hdates. }
  assert (Hkeys : Some <$> (parsed_bars data).*1
                  = (fun o => strptime_ymd (strftime_ymd o)) <$> W).
  { rewrite parsed_bars_all.
    - change ((strptime_ymd ∘ bar_date) <$> data
              = (strptime_ymd ∘ strftime_ymd) <$> W).
      now rewrite !list_fmap_compose, Hdates.
    - apply Forall_forall. intros b Hb.
      assert (Hd : bar_date b ∈ bar_date <$> data)
        by (apply list_elem_of_fmap; eauto).
      rewrite Hdates in Hd. apply list_elem_of_fmap in Hd as (o & -> & Ho).
      apply Hparse, HW, Ho. }
  assert (Hnd : NoDup (parsed_bars data).*1).
  { apply (NoDup_fmap_1 Some). rewrite Hkeys.
    apply NoDup_fmap_2_strong.
    - intros o1 o2 H1 H2. apply Hinj; now apply HW.
    - apply NoDup_filter, days_before_NoDup. }
  assert (Hlen : length (parsed_bars data) = length data).
  { apply (f_equal length) in Hkeys, Hdates.
    rewrite !length_fmap in Hkeys. rewrite !length_fmap in Hdates.
    congruence. }
  eexists. split; [| split; [| split; [exact Hnd |]]].
  - rewrite (update_stock_data_eq now (with_bars src data) db Hne).
    cbn [with_bars stock_bars].
    rewrite (flush_inserted_rows stock_date (stock_merge now)
               (stock_make now));
      [rewrite Hlen; reflexivity | reflexivity | reflexivity | exact Hnd].
  - apply (f_equal length) in Hdates. now rewrite !length_fmap in Hdates.
  - intros b Hb.
    assert (Hd : bar_date b ∈ bar_date <$> data)
      by (apply list_elem_of_fmap; eauto).
    rewrite Hdates in Hd. apply list_elem_of_fmap in Hd as (o & Hbo & Ho).
    destruct (Hparse o (HW o Ho)) as [d Hd]. rewrite <- Hbo in Hd.
    exists d.
    assert (Hin : (d, b) ∈ parsed_bars data).
    { unfold parsed_bars. apply list_elem_of_omap. exists b.
      split; [exact Hb |]. now rewrite Hd. }
    rewrite (query_first_upserted_rows stock_date (stock_merge now)
               (stock_make now)); [| reflexivity | reflexivity | exact Hnd].
    rewrite (item_of_unique d (parsed_bars data) b Hnd Hin).
    destruct (query_first stock_date d (stock_data db)); eauto.
Qed.

Lemma demo_history_is_stored_witness :
  exists data table',
    generate_realistic_price_data Demo_samples.strftime_sample
      Demo_samples.monday (fun _ => Demo_samples.flat) 5 0x1.7ap+7%float
    = Ok data
    /\ update_stock_data (H := Ascii_parsers.parsers) 9
         (with_bars Samples.no_feeds data) Samples.empty_db
       = ({| economic_indicators := []; stock_data := table' |},
          StepSuccess 3).
Proof.
  eexists.
  destruct (demo_history_is_stored Ascii_parsers.parsers
              Demo_samples.strftime_sample Demo_samples.monday
              (fun _ => Demo_samples.flat) 5 0x1.7ap+7%float _ 9
              Samples.no_feeds Samples.empty_db eq_refl)
    as (table' & Hstep & _).
  - lia.
  - unfold Demo_samples.monday. intros o Ho.
    assert (Hcases : o = 739252 \/ o = 739253 \/ o = 739254 \/ o = 739255
                     \/ o = 739256) by lia.
    destruct Hcases as [-> | [-> | [-> | [-> | ->]]]];
      vm_compute; eexists; reflexivity.
  - unfold Demo_samples.monday. intros o1 o2 H1 H2.
    assert (Hc1 : o1 = 739252 \/ o1 = 739253 \/ o1 = 739254 \/ o1 = 739255
                  \/ o1 = 739256) by lia.
    assert (Hc2 : o2 = 739252 \/ o2 = 739253 \/ o2 = 739254 \/ o2 = 739255
                  \/ o2 = 739256) by lia.
    destruct Hc1 as [-> | [-> | [-> | [-> | ->]]]];
      destruct Hc2 as [-> | [-> | [-> | [-> | ->]]]];
      vm_compute; intros Heq; try reflexivity; discriminate Heq.
  - exists table'. split; [reflexivity |]. exact Hstep.
Defined.

(** ** The indicator KPIs *)








(** ** A manual update from end to end *)

Lemma update_economic_indicators_error `{StrParsers} now src db m :
  snd (update_economic_indicators now src db) = StepError m ->
  fst (update_economic_indicators now src db) = db.
Proof.
  rewrite update_economic_indicators_eq.
  destruct (calculate_cpi_yoy_change (cpi_data src)); [| reflexivity].
  destruct (build_data_by_date _ _ _ _); [discriminate | reflexivity].
Qed.

Lemma update_stock_data_error `{StrParsers} now src db m :
  snd (update_stock_data now src db) = StepError m ->
  fst (update_stock_data now src db) = db.
Proof.
  destruct (stock_bars src) as [| item rest] eqn:Hbars.
  - unfold update_stock_data. now rewrite Hbars.
  - rewrite update_stock_data_eq by (rewrite Hbars; discriminate).
    destruct (flush stock_date _ _); [discriminate | reflexivity].
Qed.

(** X21.  Since both steps of the aggregator answer with a status of their
    own instead of raising, a run of the orchestrator on them always has
    the overall status ['success'] and logs it without errors, whatever the
    steps answered; a manual request that passes the cooldown check is
    therefore always answered with a completed update of status
    ['success'], never with an internal error; and when both steps answered
    ['error'] the store is exactly as before. *)
Theorem manual_update_always_completes_with_success :
  forall (P : StrParsers) last force t_check t_set now src db logs,
    let run := run_update now src Manual db logs in
    let answer :=
      snd (trigger_manual_update last force t_check t_set (Ok (snd run))) in
    sum_status (snd run) = Success
    /\ (exists entry,
          snd (fst run) = logs ++ [entry]
          /\ log_update_type entry = Manual
          /\ log_status entry = Success
          /\ log_errors entry = None)
    /\ (is_too_soon answer = false ->
        exists summary,
          answer = Completed summary /\ sum_status summary = Success)
    /\ (forall m1 m2,
          r_economic_indicators (sum_results (snd run)) = Some (StepError m1) ->
          r_stock_data (sum_results (snd run)) = Some (StepError m2) ->
          fst (fst run) = db).
Proof.
  intros P last force t_check t_set now src db logs run answer.
  assert (Hrun :
            run
            = (fst (update_stock_data now src
                      (fst (update_economic_indicators now src db))),
               logs ++ [ {| log_timestamp := now;
                            log_update_type := Manual;
                            log_status := Success;
                            log_sources_updated := sum_results (snd run);
                            log_errors := None |} ],
               {| sum_status := Success;
                  sum_results :=
                    {| r_economic_indicators :=
                         Some (snd (update_economic_indicators now src db));
                       r_stock_data :=
                         Some (snd (update_stock_data now src
                                      (fst (update_economic_indicators now src
                                              db))));
                       r_errors := [] |} |})).
  { subst run. unfold run_update, update_all_data.
    destruct (update_economic_indicators now src db) as [db1 r1].
    cbn [fst snd].
    destruct (update_stock_data now src db1) as [db2 r2]. reflexivity. }
  assert (Hstatus : sum_status (snd run) = Success) by now rewrite Hrun.
  split; [exact Hstatus |]. split; [| split].
  - eexists. split; [rewrite Hrun at 1; reflexivity |]. repeat split.
  - subst answer. unfold trigger_manual_update.
    destruct (cooldown_check last force t_check); [discriminate |].
    intros _. eexists. split; [reflexivity | exact Hstatus].
  - rewrite Hrun. cbn [fst snd sum_results r_economic_indicators r_stock_data].
    intros m1 m2 [= H1] [= H2].
    rewrite (update_stock_data_error _ _ _ _ H2).
    now rewrite (update_economic_indicators_error _ _ _ _ H1).
Qed.

Lemma manual_update_always_completes_with_success_witness :
  let src := with_bars Samples.zero_baseline_feeds [] in
  let run := @run_update Ascii_parsers.parsers 0 src Manual
               Samples.empty_db [] in
  r_economic_indicators (sum_results (snd run))
  = Some (StepError (StrOf ZeroDivisionError))
  /\ r_stock_data (sum_results (snd run))
     = Some (StepError (Literal "No stock data available from Alpha Vantage"))
  /\ sum_status (snd run) = Success
  /\ fst (fst run) = Samples.empty_db.
Proof.
  intros src run.
  destruct (manual_update_always_completes_with_success Ascii_parsers.parsers
              None false 0 0 0 src Samples.empty_db [])
    as (Hstatus & _ & _ & Hdb).
  assert (H1 : r_economic_indicators (sum_results (snd run))
               = Some (StepError (StrOf ZeroDivisionError)))
    by (vm_compute; reflexivity).
  assert (H2 : r_stock_data (sum_results (snd run))
               = Some (StepError
                         (Literal "No stock data available from Alpha Vantage")))
    by (vm_compute; reflexivity).
  split; [exact H1 |]. split; [exact H2 |]. split; [exact Hstatus |].
  exact (Hdb _ _ H1 H2).
Defined.
